(** * LiveQuiz: a shallow embedding of [app.py], [load_test.py] and
      [socket_load_test.py]

    The development has these parts.

    - [Py]: the fragment of Python's value model the handlers rely on
      (JSON values, truthiness, [int] of a string, [str] of an integer).
    - [Store] and [App]: the four PostgreSQL tables of [init_db] with the
      constraints their [CREATE TABLE] statements declare, a connection and
      cursor whose open/closed state is tracked, and the Flask route
      handlers of [app.py] written in a state-and-exception monad that
      records every [commit] and every [socketio.emit] in a trace.
    - [LoadTest]: binary64 floats, [LoadTestResult],
      [send_register_request] and the percentile indices shared with
      [SocketTestResult.get_statistics].
    - [Integrity]: the statements of the write handlers as a step
      relation, and the key constraints of the tables as predicates on a
      database.
    - [Reads]: the read-only routes, with [ORDER BY], [LIMIT] and
      [GROUP BY] on lists of rows.
    - [Numerals]: the numbers the code writes into names.
    - [LoadRun]: the name generators, [run_load_test] and
      [print_statistics] of [load_test.py], and a registration sent to
      [join_activity].
    - [SocketTest]: [SocketTestResult] of [socket_load_test.py].

    Request bodies are taken well typed: a key is absent, JSON [null], or a
    value of the JSON type its column expects.  Texts are UTF-8 encoded.
    Timestamps are clock readings in microseconds handed to each handler
    run.  The sequences behind the [SERIAL] ids are taken not to run out
    of the range of [INTEGER]. *)

From Stdlib Require Import ZArith List String Ascii Bool Lia DecimalString.
From Stdlib Require Import Permutation Sorted.
From Stdlib Require Import Floats.SpecFloat.
From Stdlib Require DecimalFacts DecimalPos.
Import ListNotations.

Local Open Scope string_scope.
Local Open Scope list_scope.
Local Open Scope Z_scope.

(* ================================================================== *)
(** * Python values *)
(* ================================================================== *)

Module Py.

(** JSON documents as [request.json] and [psycopg2] hand them to the code.
    Numbers are the integers; fractional numbers do not occur in the
    columns and keys the handlers read. *)
#[local] Set Warnings "-register-all".
Inductive json : Type :=
| JNull
| JBool (b : bool)
| JNum (n : Z)
| JStr (s : string)
| JArr (l : list json)
| JObj (kv : list (string * json)).

(** [bool(v)]: what [if v:] tests. *)
Definition truthy (v : json) : bool :=
  match v with
  | JNull => false
  | JBool b => b
  | JNum n => negb (n =? 0)
  | JStr s => negb (s =? "")%string
  | JArr l => match l with [] => false | _ => true end
  | JObj kv => match kv with [] => false | _ => true end
  end.

(** A key of a request body: missing, [null], or a value. *)
Inductive field (A : Type) : Type :=
| Absent
| Null
| Val (a : A).
Arguments Absent {A}.
Arguments Null {A}.
Arguments Val {A} a.

(** ['k' in data] *)
Definition present {A} (f : field A) : bool :=
  match f with Absent => false | _ => true end.

(** [data.get('k')]: [None] for a missing key and for [null]. *)
Definition get {A} (f : field A) : option A :=
  match f with Val a => Some a | _ => None end.

(** Truthiness of an optional integer and of an optional string. *)
Definition truthy_int (o : option Z) : bool :=
  match o with Some n => negb (n =? 0) | None => false end.

Definition truthy_str (o : option string) : bool :=
  match o with Some s => negb (s =? "")%string | None => false end.

(** A number typed into a form arrives as an integer or as text; the
    handlers pass such keys through [int(...)]. *)
Inductive int_or_str : Type :=
| IsInt (n : Z)
| IsStr (s : string).

Definition truthy_num (o : option int_or_str) : bool :=
  match o with
  | Some (IsInt n) => negb (n =? 0)
  | Some (IsStr s) => negb (s =? "")%string
  | None => false
  end.

(** [int(s)] for an ASCII text [s]: blanks around an optionally signed run
    of decimal digits, in which single underscores may separate digits.
    [None] stands for [ValueError].  The blanks of ASCII are the characters
    9 to 13 and 28 to 32. *)
Definition is_space (c : ascii) : bool :=
  let n := nat_of_ascii c in
  ((9 <=? n) && (n <=? 13) || (28 <=? n) && (n <=? 32))%nat.

Definition digit_of (c : ascii) : option Z :=
  let n := nat_of_ascii c in
  if ((48 <=? n) && (n <=? 57))%nat then Some (Z.of_nat n - 48) else None.

Fixpoint lstrip (s : string) : string :=
  match s with
  | String c r => if is_space c then lstrip r else s
  | EmptyString => s
  end.

Fixpoint all_space (s : string) : bool :=
  match s with
  | String c r => is_space c && all_space r
  | EmptyString => true
  end.

(** The digits after the first one: the value read and the text left. *)
Fixpoint more_digits (acc : Z) (s : string) : option (Z * string) :=
  match s with
  | EmptyString => Some (acc, s)
  | String c r =>
      match digit_of c with
      | Some v => more_digits (10 * acc + v) r
      | None =>
          if (c =? "_")%char then
            match r with
            | String c' r' =>
                match digit_of c' with
                | Some v => more_digits (10 * acc + v) r'
                | None => None
                end
            | EmptyString => None
            end
          else Some (acc, s)
      end
  end.

Definition unsigned_of_string (s : string) : option Z :=
  match s with
  | String c r =>
      match digit_of c with
      | Some v =>
          match more_digits v r with
          | Some (n, rest) => if all_space rest then Some n else None
          | None => None
          end
      | None => None
      end
  | EmptyString => None
  end.

Definition int_of_string (s : string) : option Z :=
  match lstrip s with
  | String "-" r => option_map Z.opp (unsigned_of_string r)
  | String "+" r => unsigned_of_string r
  | t => unsigned_of_string t
  end.

(** [int(v)] *)
Definition int (v : int_or_str) : option Z :=
  match v with
  | IsInt n => Some n
  | IsStr s => int_of_string s
  end.

(** [str(n)] for an integer. *)
Definition str_int (n : Z) : string := NilZero.string_of_int (Z.to_int n).

(** Number of code points of a UTF-8 encoded text: the bytes that are not
    continuation bytes [10xxxxxx]. *)
Fixpoint utf8_length (s : string) : Z :=
  match s with
  | EmptyString => 0
  | String c r =>
      let b := Z.of_nat (nat_of_ascii c) in
      (if (128 <=? b) && (b <? 192) then 0 else 1) + utf8_length r
  end.

(** The first [n] characters of a UTF-8 encoded text, and what follows
    them. *)
Fixpoint utf8_split (n : nat) (s : string) : string * string :=
  match s with
  | EmptyString => (EmptyString, EmptyString)
  | String c r =>
      let b := Z.of_nat (nat_of_ascii c) in
      if (128 <=? b) && (b <? 192) then
        let '(p, q) := utf8_split n r in (String c p, q)
      else match n with
           | O => (EmptyString, s)
           | S n' => let '(p, q) := utf8_split n' r in (String c p, q)
           end
  end.

(** The text consists of spaces. *)
Fixpoint all_blank (s : string) : bool :=
  match s with
  | EmptyString => true
  | String c r => (nat_of_ascii c =? 32)%nat && all_blank r
  end.

(** The text holds the character NUL. *)
Fixpoint has_nul (s : string) : bool :=
  match s with
  | EmptyString => false
  | String c r => (nat_of_ascii c =? 0)%nat || has_nul r
  end.

(** A text or a key of the document holds NUL. *)
Fixpoint json_has_nul (v : json) : bool :=
  match v with
  | JStr s => has_nul s
  | JArr l => existsb json_has_nul l
  | JObj kv => existsb (fun p => has_nul (fst p) || json_has_nul (snd p)) kv
  | _ => false
  end.

(** What the code can raise: Python's own exceptions and the errors
    [psycopg2] reports for a refused statement. *)
Inductive exn : Type :=
| KeyError (key : string)
| TypeError
| ValueError
| ZeroDivisionError
| IndexError
| OverflowError
| NotNullViolation (column : string)
| ForeignKeyViolation (column : string)
| StringDataRightTruncation (column : string)
| NumericValueOutOfRange (column : string)
| InvalidTextRepresentation (column : string)
| UntranslatableCharacter (column : string)
| InterfaceError (msg : string).

Inductive result (A : Type) : Type :=
| Ok (a : A)
| Raise (e : exn).
Arguments Ok {A} a.
Arguments Raise {A} e.

End Py.
Import Py.

(* ================================================================== *)
(** * The database of [init_db] *)
(* ================================================================== *)

Module Store.

(** Rows, one record per table, columns in declaration order.  A nullable
    column is an [option]. *)
Record question_row : Type := mk_question {
  q_id : Z;
  q_type : string;                 (* VARCHAR(20) NOT NULL *)
  q_content : string;              (* TEXT NOT NULL *)
  q_options : option json;         (* JSONB *)
  q_time_limit : option Z;         (* INTEGER *)
  q_answer_limit : option Z;       (* INTEGER *)
  q_created_at : option Z
}.

Record activity_row : Type := mk_activity {
  a_id : Z;
  a_name : string;                 (* VARCHAR(200) NOT NULL *)
  a_status : option string;        (* VARCHAR(20) DEFAULT 'preparing' *)
  a_current_question_id : option Z;
  a_groups_count : option Z;
  a_groups : option json;          (* JSONB *)
  a_display_mode : option string;  (* VARCHAR(20) DEFAULT 'none' *)
  a_started_at : option Z;
  a_ended_at : option Z;
  a_created_at : option Z
}.

Record user_row : Type := mk_user {
  u_id : Z;
  u_activity_id : option Z;        (* REFERENCES activities(id) *)
  u_name : string;                 (* VARCHAR(100) NOT NULL *)
  u_group_name : option string;    (* VARCHAR(100) *)
  u_joined_at : option Z
}.

Record answer_row : Type := mk_answer {
  ans_id : Z;
  ans_activity_id : option Z;      (* REFERENCES activities(id) *)
  ans_question_id : option Z;      (* REFERENCES questions(id) *)
  ans_user_id : option Z;          (* REFERENCES users(id) *)
  ans_answer_text : option string; (* TEXT *)
  ans_submitted_at : option Z
}.

(** The tables, rows in insertion order, and the SERIAL counters (the next
    value each sequence hands out). *)
Record db : Type := mk_db {
  questions : list question_row;
  activities : list activity_row;
  users : list user_row;
  answers : list answer_row;
  questions_id_seq : Z;
  activities_id_seq : Z;
  users_id_seq : Z;
  answers_id_seq : Z
}.

(** The state [init_db] leaves on a fresh server. *)
Definition empty_db : db := mk_db [] [] [] [] 1 1 1 1.

(** ** Sequences *)

Inductive table : Type :=
| Questions
| Activities
| Users
| Answers.

(** [nextval] on the sequence behind the [SERIAL] id of a table. *)
Definition nextval (t : table) (d : db) : db :=
  match t with
  | Questions =>
      mk_db (questions d) (activities d) (users d) (answers d)
            (questions_id_seq d + 1) (activities_id_seq d) (users_id_seq d)
            (answers_id_seq d)
  | Activities =>
      mk_db (questions d) (activities d) (users d) (answers d)
            (questions_id_seq d) (activities_id_seq d + 1) (users_id_seq d)
            (answers_id_seq d)
  | Users =>
      mk_db (questions d) (activities d) (users d) (answers d)
            (questions_id_seq d) (activities_id_seq d) (users_id_seq d + 1)
            (answers_id_seq d)
  | Answers =>
      mk_db (questions d) (activities d) (users d) (answers d)
            (questions_id_seq d) (activities_id_seq d) (users_id_seq d)
            (answers_id_seq d + 1)
  end.

(** The rows of [c] with the counters of [d].  A value drawn from a
    sequence stays drawn when the transaction that drew it is rolled
    back. *)
Definition with_sequences_of (d c : db) : db :=
  mk_db (questions c) (activities c) (users c) (answers c)
        (questions_id_seq d) (activities_id_seq d) (users_id_seq d)
        (answers_id_seq d).

(** ** Parameter and column checks *)

(** A statement is refused before it runs, for a parameter that cannot be
    quoted or does not fit the type of its column, or while it runs, by a
    constraint of the table.  Only a statement that runs has evaluated the
    default of a [SERIAL] column. *)
Definition refused_by_constraint (e : exn) : bool :=
  match e with
  | NotNullViolation _ | ForeignKeyViolation _ => true
  | _ => false
  end.

(** A text parameter: [psycopg2] raises [ValueError] on a text that holds
    NUL, before anything is sent. *)
Definition check_text (v : option string) : result unit :=
  match v with
  | Some s => if has_nul s then Raise ValueError else Ok tt
  | None => Ok tt
  end.

(** [JSONB]: a document whose texts hold NUL is refused. *)
Definition check_jsonb (column : string) (v : option json) : result unit :=
  match v with
  | Some j => if json_has_nul j then Raise (UntranslatableCharacter column)
              else Ok tt
  | None => Ok tt
  end.

(** What a [VARCHAR(n)] column stores of an accepted text. *)
Definition varchar (n : Z) (s : string) : string :=
  if utf8_length s <=? n then s else fst (utf8_split (Z.to_nat n) s).

(** [VARCHAR(n)]: a text of more than [n] characters is refused, unless
    only spaces follow its first [n] characters: these are then cut off.
    The result is the value stored. *)
Definition check_varchar (column : string) (n : Z) (v : option string)
  : result (option string) :=
  match v with
  | Some s =>
      if (utf8_length s <=? n) ||
         all_blank (snd (utf8_split (Z.to_nat n) s))
      then Ok (Some (varchar n s))
      else Raise (StringDataRightTruncation column)
  | None => Ok None
  end.

(** [INTEGER]: a 32-bit signed value. *)
Definition fits_integer (z : Z) : bool := (- 2 ^ 31 <=? z) && (z <? 2 ^ 31).

Definition check_integer (column : string) (v : option Z) : result unit :=
  match v with
  | Some z => if fits_integer z then Ok tt
              else Raise (NumericValueOutOfRange column)
  | None => Ok tt
  end.

(** [NOT NULL] *)
Definition check_not_null {A} (column : string) (v : option A) : result A :=
  match v with
  | Some a => Ok a
  | None => Raise (NotNullViolation column)
  end.

Definition has_question (d : db) (id : Z) : bool :=
  existsb (fun q => q_id q =? id) (questions d).
Definition has_activity (d : db) (id : Z) : bool :=
  existsb (fun a => a_id a =? id) (activities d).
Definition has_user (d : db) (id : Z) : bool :=
  existsb (fun u => u_id u =? id) (users d).

(** [REFERENCES t(id)]: a non-null value names an existing row. *)
Definition check_references (column : string) (has : Z -> bool)
           (v : option Z) : result unit :=
  match v with
  | Some id => if has id then Ok tt else Raise (ForeignKeyViolation column)
  | None => Ok tt
  end.

Definition and_then {A B} (r : result A) (k : A -> result B) : result B :=
  match r with
  | Ok a => k a
  | Raise e => Raise e
  end.

Notation "r ;;! k" := (and_then r (fun _ => k))
  (at level 61, right associativity).

(** [WHERE id = %s]: a null parameter matches no row. *)
Definition id_is (v : option Z) (id : Z) : bool :=
  match v with Some x => x =? id | None => false end.

(** [WHERE col = %s] on a nullable column. *)
Definition col_is (col v : option Z) : bool :=
  match col, v with
  | Some x, Some y => x =? y
  | _, _ => false
  end.

End Store.
Import Store.

(* ================================================================== *)
(** * The route handlers of [app.py] *)
(* ================================================================== *)

Module App.

(** ** Request bodies *)

Record question_body : Type := mk_question_body {
  qb_type : field string;
  qb_content : field string;
  qb_options : option json;        (* [None]: key missing *)
  qb_time_limit : field Z;
  qb_answer_limit : field int_or_str
}.

Record create_activity_body : Type := mk_create_activity_body {
  cab_name : field string;
  cab_groups_count : field int_or_str;
  cab_groups : field (list json)
}.

Record update_activity_body : Type := mk_update_activity_body {
  uab_status : field string;
  uab_current_question_id : field Z;
  uab_groups_count : field Z;
  uab_groups : field (list json);
  uab_display_mode : field string;
  uab_projected_answer : option json;
  uab_stats_limit : option json
}.

Record join_body : Type := mk_join_body {
  jb_activity_id : field Z;
  jb_name : field string;
  jb_group_name : field string
}.

Record answer_body : Type := mk_answer_body {
  ab_activity_id : field Z;
  ab_question_id : field Z;
  ab_user_id : field Z;
  ab_answer_text : field string
}.

(** ** Broadcast events: the name and payload of each [socketio.emit] *)

Inductive event : Type :=
| question_created (id : Z)
| question_updated (id : Z)
| question_deleted (id : Z)
| activity_created (id : Z)
| activity_updated (activity_id : Z) (updates : update_activity_body)
| display_update (activity_id : Z) (display_mode : option string)
                 (answer stats_limit : option json)
| user_joined (activity_id : option Z) (user_id : Z)
| answer_submitted (activity_id question_id : option Z).

Definition event_name (e : event) : string :=
  match e with
  | question_created _ => "question_created"
  | question_updated _ => "question_updated"
  | question_deleted _ => "question_deleted"
  | activity_created _ => "activity_created"
  | activity_updated _ _ => "activity_updated"
  | display_update _ _ _ _ => "display_update"
  | user_joined _ _ => "user_joined"
  | answer_submitted _ _ => "answer_submitted"
  end.

(** ** Responses *)

(** A row of the join in [get_activity]: [a.*, u.name as user_name,
    u.group_name]. *)
Record answer_with_user : Type := mk_answer_with_user {
  awu_answer : answer_row;
  awu_user_name : string;
  awu_group_name : option string
}.

Inductive body : Type :=
| b_id (id : Z)                                   (* {'id': ...} *)
| b_success                                       (* {'success': True} *)
| b_error (error : string)                        (* {'error': ...} *)
| b_error_code (error error_code : string)
| b_activity (row : activity_row) (users : list user_row)
             (answers : list answer_with_user)
| b_groups (groups : list json) (groups_count : option Z).

Record response : Type := mk_response {
  status_code : Z;
  payload : body
}.

(** ** The handler monad *)

Inductive effect : Type :=
| Commit
| Emit (e : event).

(** [conn] and [cur] of one handler run: the transaction's view of the
    database, the last committed state, whether the cursor and the
    connection are still open, and what has been committed and emitted so
    far. *)
Record session : Type := mk_session {
  work : db;
  committed : db;
  conn_open : bool;
  cur_open : bool;
  cur_dict : bool;                 (* cursor_factory=RealDictCursor *)
  trace : list effect
}.

Definition M (A : Type) : Type := session -> session * result A.

Definition ret {A} (a : A) : M A := fun s => (s, Ok a).

Definition bind {A B} (m : M A) (k : A -> M B) : M B :=
  fun s => match m s with
           | (s', Ok a) => k a s'
           | (s', Raise e) => (s', Raise e)
           end.

Definition raise {A} (e : exn) : M A := fun s => (s, Raise e).

Notation "x <- m ;; k" := (bind m (fun x => k))
  (at level 61, m at next level, right associativity).
Notation "m ;; k" := (bind m (fun _ => k))
  (at level 61, right associativity).

(** [data['k']] *)
Definition subscript {A} (key : string) (f : field A) : M (option A) :=
  match f with
  | Absent => raise (KeyError key)
  | Null => ret None
  | Val a => ret (Some a)
  end.

(** [conn = get_db_connection()]: a new transaction on the current state. *)
Definition get_db_connection : M unit :=
  fun s => (mk_session (committed s) (committed s) true false false (trace s),
            Ok tt).

(** [cur = conn.cursor(...)] *)
Definition conn_cursor (dict : bool) : M unit :=
  fun s => if conn_open s
           then (mk_session (work s) (committed s) true true dict (trace s),
                 Ok tt)
           else (s, Raise (InterfaceError "connection already closed")).

(** [cur.execute(...)] of a SELECT, UPDATE or DELETE, followed by the
    fetch of its result: the statement runs on the transaction's view; a
    statement that raises changes nothing. *)
Definition cur_execute {A} (stmt : db -> result (db * A)) : M A :=
  fun s => if cur_open s
           then match stmt (work s) with
                | Ok (d, a) =>
                    (mk_session d (committed s) (conn_open s) (cur_open s)
                                (cur_dict s) (trace s), Ok a)
                | Raise e => (s, Raise e)
                end
           else (s, Raise (InterfaceError "cursor already closed")).

(** [cur.execute('INSERT ... RETURNING id')] on table [t] followed by the
    fetch of the id.  The id is drawn from the table's sequence when the
    statement runs, and the sequence is not part of the transaction: the
    value stays drawn when a constraint refuses the row, and when the
    transaction is not committed. *)
Definition cur_execute_insert (t : table) (stmt : db -> result (db * Z))
  : M Z :=
  fun s => if cur_open s
           then match stmt (work s) with
                | Ok (d, id) =>
                    (mk_session d (with_sequences_of d (committed s))
                                (conn_open s) (cur_open s) (cur_dict s)
                                (trace s), Ok id)
                | Raise e =>
                    if refused_by_constraint e then
                      let d := nextval t (work s) in
                      (mk_session d (with_sequences_of d (committed s))
                                  (conn_open s) (cur_open s) (cur_dict s)
                                  (trace s), Raise e)
                    else (s, Raise e)
                end
           else (s, Raise (InterfaceError "cursor already closed")).

Definition cur_query {A} (q : db -> A) : M A :=
  cur_execute (fun d => Ok (d, q d)).

Definition conn_commit : M unit :=
  fun s => if conn_open s
           then (mk_session (work s) (work s) true (cur_open s) (cur_dict s)
                            (trace s ++ [Commit]), Ok tt)
           else (s, Raise (InterfaceError "connection already closed")).

Definition cur_close : M unit :=
  fun s => (mk_session (work s) (committed s) (conn_open s) false
                       (cur_dict s) (trace s), Ok tt).

(** [conn.close()]: uncommitted work is discarded and the connection's
    cursors become unusable. *)
Definition conn_close : M unit :=
  fun s => (mk_session (committed s) (committed s) false false (cur_dict s)
                       (trace s), Ok tt).

Definition socketio_emit (e : event) : M unit :=
  fun s => (mk_session (work s) (committed s) (conn_open s) (cur_open s)
                       (cur_dict s) (trace s ++ [Emit e]), Ok tt).

Definition jsonify (code : Z) (b : body) : M response :=
  ret (mk_response code b).

(** What one request leaves behind: the database other requests see, the
    trace, and the response or the exception Flask turns into a 500. *)
Record outcome : Type := mk_outcome {
  out_db : db;
  out_trace : list effect;
  out_result : result response
}.

Definition run (h : M response) (d : db) : outcome :=
  let '(s, r) := h (mk_session d d false false false []) in
  mk_outcome (committed s) (trace s) r.

(** ** Questions *)

(** [v if v else None] *)
Definition value_or_none (v : option Z) : option Z :=
  if truthy_int v then v else None.

(** [if answer_limit: answer_limit = int(answer_limit)
     else: answer_limit = None] *)
Definition int_or_none (v : option int_or_str) : M (option Z) :=
  match v with
  | Some x =>
      if truthy_num v then
        match int x with
        | Some n => ret (Some n)
        | None => raise ValueError
        end
      else ret None
  | None => ret None
  end.

(** [json.dumps(data.get('options', []))] *)
Definition dumped_options (o : option json) : option json :=
  match o with
  | Some v => Some v
  | None => Some (JArr [])
  end.

Definition insert_question (now : Z) (type content : option string)
           (options : option json) (time_limit answer_limit : option Z)
  : db -> result (db * Z) :=
  fun d =>
    check_text type ;;!
    check_text content ;;!
    check_jsonb "options" options ;;!
    and_then (check_varchar "type" 20 type) (fun type =>
    check_integer "time_limit" time_limit ;;!
    check_integer "answer_limit" answer_limit ;;!
    and_then (check_not_null "type" type) (fun ty =>
    and_then (check_not_null "content" content) (fun c =>
    let id := questions_id_seq d in
    Ok (mk_db (questions d ++
                 [mk_question id ty c options time_limit answer_limit
                              (Some now)])
              (activities d) (users d) (answers d)
              (id + 1) (activities_id_seq d) (users_id_seq d)
              (answers_id_seq d),
        id)))).

Definition create_question (now : Z) (data : question_body) : M response :=
  get_db_connection ;;
  conn_cursor false ;;
  answer_limit <- int_or_none (get (qb_answer_limit data)) ;;
  type <- subscript "type" (qb_type data) ;;
  content <- subscript "content" (qb_content data) ;;
  question_id <- cur_execute_insert Questions
    (insert_question now type content (dumped_options (qb_options data))
                     (get (qb_time_limit data)) answer_limit) ;;
  conn_commit ;;
  cur_close ;;
  conn_close ;;
  socketio_emit (question_created question_id) ;;
  jsonify 201 (b_id question_id).

Definition update_question_stmt (question_id : Z)
           (type content : option string) (options : option json)
           (time_limit answer_limit : option Z) : db -> result (db * unit) :=
  fun d =>
    check_text type ;;!
    check_text content ;;!
    check_jsonb "options" options ;;!
    and_then (check_varchar "type" 20 type) (fun type =>
    check_integer "time_limit" time_limit ;;!
    check_integer "answer_limit" answer_limit ;;!
    if has_question d question_id then
      and_then (check_not_null "type" type) (fun ty =>
      and_then (check_not_null "content" content) (fun c =>
      Ok (mk_db (map (fun q =>
                        if q_id q =? question_id
                        then mk_question (q_id q) ty c options time_limit
                                         answer_limit (q_created_at q)
                        else q) (questions d))
                (activities d) (users d) (answers d)
                (questions_id_seq d) (activities_id_seq d) (users_id_seq d)
                (answers_id_seq d),
          tt)))
    else Ok (d, tt)).

Definition update_question (question_id : Z) (data : question_body)
  : M response :=
  get_db_connection ;;
  conn_cursor false ;;
  answer_limit <- int_or_none (get (qb_answer_limit data)) ;;
  type <- subscript "type" (qb_type data) ;;
  content <- subscript "content" (qb_content data) ;;
  cur_execute
    (update_question_stmt question_id type content
                          (dumped_options (qb_options data))
                          (get (qb_time_limit data)) answer_limit) ;;
  conn_commit ;;
  cur_close ;;
  conn_close ;;
  socketio_emit (question_updated question_id) ;;
  jsonify 200 b_success.

(** [DELETE FROM questions WHERE id = %s]: refused while an answer still
    references the question. *)
Definition delete_question_stmt (question_id : Z) : db -> result (db * unit) :=
  fun d =>
    if has_question d question_id &&
       existsb (fun a => id_is (ans_question_id a) question_id) (answers d)
    then Raise (ForeignKeyViolation "question_id")
    else Ok (mk_db (filter (fun q => negb (q_id q =? question_id))
                           (questions d))
                   (activities d) (users d) (answers d)
                   (questions_id_seq d) (activities_id_seq d)
                   (users_id_seq d) (answers_id_seq d),
             tt).

Definition delete_question (question_id : Z) : M response :=
  get_db_connection ;;
  conn_cursor false ;;
  cur_execute (delete_question_stmt question_id) ;;
  conn_commit ;;
  cur_close ;;
  conn_close ;;
  socketio_emit (question_deleted question_id) ;;
  jsonify 200 b_success.

(** ** Activities *)

(** An [INTEGER] parameter: text that is not a number is refused.  The
    only text [create_activity] lets through to the statement is the empty
    one. *)
Definition integer_param (column : string) (v : option int_or_str)
  : result (option Z) :=
  match v with
  | Some (IsInt n) => Ok (Some n)
  | Some (IsStr s) =>
      match int_of_string s with
      | Some n => Ok (Some n)
      | None => Raise (InvalidTextRepresentation column)
      end
  | None => Ok None
  end.

Definition insert_activity (now : Z) (name status : option string)
           (groups_count : option int_or_str) (groups : option json)
  : db -> result (db * Z) :=
  fun d =>
    check_text name ;;!
    check_text status ;;!
    and_then (integer_param "groups_count" groups_count) (fun groups_count =>
    check_jsonb "groups" groups ;;!
    and_then (check_varchar "name" 200 name) (fun name =>
    and_then (check_varchar "status" 20 status) (fun status =>
    check_integer "groups_count" groups_count ;;!
    and_then (check_not_null "name" name) (fun nm =>
    let id := activities_id_seq d in
    Ok (mk_db (questions d)
              (activities d ++
                 [mk_activity id nm status None groups_count groups
                              (Some "none") None None (Some now)])
              (users d) (answers d)
              (questions_id_seq d) (id + 1) (users_id_seq d)
              (answers_id_seq d),
        id))))).

Definition create_activity (now : Z) (data : create_activity_body)
  : M response :=
  get_db_connection ;;
  conn_cursor false ;;
  let groups_count := get (cab_groups_count data) in
  let groups := match cab_groups data with
                | Val l => l
                | _ => []
                end in
  (* [if groups_count: groups_count = int(groups_count)]; a falsy value
     stays what it was *)
  groups_count <-
    (if truthy_num groups_count then
       match option_map int groups_count with
       | Some (Some n) => ret (Some (IsInt n))
       | _ => raise ValueError
       end
     else ret groups_count) ;;
  let '(groups_json, groups_count) :=
    match groups with
    | _ :: _ =>
        (Some (JArr groups),
         if truthy_num groups_count then groups_count
         else Some (IsInt (Z.of_nat (List.length groups))))
    | [] => (None, groups_count)
    end in
  name <- subscript "name" (cab_name data) ;;
  activity_id <- cur_execute_insert Activities
    (insert_activity now name (Some "preparing") groups_count groups_json) ;;
  conn_commit ;;
  cur_close ;;
  conn_close ;;
  socketio_emit (activity_created activity_id) ;;
  jsonify 201 (b_id activity_id).

(** The assignments of the [UPDATE activities SET ...] statement that
    [update_activity] assembles in [updates] and [values]. *)
Inductive assignment : Type :=
| set_status (v : option string)
| set_started_at_now
| set_current_question_id (v : option Z)
| set_groups_count (v : option Z)
| set_groups (v : option json)
| set_display_mode (v : option string).

(** The text an assignment hands to [psycopg2] to quote. *)
Definition assigned_text (a : assignment) : option string :=
  match a with
  | set_status v | set_display_mode v => v
  | _ => None
  end.

(** What is read of an assigned value before the statement is planned. *)
Definition parse_assignment (a : assignment) : result unit :=
  match a with
  | set_groups v => check_jsonb "groups" v
  | _ => Ok tt
  end.

(** The assignment as the column stores it. *)
Definition check_assignment (a : assignment) : result assignment :=
  match a with
  | set_status v =>
      and_then (check_varchar "status" 20 v) (fun v => Ok (set_status v))
  | set_current_question_id v =>
      check_integer "current_question_id" v ;;! Ok a
  | set_groups_count v => check_integer "groups_count" v ;;! Ok a
  | set_display_mode v =>
      and_then (check_varchar "display_mode" 20 v)
               (fun v => Ok (set_display_mode v))
  | set_started_at_now | set_groups _ => Ok a
  end.

Fixpoint for_each {A} (check : A -> result unit) (l : list A)
  : result unit :=
  match l with
  | [] => Ok tt
  | a :: l' => check a ;;! for_each check l'
  end.

Definition assign (now : Z) (r : activity_row) (a : assignment)
  : activity_row :=
  match a with
  | set_status v =>
      mk_activity (a_id r) (a_name r) v (a_current_question_id r)
        (a_groups_count r) (a_groups r) (a_display_mode r) (a_started_at r)
        (a_ended_at r) (a_created_at r)
  | set_started_at_now =>
      mk_activity (a_id r) (a_name r) (a_status r) (a_current_question_id r)
        (a_groups_count r) (a_groups r) (a_display_mode r) (Some now)
        (a_ended_at r) (a_created_at r)
  | set_current_question_id v =>
      mk_activity (a_id r) (a_name r) (a_status r) v
        (a_groups_count r) (a_groups r) (a_display_mode r) (a_started_at r)
        (a_ended_at r) (a_created_at r)
  | set_groups_count v =>
      mk_activity (a_id r) (a_name r) (a_status r) (a_current_question_id r)
        v (a_groups r) (a_display_mode r) (a_started_at r)
        (a_ended_at r) (a_created_at r)
  | set_groups v =>
      mk_activity (a_id r) (a_name r) (a_status r) (a_current_question_id r)
        (a_groups_count r) v (a_display_mode r) (a_started_at r)
        (a_ended_at r) (a_created_at r)
  | set_display_mode v =>
      mk_activity (a_id r) (a_name r) (a_status r) (a_current_question_id r)
        (a_groups_count r) (a_groups r) v (a_started_at r)
        (a_ended_at r) (a_created_at r)
  end.

Fixpoint check_assignments (l : list assignment)
  : result (list assignment) :=
  match l with
  | [] => Ok []
  | a :: l' =>
      and_then (check_assignment a) (fun a =>
      and_then (check_assignments l') (fun l' => Ok (a :: l')))
  end.

Definition update_activity_stmt (now : Z) (updates : list assignment)
           (activity_id : Z) : db -> result (db * unit) :=
  fun d =>
    for_each (fun a => check_text (assigned_text a)) updates ;;!
    for_each parse_assignment updates ;;!
    and_then (check_assignments updates) (fun stored =>
    Ok (mk_db (questions d)
              (map (fun r => if a_id r =? activity_id
                             then fold_left (assign now) stored r
                             else r) (activities d))
              (users d) (answers d)
              (questions_id_seq d) (activities_id_seq d) (users_id_seq d)
              (answers_id_seq d),
        tt)).

(** The [if 'k' in data:] blocks, in source order. *)
Definition status_updates (data : update_activity_body) : list assignment :=
  match uab_status data with
  | Absent => []
  | Null => [set_status None]
  | Val s => set_status (Some s) ::
             (if (s =? "active")%string then [set_started_at_now] else [])
  end.

Definition current_question_updates (data : update_activity_body)
  : list assignment :=
  match uab_current_question_id data with
  | Absent => []
  | f => [set_current_question_id (get f)]
  end.

Definition groups_count_updates (data : update_activity_body)
  : list assignment :=
  match uab_groups_count data with
  | Absent => []
  | f => [set_groups_count (value_or_none (get f))]
  end.

Definition groups_updates (data : update_activity_body) : list assignment :=
  match uab_groups data with
  | Absent => []
  | Val (g :: gs) =>
      set_groups (Some (JArr (g :: gs))) ::
      (if present (uab_groups_count data) then []
       else [set_groups_count (Some (Z.of_nat (List.length (g :: gs))))])
  | _ => [set_groups None]
  end.

Definition display_mode_updates (data : update_activity_body)
  : list assignment :=
  match uab_display_mode data with
  | Absent => []
  | f => [set_display_mode (get f)]
  end.

Definition collect_updates (data : update_activity_body) : list assignment :=
  status_updates data ++ current_question_updates data ++
  groups_count_updates data ++ groups_updates data ++
  display_mode_updates data.

Definition cursor_is_dict : M bool := fun s => (s, Ok (cur_dict s)).

(** [dict(row).get('display_mode') or 'question'] for the one-column row
    [(display_mode,)].  A [RealDictCursor] row is a mapping; the row of a
    plain cursor is a tuple, and [dict] of a one-element tuple succeeds
    only on a two-character string, which it turns into a one-entry
    mapping without the key [display_mode]. *)
Definition display_mode_of_row (display_mode : option string)
  : M (option string) :=
  is_dict <- cursor_is_dict ;;
  if is_dict then
    ret (if truthy_str display_mode then display_mode else Some "question")
  else
    match display_mode with
    | None => raise TypeError
    | Some s => if utf8_length s =? 2 then ret (Some "question")
                else raise ValueError
    end.

Definition update_activity (now : Z) (activity_id : Z)
           (data : update_activity_body) : M response :=
  get_db_connection ;;
  conn_cursor false ;;
  let updates := collect_updates data in
  match updates with
   | [] => ret tt
   | _ => cur_execute (update_activity_stmt now updates activity_id) ;;
          conn_commit
   end ;;
  cur_close ;;
  conn_close ;;
  socketio_emit (activity_updated activity_id data) ;;
  (if present (uab_display_mode data) then
     socketio_emit (display_update activity_id (get (uab_display_mode data))
                                   (uab_projected_answer data)
                                   (uab_stats_limit data))
   else if match uab_status data with
           | Val s => (s =? "active")%string
           | _ => false
           end && present (uab_current_question_id data) then
     row <- cur_query (fun d => find (fun r => a_id r =? activity_id)
                                      (activities d)) ;;
     match row with
     | Some r =>
         display_mode <- display_mode_of_row (a_display_mode r) ;;
         socketio_emit (display_update activity_id display_mode None None)
     | None => ret tt
     end
   else ret tt) ;;
  jsonify 200 b_success.

(** ** Users and answers *)

Definition insert_user (now : Z) (activity_id : option Z)
           (name group_name : option string) : db -> result (db * Z) :=
  fun d =>
    check_text name ;;!
    check_text group_name ;;!
    check_integer "activity_id" activity_id ;;!
    and_then (check_varchar "name" 100 name) (fun name =>
    and_then (check_varchar "group_name" 100 group_name) (fun group_name =>
    and_then (check_not_null "name" name) (fun nm =>
    check_references "activity_id" (has_activity d) activity_id ;;!
    let id := users_id_seq d in
    Ok (mk_db (questions d) (activities d)
              (users d ++ [mk_user id activity_id nm group_name (Some now)])
              (answers d)
              (questions_id_seq d) (activities_id_seq d) (id + 1)
              (answers_id_seq d),
        id)))).

Definition join_activity (now : Z) (data : join_body) : M response :=
  get_db_connection ;;
  conn_cursor false ;;
  activity_id <- subscript "activity_id" (jb_activity_id data) ;;
  name <- subscript "name" (jb_name data) ;;
  user_id <- cur_execute_insert Users
    (insert_user now activity_id name (get (jb_group_name data))) ;;
  conn_commit ;;
  cur_close ;;
  conn_close ;;
  socketio_emit (user_joined activity_id user_id) ;;
  jsonify 201 (b_id user_id).

(** [SELECT answer_limit FROM questions WHERE id = %s] and [fetchone] *)
Definition select_answer_limit (question_id : option Z) (d : db)
  : option (option Z) :=
  option_map q_answer_limit
             (find (fun q => id_is question_id (q_id q)) (questions d)).

(** [SELECT COUNT( * ) FROM answers WHERE question_id = %s AND user_id = %s] *)
Definition count_answers (question_id user_id : option Z) (d : db) : Z :=
  Z.of_nat (List.length
              (filter (fun a => col_is (ans_question_id a) question_id &&
                                col_is (ans_user_id a) user_id)
                      (answers d))).

Definition insert_answer (now : Z) (activity_id question_id user_id : option Z)
           (answer_text : option string) : db -> result (db * Z) :=
  fun d =>
    check_text answer_text ;;!
    check_integer "activity_id" activity_id ;;!
    check_integer "question_id" question_id ;;!
    check_integer "user_id" user_id ;;!
    check_references "activity_id" (has_activity d) activity_id ;;!
    check_references "question_id" (has_question d) question_id ;;!
    check_references "user_id" (has_user d) user_id ;;!
    let id := answers_id_seq d in
    Ok (mk_db (questions d) (activities d) (users d)
              (answers d ++
                 [mk_answer id activity_id question_id user_id answer_text
                            (Some now)])
              (questions_id_seq d) (activities_id_seq d) (users_id_seq d)
              (id + 1),
        id).

Definition limit_message (answer_limit : Z) : string :=
  ("您已達到此題的回答次數限制（" ++ str_int answer_limit ++ "次）")%string.

Definition submit_answer (now : Z) (data : answer_body) : M response :=
  get_db_connection ;;
  conn_cursor true ;;
  question_id <- subscript "question_id" (ab_question_id data) ;;
  question <- cur_query (select_answer_limit question_id) ;;
  rejected <-
    match question with
    | Some (Some answer_limit) =>
        if negb (answer_limit =? 0) then
          user_id <- subscript "user_id" (ab_user_id data) ;;
          answer_count <- cur_query (count_answers question_id user_id) ;;
          ret (if answer_limit <=? answer_count then Some answer_limit
               else None)
        else ret None
    | _ => ret None
    end ;;
  match rejected with
  | Some answer_limit =>
      cur_close ;;
      conn_close ;;
      jsonify 400 (b_error_code (limit_message answer_limit)
                                "ANSWER_LIMIT_EXCEEDED")
  | None =>
      activity_id <- subscript "activity_id" (ab_activity_id data) ;;
      user_id <- subscript "user_id" (ab_user_id data) ;;
      answer_text <- subscript "answer_text" (ab_answer_text data) ;;
      answer_id <- cur_execute_insert Answers
        (insert_answer now activity_id question_id user_id answer_text) ;;
      conn_commit ;;
      cur_close ;;
      conn_close ;;
      socketio_emit (answer_submitted activity_id question_id) ;;
      jsonify 201 (b_id answer_id)
  end.

(** ** Reading an activity *)

(** [ORDER BY a.question_id, a.submitted_at DESC]: ascending puts nulls
    last, descending puts them first.  [before x y] holds when [x] may
    precede [y]. *)
Definition asc_nulls_last (x y : option Z) : comparison :=
  match x, y with
  | Some a, Some b => a ?= b
  | Some _, None => Lt
  | None, Some _ => Gt
  | None, None => Eq
  end.

Definition before (x y : answer_with_user) : bool :=
  match asc_nulls_last (ans_question_id (awu_answer x))
                       (ans_question_id (awu_answer y)) with
  | Lt => true
  | Gt => false
  | Eq => match asc_nulls_last (ans_submitted_at (awu_answer y))
                               (ans_submitted_at (awu_answer x)) with
          | Gt => false
          | _ => true
          end
  end.

Fixpoint insert_sorted (x : answer_with_user) (l : list answer_with_user)
  : list answer_with_user :=
  match l with
  | [] => [x]
  | y :: l' => if before x y then x :: l else y :: insert_sorted x l'
  end.

Definition order_by (l : list answer_with_user) : list answer_with_user :=
  fold_right insert_sorted [] l.

(** [FROM answers a JOIN users u ON a.user_id = u.id
     WHERE a.activity_id = %s] *)
Definition join_answers_users (activity_id : Z) (d : db)
  : list answer_with_user :=
  flat_map (fun a =>
              map (fun u => mk_answer_with_user a (u_name u) (u_group_name u))
                  (filter (fun u => id_is (ans_user_id a) (u_id u))
                          (users d)))
           (filter (fun a => id_is (ans_activity_id a) activity_id)
                   (answers d)).

Definition get_activity (activity_id : Z) : M response :=
  get_db_connection ;;
  conn_cursor true ;;
  row <- cur_query (fun d => find (fun r => a_id r =? activity_id)
                                   (activities d)) ;;
  match row with
  | None =>
      cur_close ;;
      conn_close ;;
      jsonify 404 (b_error "Activity not found")
  | Some activity =>
      activity_users <- cur_query
        (fun d => filter (fun u => id_is (u_activity_id u) activity_id)
                         (users d)) ;;
      activity_answers <- cur_query
        (fun d => order_by (join_answers_users activity_id d)) ;;
      cur_close ;;
      conn_close ;;
      jsonify 200 (b_activity activity activity_users activity_answers)
  end.

(** [range(lo, hi)] *)
Definition py_range (lo hi : Z) : list Z :=
  map (fun i => lo + Z.of_nat i) (seq 0 (Z.to_nat (hi - lo))).

Definition default_group_name (i : Z) : json :=
  JStr ("第" ++ str_int i ++ "組")%string.

Section Groups.

(** [json.loads]: [None] when it raises. *)
Variable json_loads : string -> option json.

(** The [groups] value the handler works with after decoding. *)
Definition decoded_groups (stored : option json) : option json :=
  match stored with
  | Some v =>
      if truthy v then
        match v with
        | JStr s => json_loads s
        | _ => Some v
        end
      else None
  | None => None
  end.

Definition group_list (groups : option json) (groups_count : option Z)
  : list json :=
  match groups with
  | Some (JArr (g :: gs)) => g :: gs
  | _ => if truthy_int groups_count
         then match groups_count with
              | Some k => map default_group_name (py_range 1 (k + 1))
              | None => []
              end
         else []
  end.

Definition get_activity_groups (activity_id : Z) : M response :=
  get_db_connection ;;
  conn_cursor true ;;
  row <- cur_query (fun d => find (fun r => a_id r =? activity_id)
                                   (activities d)) ;;
  cur_close ;;
  conn_close ;;
  match row with
  | None => jsonify 404 (b_error "Activity not found")
  | Some r =>
      let groups_count := a_groups_count r in
      let groups := decoded_groups (a_groups r) in
      jsonify 200 (b_groups (group_list groups groups_count) groups_count)
  end.

(** No custom list of group names is stored: what the handler decodes from
    the [groups] column is not a non-empty array. *)
Definition no_custom_groups (r : activity_row) : Prop :=
  forall g gs, decoded_groups (a_groups r) <> Some (JArr (g :: gs)).

End Groups.

(** ** The API as one transition function *)

Inductive request : Type :=
| POST_questions (data : question_body)
| PUT_questions (question_id : Z) (data : question_body)
| DELETE_questions (question_id : Z)
| POST_activities (data : create_activity_body)
| PUT_activities (activity_id : Z) (data : update_activity_body)
| POST_users (data : join_body)
| POST_answers (data : answer_body).

Definition handler (now : Z) (r : request) : M response :=
  match r with
  | POST_questions data => create_question now data
  | PUT_questions id data => update_question id data
  | DELETE_questions id => delete_question id
  | POST_activities data => create_activity now data
  | PUT_activities id data => update_activity now id data
  | POST_users data => join_activity now data
  | POST_answers data => submit_answer now data
  end.

(** The event each write operation announces. *)
Definition announces (r : request) : string :=
  match r with
  | POST_questions _ => "question_created"
  | PUT_questions _ _ => "question_updated"
  | DELETE_questions _ => "question_deleted"
  | POST_activities _ => "activity_created"
  | PUT_activities _ _ => "activity_updated"
  | POST_users _ => "user_joined"
  | POST_answers _ => "answer_submitted"
  end.

Definition serve (now : Z) (r : request) (d : db) : outcome :=
  run (handler now r) d.

(** A history of requests, each with the clock reading of its run, played
    from the oldest to the newest. *)
Fixpoint replay (history : list (Z * request)) (d : db) : db :=
  match history with
  | [] => d
  | (now, r) :: rest => replay rest (out_db (serve now r d))
  end.

Definition reachable (d : db) : Prop :=
  exists history, replay history empty_db = d.

(** ** Vocabulary of the claims and the scenarios they are tried on *)

Definition is_named (name : string) (x : effect) : bool :=
  match x with
  | Emit e => (event_name e =? name)%string
  | Commit => false
  end.

(** How many events called [name] a trace emits. *)
Definition emitted (name : string) (t : list effect) : nat :=
  List.length (filter (is_named name) t).

(** The trace contains a commit, no event [name] before it and exactly one
    after it. *)
Definition announced_once_after_write (name : string) (t : list effect)
  : Prop :=
  exists pre post,
    t = pre ++ Commit :: post /\
    emitted name pre = 0%nat /\
    emitted name post = 1%nat.

Definition succeeded (o : outcome) : bool :=
  match out_result o with
  | Ok r => status_code r <? 400
  | Raise _ => false
  end.

Definition sample_question : question_body :=
  mk_question_body (Val "text") (Val "Why?") None Absent (Val (IsInt 2)).

(** The limit rule as first written down: a submission on a question with
    limit [L] by a user holding at least [L] answers is refused and stores
    nothing. *)
Definition refused_at_limit (now : Z) (data : answer_body) (d : db) : Prop :=
  forall qid uid q L,
    ab_question_id data = Val qid ->
    ab_user_id data = Val uid ->
    In q (questions d) -> q_id q = qid ->
    q_answer_limit q = Some L ->
    L <= count_answers (Some qid) (Some uid) d ->
    exists error,
      out_result (serve now (POST_answers data) d) =
        Ok (mk_response 400 (b_error_code error "ANSWER_LIMIT_EXCEEDED")) /\
      out_db (serve now (POST_answers data) d) = d.

(** What the [answers] table accepts as a reference: null, or the id of a
    row, within the range of [INTEGER]. *)
Definition names_row (has : Z -> bool) (v : option Z) : bool :=
  match v with
  | Some id => fits_integer id && has id
  | None => true
  end.

(** What psycopg2 accepts as a text parameter: null, or a text without
    NUL. *)
Definition sendable (v : option string) : bool :=
  match v with
  | Some s => negb (has_nul s)
  | None => true
  end.

(** A session in which the question's limit was typed in as the text
    ["0"]: the activity, the question and a participant. *)
Definition zero_limit_history : list (Z * request) :=
  [ (10, POST_activities
           (mk_create_activity_body (Val "demo") Absent Absent));
    (20, POST_questions
           (mk_question_body (Val "text") (Val "Why?") None Absent
                             (Val (IsStr "0"))));
    (30, POST_users (mk_join_body (Val 1) (Val "ann") Null)) ].

Definition first_answer : answer_body :=
  mk_answer_body (Val 1) (Val 1) (Val 1) (Val "because").

(** A session with one stored answer under a limit of 1. *)
Definition one_answer_history : list (Z * request) :=
  [ (10, POST_activities
           (mk_create_activity_body (Val "demo") Absent Absent));
    (20, POST_questions
           (mk_question_body (Val "text") (Val "Why?") None Absent
                             (Val (IsInt 1))));
    (30, POST_users (mk_join_body (Val 1) (Val "ann") Null));
    (40, POST_answers first_answer) ].

Definition touches_status (x : assignment) : bool :=
  match x with
  | set_status _ => true
  | _ => false
  end.

Definition valid_status (a : activity_row) : Prop :=
  In (a_status a) [Some "preparing"; Some "active"; Some "ended"].

(** An activity is created and then updated with a status of the caller's
    own invention. *)
Definition paused_history : list (Z * request) :=
  [ (10, POST_activities
           (mk_create_activity_body (Val "demo") Absent Absent));
    (20, PUT_activities 1
           (mk_update_activity_body (Val "paused") Absent Absent Absent
                                    Absent None None)) ].

(** The status is ['preparing'] or was supplied by an update in [past],
    and is held as the [VARCHAR(20)] column stores it. *)
Definition status_explained (past : list (Z * request)) (a : activity_row)
  : Prop :=
  a_status a = Some "preparing" \/
  exists now id data,
    In (now, PUT_activities id data) past /\
    present (uab_status data) = true /\
    a_status a = option_map (varchar 20) (get (uab_status data)).

Definition started_history : list (Z * request) :=
  [ (10, POST_activities
           (mk_create_activity_body (Val "demo") Absent Absent));
    (20, POST_questions
           (mk_question_body (Val "text") (Val "Why?") None Absent Absent)) ].

Definition start_request : update_activity_body :=
  mk_update_activity_body (Val "active") (Val 1) Absent Absent Absent
                          None None.

(** ** What a request writes and announces *)

(** The value [int_or_none] hands on. *)
Definition converted_limit (v : option int_or_str) : result (option Z) :=
  match v with
  | Some x =>
      if truthy_num v then
        match int x with
        | Some n => Ok (Some n)
        | None => Raise ValueError
        end
      else Ok None
  | None => Ok None
  end.

(** The [groups_count] and [groups] parameters [create_activity] hands to
    its statement. *)
Definition activity_parameters (data : create_activity_body)
  : result (option int_or_str * option json) :=
  let groups_count := get (cab_groups_count data) in
  let groups := match cab_groups data with
                | Val l => l
                | _ => []
                end in
  and_then
    (if truthy_num groups_count then
       match option_map int groups_count with
       | Some (Some n) => Ok (Some (IsInt n))
       | _ => Raise ValueError
       end
     else Ok groups_count)
    (fun groups_count =>
       Ok (match groups with
           | _ :: _ =>
               (if truthy_num groups_count then groups_count
                else Some (IsInt (Z.of_nat (List.length groups))),
                Some (JArr groups))
           | [] => (groups_count, None)
           end)).

(** The submission meets the answer limit of its question. *)
Definition limit_reached (data : answer_body) (d : db) : bool :=
  match select_answer_limit (get (ab_question_id data)) d with
  | Some (Some answer_limit) =>
      negb (answer_limit =? 0) &&
      (answer_limit <=?
       count_answers (get (ab_question_id data)) (get (ab_user_id data)) d)
  | _ => false
  end.

(** [performs now d r d' e]: the body of request [r] carries the keys its
    handler subscripts, its parameters convert, and the statement of the
    handler, run on [d] with these parameters, is accepted and leaves
    [d']; [e] is the event that announces it. *)
Inductive performs (now : Z) (d : db) : request -> db -> event -> Prop :=
| p_create_question data answer_limit id d' :
    converted_limit (get (qb_answer_limit data)) = Ok answer_limit ->
    present (qb_type data) = true ->
    present (qb_content data) = true ->
    insert_question now (get (qb_type data)) (get (qb_content data))
                    (dumped_options (qb_options data))
                    (get (qb_time_limit data)) answer_limit d =
      Ok (d', id) ->
    performs now d (POST_questions data) d' (question_created id)
| p_update_question question_id data answer_limit d' :
    converted_limit (get (qb_answer_limit data)) = Ok answer_limit ->
    present (qb_type data) = true ->
    present (qb_content data) = true ->
    update_question_stmt question_id (get (qb_type data))
                         (get (qb_content data))
                         (dumped_options (qb_options data))
                         (get (qb_time_limit data)) answer_limit d =
      Ok (d', tt) ->
    performs now d (PUT_questions question_id data) d'
             (question_updated question_id)
| p_delete_question question_id d' :
    delete_question_stmt question_id d = Ok (d', tt) ->
    performs now d (DELETE_questions question_id) d'
             (question_deleted question_id)
| p_create_activity data groups_count groups id d' :
    activity_parameters data = Ok (groups_count, groups) ->
    present (cab_name data) = true ->
    insert_activity now (get (cab_name data)) (Some "preparing")
                    groups_count groups d = Ok (d', id) ->
    performs now d (POST_activities data) d' (activity_created id)
| p_update_activity activity_id data d' :
    collect_updates data <> [] ->
    update_activity_stmt now (collect_updates data) activity_id d =
      Ok (d', tt) ->
    performs now d (PUT_activities activity_id data) d'
             (activity_updated activity_id data)
| p_join_activity data id d' :
    present (jb_activity_id data) = true ->
    present (jb_name data) = true ->
    insert_user now (get (jb_activity_id data)) (get (jb_name data))
                (get (jb_group_name data)) d = Ok (d', id) ->
    performs now d (POST_users data) d'
             (user_joined (get (jb_activity_id data)) id)
| p_submit_answer data id d' :
    present (ab_question_id data) = true ->
    present (ab_activity_id data) = true ->
    present (ab_user_id data) = true ->
    present (ab_answer_text data) = true ->
    limit_reached data d = false ->
    insert_answer now (get (ab_activity_id data)) (get (ab_question_id data))
                  (get (ab_user_id data)) (get (ab_answer_text data)) d =
      Ok (d', id) ->
    performs now d (POST_answers data) d'
             (answer_submitted (get (ab_activity_id data))
                               (get (ab_question_id data))).

(** A session in which every write operation occurs: two questions, of
    which the second is changed and then deleted. *)
Definition write_requests : list (Z * request) :=
  [ (10, POST_activities
           (mk_create_activity_body (Val "demo") Absent Absent));
    (20, POST_questions sample_question);
    (25, POST_questions sample_question);
    (30, POST_users (mk_join_body (Val 1) (Val "ann") Null));
    (40, POST_answers first_answer);
    (50, PUT_questions 2 sample_question);
    (60, PUT_activities 1
           (mk_update_activity_body (Val "ended") Absent Absent Absent
                                    Absent None None));
    (70, DELETE_questions 2) ].

(** Request number [k] of the session, served on the state the requests
    before it leave: its statement is accepted, the state the session is
    in afterwards is what the statement leaves, and the trace begins with
    the commit and the event [e]. *)
Definition written (k : nat) (e : event) : Prop :=
  match nth_error write_requests k with
  | Some (now, r) =>
      let d := replay (firstn k write_requests) empty_db in
      let d' := replay (firstn (S k) write_requests) empty_db in
      performs now d r d' e /\
      out_db (serve now r d) = d' /\
      event_name e = announces r /\
      exists rest,
        out_trace (serve now r d) = Commit :: Emit e :: rest /\
        emitted (announces r) rest = 0%nat
  | None => False
  end.

(** ** The answers of an activity *)

(** The [answers] list as first written down: it holds every answer of
    the activity. *)
Definition lists_every_answer (activity_id : Z) (d : db) : Prop :=
  forall r us ans a,
    out_result (run (get_activity activity_id) d) =
      Ok (mk_response 200 (b_activity r us ans)) ->
    In a (answers d) -> ans_activity_id a = Some activity_id ->
    exists x, In x ans /\ awu_answer x = a.

(** An answer submitted without a user: [user_id] is [null]. *)
Definition anonymous_history : list (Z * request) :=
  [ (10, POST_activities
           (mk_create_activity_body (Val "demo") Absent Absent));
    (20, POST_questions
           (mk_question_body (Val "text") (Val "Why?") None Absent Absent));
    (30, POST_answers
           (mk_answer_body (Val 1) (Val 1) Null (Val "because"))) ].

(** Two activities: one with named groups, one with a number of groups. *)
Definition groups_history : list (Z * request) :=
  [ (10, POST_activities
           (mk_create_activity_body (Val "named") Absent
                                    (Val [JStr "A"; JStr "B"])));
    (20, POST_activities
           (mk_create_activity_body (Val "counted") (Val (IsStr "3"))
                                    Absent)) ].

End App.

(* ================================================================== *)
(** * The load-test harness of [load_test.py] *)
(* ================================================================== *)

Module LoadTest.

(** ** binary64 *)

(** Python's [float]: IEEE 754 binary64, as specified by [SpecFloat]. *)
Definition float : Type := spec_float.
Definition prec : Z := 53.
Definition emax : Z := 1024.

Definition fadd : float -> float -> float := SFadd prec emax.
Definition fsub : float -> float -> float := SFsub prec emax.
Definition fmul : float -> float -> float := SFmul prec emax.
Definition fdiv : float -> float -> float := SFdiv prec emax.
Definition flt : float -> float -> bool := SFltb.

(** [float(n)]: the integer rounded to the nearest binary64. *)
Definition float_of_int (n : Z) : float :=
  binary_normalize prec emax n 0 false.

(** [int(x)]: truncation towards zero. *)
Definition int_of_float (x : float) : result Z :=
  match x with
  | S754_zero _ => Ok 0
  | S754_finite s m e =>
      Ok (cond_Zopp s (if 0 <=? e then Z.pos m * 2 ^ e
                       else Z.pos m / 2 ^ (- e)))
  | S754_infinity _ => Raise OverflowError
  | S754_nan => Raise ValueError
  end.

(** The literals [0.95] and [0.99]: the binary64 values nearest to them,
    [0x3FEE666666666666] and [0x3FEFAE147AE147AE]. *)
Definition f0_95 : float := S754_finite false 8556839292003942 (-53).
Definition f0_99 : float := S754_finite false 8917127262193582 (-53).

Definition is_zero (x : float) : bool :=
  match x with S754_zero _ => true | _ => false end.

(** A Python number: an [int] or a [float]. *)
Inductive number : Type :=
| Int (n : Z)
| Float (x : float).

Definition to_float (a : number) : float :=
  match a with
  | Int n => float_of_int n
  | Float x => x
  end.

(** [a > 0] *)
Definition positive_number (a : number) : bool :=
  match a with
  | Int n => 0 <? n
  | Float x => flt (S754_zero false) x
  end.

(** An integer as an exact, unrounded operand. *)
Definition exact (n : Z) : float :=
  match n with
  | Z0 => S754_zero false
  | Zpos p => S754_finite false p 0
  | Zneg p => S754_finite true p 0
  end.

(** ** Arithmetic that is traced *)

(** The operations [get_statistics] can fail in: every true division and
    every list subscript is recorded with its operands. *)
Inductive op : Type :=
| division (a b : number)
| indexing (length : nat) (index : Z).

Definition P (A : Type) : Type := list op * result A.

Definition pure {A} (a : A) : P A := ([], Ok a).

Definition then_ {A B} (m : P A) (k : A -> P B) : P B :=
  match m with
  | (l, Ok a) => let '(l', r) := k a in (l ++ l', r)
  | (l, Raise e) => (l, Raise e)
  end.

Notation "x <~ m ;; k" := (then_ m (fun x => k))
  (at level 61, m at next level, right associativity).

Definition lift {A} (r : result A) : P A := ([], r).

(** [a / b]: an [int] by an [int] is the exact quotient rounded once;
    otherwise both operands are taken as floats.  A quotient beyond the
    binary64 range, on which Python raises [OverflowError], is an infinity
    here; request counters and list lengths are far below that range. *)
Definition truediv (a b : number) : P float :=
  ([division a b],
   match a, b with
   | Int x, Int y =>
       if y =? 0 then Raise ZeroDivisionError
       else Ok (fdiv (exact x) (exact y))
   | _, _ =>
       if is_zero (to_float b) then Raise ZeroDivisionError
       else Ok (fdiv (to_float a) (to_float b))
   end).

(** [l[i]] *)
Definition item {A} (l : list A) (i : Z) : P A :=
  ([indexing (List.length l) i],
   let n := Z.of_nat (List.length l) in
   let j := if i <? 0 then i + n else i in
   if j <? 0 then Raise IndexError
   else match nth_error l (Z.to_nat j) with
        | Some x => Ok x
        | None => Raise IndexError
        end).

(** ** [sorted], [min] and [max] on floats *)

Fixpoint insert (x : float) (l : list float) : list float :=
  match l with
  | [] => [x]
  | y :: l' => if flt x y then x :: l else y :: insert x l'
  end.

(** A stable sort by [<]: on a list without NaN it is the list [sorted]
    returns. *)
Definition sorted (l : list float) : list float :=
  fold_left (fun acc x => insert x acc) l [].

(** [min(l)] and [max(l)] keep the first of several equal extremes; on the
    empty list they raise [ValueError]. *)
Definition py_min (l : list float) : result float :=
  match l with
  | [] => Raise ValueError
  | x :: l' => Ok (fold_left (fun m y => if flt y m then y else m) l' x)
  end.

Definition py_max (l : list float) : result float :=
  match l with
  | [] => Raise ValueError
  | x :: l' => Ok (fold_left (fun m y => if flt m y then y else m) l' x)
  end.

(** ** [LoadTestResult] *)

Record LoadTestResult : Type := mk_LoadTestResult {
  total_requests : Z;
  successful_requests : Z;
  failed_requests : Z;
  response_times : list float;
  error_messages : list string;
  start_time : option float;
  end_time : option float
}.

(** [__init__] *)
Definition init : LoadTestResult :=
  mk_LoadTestResult 0 0 0 [] [] None None.

(** [add_result(self, success: bool, response_time: float,
     error_msg: str = None)] *)
Definition add_result (self : LoadTestResult) (success : bool)
           (response_time : float) (error_msg : option string)
  : LoadTestResult :=
  let total := total_requests self + 1 in
  let times := response_times self ++ [response_time] in
  if success then
    mk_LoadTestResult total (successful_requests self + 1)
      (failed_requests self) times (error_messages self)
      (start_time self) (end_time self)
  else
    mk_LoadTestResult total (successful_requests self)
      (failed_requests self + 1) times
      (if truthy_str error_msg
       then match error_msg with
            | Some m => error_messages self ++ [m]
            | None => error_messages self
            end
       else error_messages self)
      (start_time self) (end_time self).

(** The dictionary [get_statistics] builds. *)
Record statistics : Type := mk_statistics {
  st_total_requests : Z;
  st_successful_requests : Z;
  st_failed_requests : Z;
  success_rate : number;
  total_time : number;
  requests_per_second : number;
  avg_response_time : float;
  min_response_time : float;
  max_response_time : float;
  median_response_time : float;
  p95_response_time : number;
  p99_response_time : number
}.

(** [bool(t)] for an optional float: [None] and zeros are false. *)
Definition truthy_float (t : option float) : bool :=
  match t with
  | Some x => negb (is_zero x)
  | None => false
  end.

(** [sys.maxsize]: no list is longer. *)
Definition max_size : Z := 2 ^ 63 - 1.

(** [int(n * q)] for a list length [n] and a float literal [q]. *)
Definition percentile_index (q : float) (n : Z) : result Z :=
  int_of_float (fmul (float_of_int n) q).

Section Statistics.

(** The builtin [sum] on a list of floats.  How it rounds differs between
    CPython releases, so it is left open. *)
Variable py_sum : list float -> float.

(** [None] is the empty dictionary. *)
Definition get_statistics (self : LoadTestResult) : P (option statistics) :=
  match response_times self with
  | [] => pure None
  | _ :: _ =>
      let sorted_times := sorted (response_times self) in
      let total_time :=
        if truthy_float (end_time self) && truthy_float (start_time self)
        then match end_time self, start_time self with
             | Some e, Some s => Float (fsub e s)
             | _, _ => Int 0
             end
        else Int 0 in
      success_rate <~
        (if 0 <? total_requests self then
           q <~ truediv (Int (successful_requests self))
                        (Int (total_requests self)) ;;
           pure (Float (fmul q (float_of_int 100)))
         else pure (Int 0)) ;;
      requests_per_second <~
        (if positive_number total_time then
           q <~ truediv (Int (total_requests self)) total_time ;;
           pure (Float q)
         else pure (Int 0)) ;;
      avg <~ truediv (Float (py_sum (response_times self)))
                     (Int (Z.of_nat (List.length (response_times self)))) ;;
      lo <~ lift (py_min (response_times self)) ;;
      hi <~ lift (py_max (response_times self)) ;;
      median <~ item sorted_times
                     (Z.of_nat (List.length sorted_times) / 2) ;;
      p95 <~ (if 0 <? Z.of_nat (List.length sorted_times) then
                i <~ lift (percentile_index f0_95
                             (Z.of_nat (List.length sorted_times))) ;;
                x <~ item sorted_times i ;;
                pure (Float x)
              else pure (Int 0)) ;;
      p99 <~ (if 0 <? Z.of_nat (List.length sorted_times) then
                i <~ lift (percentile_index f0_99
                             (Z.of_nat (List.length sorted_times))) ;;
                x <~ item sorted_times i ;;
                pure (Float x)
              else pure (Int 0)) ;;
      pure (Some (mk_statistics
                    (total_requests self) (successful_requests self)
                    (failed_requests self) success_rate total_time
                    requests_per_second avg lo hi median p95 p99))
  end.

End Statistics.

(** ** [send_register_request] *)

(** What [requests.post] does: it returns a response, or raises
    [Timeout], [ConnectionError], or another [Exception] whose [str] is
    [msg]. *)
Inductive post_outcome : Type :=
| Responded (status_code : Z) (text : string)
| Timeout
| ConnectionError
| Failed (msg : string).

(** [text[:n]]: the first [n] characters of a UTF-8 encoded text. *)
Fixpoint utf8_prefix (n : nat) (s : string) : string :=
  match s with
  | EmptyString => EmptyString
  | String c r =>
      let b := Z.of_nat (nat_of_ascii c) in
      if (128 <=? b) && (b <? 192) then String c (utf8_prefix n r)
      else match n with
           | O => EmptyString
           | S n' => String c (utf8_prefix n' r)
           end
  end.

(** The clock reads [started] before the request and [finished] when the
    response or the exception is in hand. *)
Definition send_register_request (started finished : float)
           (posted : post_outcome) : bool * float * option string :=
  let response_time := fsub finished started in
  match posted with
  | Responded status_code text =>
      if status_code =? 201 then (true, response_time, None)
      else (false, response_time,
            Some ("HTTP " ++ str_int status_code ++ ": " ++
                  utf8_prefix 100 text)%string)
  | Timeout => (false, response_time, Some "請求逾時")
  | ConnectionError => (false, response_time, Some "連線錯誤")
  | Failed msg => (false, response_time, Some ("發生錯誤: " ++ msg)%string)
  end.

(** One future of [run_load_test] collected into the result. *)
Definition record_request (self : LoadTestResult) (started finished : float)
           (posted : post_outcome) : LoadTestResult :=
  let '(success, response_time, error_msg) :=
    send_register_request started finished posted in
  add_result self success response_time error_msg.

(** [result.start_time = time.time()] and [result.end_time = time.time()]
    in [run_load_test]. *)
Definition set_times (self : LoadTestResult) (started ended : option float)
  : LoadTestResult :=
  mk_LoadTestResult (total_requests self) (successful_requests self)
    (failed_requests self) (response_times self) (error_messages self)
    started ended.

(** ** Vocabulary of the claims *)

(** One [add_result] call: its arguments. *)
Definition call : Type := bool * float * option string.

Definition add_results (self : LoadTestResult) (calls : list call)
  : LoadTestResult :=
  fold_left (fun r '(success, response_time, error_msg) =>
               add_result r success response_time error_msg)
            calls self.

(** The message a call leaves in [error_messages], if any. *)
Definition logged_message (c : call) : list string :=
  match c with
  | (false, _, Some m) => if (m =? "")%string then [] else [m]
  | _ => []
  end.

(** The logging rule as first written down: a failed call that supplies a
    message, whatever it is, appends one entry. *)
Definition logs_every_message (self : LoadTestResult) (response_time : float)
           (msg : string) : Prop :=
  List.length (error_messages (add_result self false response_time
                                          (Some msg))) =
  S (List.length (error_messages self)).

Definition not_nan (x : float) : Prop := x <> S754_nan.

(** [x <= y]: not [y < x]. *)
Definition fle (x y : float) : Prop := flt y x = false.

(** A recorded subscript is within the list. *)
Definition in_bounds (o : op) : Prop :=
  match o with
  | indexing len i => 0 <= i < Z.of_nat len
  | division _ _ => True
  end.

(** [m] completes with log [log] and value [a]. *)
Definition returns {A} (m : P A) (log : list op) (a : A) : Prop :=
  m = (log, Ok a).

(** [sum] as a left-to-right addition from [0]. *)
Definition sum_left (l : list float) : float :=
  fold_left fadd l (float_of_int 0).

(** Three requests: two registered in 1 s and 3 s, one refused in 2 s. *)
Definition three_calls : list call :=
  [ (true, float_of_int 1, None);
    (false, float_of_int 3, Some "HTTP 500: ");
    (true, float_of_int 2, None) ].

End LoadTest.

(* ================================================================== *)
(** * Integrity of the stored data *)
(* ================================================================== *)

Module Integrity.
Import App.

(** One statement of a write handler turns [d] into [d']: it is accepted,
    or it is refused after it has drawn an id. *)
Inductive writes (now : Z) (d d' : db) : Prop :=
| w_nextval t :
    d' = nextval t d -> writes now d d'
| w_insert_question type content options time_limit answer_limit id :
    insert_question now type content options time_limit answer_limit d =
      Ok (d', id) -> writes now d d'
| w_update_question question_id type content options time_limit answer_limit
                    u :
    update_question_stmt question_id type content options time_limit
                         answer_limit d = Ok (d', u) -> writes now d d'
| w_delete_question question_id u :
    delete_question_stmt question_id d = Ok (d', u) -> writes now d d'
| w_insert_activity name status groups_count groups id :
    insert_activity now name status groups_count groups d = Ok (d', id) ->
    writes now d d'
| w_update_activity updates activity_id u :
    update_activity_stmt now updates activity_id d = Ok (d', u) ->
    writes now d d'
| w_insert_user activity_id name group_name id :
    insert_user now activity_id name group_name d = Ok (d', id) ->
    writes now d d'
| w_insert_answer activity_id question_id user_id answer_text id :
    insert_answer now activity_id question_id user_id answer_text d =
      Ok (d', id) -> writes now d d'.

(** [SERIAL PRIMARY KEY]: the keys of a table are distinct values the
    sequence has already handed out. *)
Definition keys_in_sequence {A} (key : A -> Z) (rows : list A) (next : Z)
  : Prop :=
  NoDup (map key rows) /\ Forall (fun r => 1 <= key r < next) rows.

Definition primary_keys (d : db) : Prop :=
  keys_in_sequence q_id (questions d) (questions_id_seq d) /\
  keys_in_sequence a_id (activities d) (activities_id_seq d) /\
  keys_in_sequence u_id (users d) (users_id_seq d) /\
  keys_in_sequence ans_id (answers d) (answers_id_seq d).

(** The sequences start at 1 and only grow. *)
Definition sequences_started (d : db) : Prop :=
  1 <= questions_id_seq d /\ 1 <= activities_id_seq d /\
  1 <= users_id_seq d /\ 1 <= answers_id_seq d.

(** A nullable reference is null or names a row. *)
Definition refers_to (has : Z -> bool) (v : option Z) : Prop :=
  match v with
  | Some id => has id = true
  | None => True
  end.

Definition foreign_keys (d : db) : Prop :=
  Forall (fun u => refers_to (has_activity d) (u_activity_id u)) (users d) /\
  Forall (fun a => refers_to (has_activity d) (ans_activity_id a) /\
                   refers_to (has_question d) (ans_question_id a) /\
                   refers_to (has_user d) (ans_user_id a)) (answers d).

(** The table a request inserts into. *)
Definition inserts_into (r : request) : option table :=
  match r with
  | POST_questions _ => Some Questions
  | POST_activities _ => Some Activities
  | POST_users _ => Some Users
  | POST_answers _ => Some Answers
  | _ => None
  end.

(** The four tables hold the same rows. *)
Definition same_rows (d d' : db) : Prop :=
  questions d' = questions d /\ activities d' = activities d /\
  users d' = users d /\ answers d' = answers d.

End Integrity.

(* ================================================================== *)
(** * The read-only routes of [app.py] *)
(* ================================================================== *)

Module Reads.
Import App.

(** ** [ORDER BY], [LIMIT] and [GROUP BY] *)

(** A stable sort by [le]: one of the row orders an [ORDER BY] may return;
    rows that compare equal keep the order of the table. *)
Fixpoint insert_by {A} (le : A -> A -> bool) (x : A) (l : list A) : list A :=
  match l with
  | [] => [x]
  | y :: l' => if le x y then x :: l else y :: insert_by le x l'
  end.

Definition sort_by {A} (le : A -> A -> bool) (l : list A) : list A :=
  fold_right (insert_by le) [] l.

(** [ORDER BY key DESC] on a nullable column: nulls come first. *)
Definition newest_first {A} (key : A -> option Z) (x y : A) : bool :=
  match asc_nulls_last (key y) (key x) with
  | Gt => false
  | _ => true
  end.

(** [GROUP BY key]: the groups in order of first appearance, each with its
    rows in table order. *)
Fixpoint add_to_group {A K} (eqb : K -> K -> bool) (key : A -> K) (x : A)
         (groups : list (K * list A)) : list (K * list A) :=
  match groups with
  | [] => [(key x, [x])]
  | (k, rows) :: rest =>
      if eqb k (key x) then (k, rows ++ [x]) :: rest
      else (k, rows) :: add_to_group eqb key x rest
  end.

Definition group_by {A K} (eqb : K -> K -> bool) (key : A -> K) (l : list A)
  : list (K * list A) :=
  fold_left (fun groups x => add_to_group eqb key x groups) l [].

(** [COUNT(DISTINCT col)] *)
Definition count_distinct (l : list Z) : Z :=
  Z.of_nat (List.length (nodup Z.eq_dec l)).

Fixpoint total (l : list Z) : Z :=
  match l with
  | [] => 0
  | x :: l' => x + total l'
  end.

(** The sum over the groups of a sum over their rows. *)
Definition over_groups {A K} (f : A -> Z) (groups : list (K * list A)) : Z :=
  total (map (fun g => total (map f (snd g))) groups).

(** Groups are not empty, hold rows of their key, and have distinct
    keys. *)
Definition grouped {A K} (key : A -> K) (groups : list (K * list A)) : Prop :=
  NoDup (map fst groups) /\
  Forall (fun g => snd g <> [] /\ Forall (fun x => key x = fst g) (snd g))
         groups.

(** ** Responses *)

(** A row of [user_stats]: [u.id, u.name, u.group_name, answer_count]. *)
Record user_stat : Type := mk_user_stat {
  us_id : Z;
  us_name : string;
  us_group_name : option string;
  us_answer_count : Z
}.

(** A row of [group_stats].  [avg_answers_per_person] is a [numeric] with
    two decimals, held as its number of hundredths. *)
Record group_stat : Type := mk_group_stat {
  gs_group_name : string;
  gs_member_count : Z;
  gs_total_answers : Z;
  gs_avg_answers_per_person : Z
}.

Inductive read_body : Type :=
| b_questions (rows : list question_row)
| b_answers (rows : list answer_row)
| b_activities (rows : list activity_row)
| b_stats (user_count answer_count : Z) (current_question_id : option Z)
          (user_stats : list user_stat) (group_stats : list group_stat).

Record read_response : Type := mk_read_response {
  read_status_code : Z;
  read_payload : read_body
}.

Definition jsonify_read (code : Z) (b : read_body) : M read_response :=
  ret (mk_read_response code b).

(** What a request to a read-only route leaves behind. *)
Record read_outcome : Type := mk_read_outcome {
  read_db : db;
  read_trace : list effect;
  read_result : result read_response
}.

Definition run_read (h : M read_response) (d : db) : read_outcome :=
  let '(s, r) := h (mk_session d d false false false []) in
  mk_read_outcome (committed s) (trace s) r.

(** ** Lists of rows *)

(** [SELECT * FROM questions ORDER BY created_at DESC] *)
Definition get_questions : M read_response :=
  get_db_connection ;;
  conn_cursor true ;;
  questions <- cur_query
    (fun d => sort_by (newest_first q_created_at) (questions d)) ;;
  cur_close ;;
  conn_close ;;
  jsonify_read 200 (b_questions questions).

(** [SELECT * FROM activities ORDER BY created_at DESC] *)
Definition get_activities : M read_response :=
  get_db_connection ;;
  conn_cursor true ;;
  activities <- cur_query
    (fun d => sort_by (newest_first a_created_at) (activities d)) ;;
  cur_close ;;
  conn_close ;;
  jsonify_read 200 (b_activities activities).

(** [WHERE question_id = %s AND user_id = %s] *)
Definition answered_by (question_id user_id : option Z) (a : answer_row)
  : bool :=
  col_is (ans_question_id a) question_id && col_is (ans_user_id a) user_id.

(** [question_id] and [user_id] are what
    [request.args.get(..., type=int)] hands over: [None] when the
    parameter is missing or is not the text of an integer. *)
Definition get_answers (question_id user_id : option Z) : M read_response :=
  get_db_connection ;;
  conn_cursor true ;;
  answers <-
    (if truthy_int question_id && truthy_int user_id then
       cur_query
         (fun d => sort_by (newest_first ans_submitted_at)
                           (filter (answered_by question_id user_id)
                                   (answers d)))
     else
       cur_query
         (fun d => firstn 100 (sort_by (newest_first ans_submitted_at)
                                       (answers d)))) ;;
  cur_close ;;
  conn_close ;;
  jsonify_read 200 (b_answers answers).

(** ** Statistics of an activity *)

(** [LEFT JOIN answers a ON a.user_id = u.id AND a.question_id = %s
     AND a.activity_id = %s]: the answers joined to the user row [u]. *)
Definition joined_answers (current_question_id : option Z) (activity_id : Z)
           (d : db) (u : user_row) : list answer_row :=
  filter (fun a => id_is (ans_user_id a) (u_id u) &&
                   col_is (ans_question_id a) current_question_id &&
                   id_is (ans_activity_id a) activity_id)
         (answers d).

(** [COUNT(a.id)] over the joined rows of the user rows [us]. *)
Definition count_joined (current_question_id : option Z) (activity_id : Z)
           (d : db) (us : list user_row) : Z :=
  total (map (fun u => Z.of_nat (List.length
                                 (joined_answers current_question_id
                                                 activity_id d u)))
           us).

(** [WHERE u.activity_id = %s] *)
Definition users_of (activity_id : Z) (d : db) : list user_row :=
  filter (fun u => id_is (u_activity_id u) activity_id) (users d).

Definition option_eqb (x y : option string) : bool :=
  match x, y with
  | Some a, Some b => (a =? b)%string
  | None, None => true
  | _, _ => false
  end.

(** The key of [GROUP BY u.id, u.name, u.group_name]. *)
Definition user_key (u : user_row) : Z * string * option string :=
  (u_id u, u_name u, u_group_name u).

Definition user_key_eqb (x y : Z * string * option string) : bool :=
  let '(i, n, g) := x in
  let '(i', n', g') := y in
  (i =? i') && (n =? n')%string && option_eqb g g'.

(** [COALESCE(u.group_name, '未分組')] *)
Definition group_key (u : user_row) : string :=
  match u_group_name u with
  | Some g => g
  | None => "未分組"
  end.

(** [ROUND(a::numeric / b, 2)] for counts [a >= 0] and [b > 0], in
    hundredths: halves are rounded away from zero.  The quotient
    PostgreSQL rounds has at least 16 significant digits, which decides
    no half wrongly for counts within the range of a [SERIAL] key. *)
Definition round_2 (a b : Z) : Z := (200 * a + b) / (2 * b).

Section ActivityStats.

(** The order [ORDER BY] puts two texts in: the collation of the
    database. *)
Variable collate : string -> string -> comparison.

(** [ORDER BY answer_count DESC, u.name] *)
Definition user_stat_before (x y : user_stat) : bool :=
  match us_answer_count y ?= us_answer_count x with
  | Lt => true
  | Gt => false
  | Eq => match collate (us_name x) (us_name y) with
          | Gt => false
          | _ => true
          end
  end.

(** [ORDER BY group_name] *)
Definition group_stat_before (x y : group_stat) : bool :=
  match collate (gs_group_name x) (gs_group_name y) with
  | Gt => false
  | _ => true
  end.

Definition user_stats_of (current_question_id : option Z) (activity_id : Z)
           (d : db) : list user_stat :=
  sort_by user_stat_before
    (map (fun '(k, us) =>
            let '(id, name, group_name) := k in
            mk_user_stat id name group_name
              (count_joined current_question_id activity_id d us))
         (group_by user_key_eqb user_key (users_of activity_id d))).

Definition group_stats_of (current_question_id : option Z) (activity_id : Z)
           (d : db) : list group_stat :=
  sort_by group_stat_before
    (map (fun '(k, us) =>
            let member_count := count_distinct (map u_id us) in
            let total_answers :=
              count_joined current_question_id activity_id d us in
            mk_group_stat k member_count total_answers
              (if 0 <? member_count
               then round_2 total_answers member_count
               else 0))
         (group_by String.eqb group_key (users_of activity_id d))).

Definition get_activity_stats (activity_id : Z) : M read_response :=
  get_db_connection ;;
  conn_cursor true ;;
  activity <- cur_query (fun d => find (fun r => a_id r =? activity_id)
                                        (activities d)) ;;
  let current_question_id :=
    match activity with
    | Some r => a_current_question_id r
    | None => None
    end in
  user_count <- cur_query
    (fun d => Z.of_nat (List.length (users_of activity_id d))) ;;
  answer_count <- cur_query
    (fun d => Z.of_nat (List.length
                          (filter (fun a => id_is (ans_activity_id a)
                                                  activity_id)
                                  (answers d)))) ;;
  user_stats <-
    (if truthy_int current_question_id
     then cur_query (user_stats_of current_question_id activity_id)
     else ret []) ;;
  group_stats <-
    (if truthy_int current_question_id
     then cur_query (group_stats_of current_question_id activity_id)
     else ret []) ;;
  cur_close ;;
  conn_close ;;
  jsonify_read 200 (b_stats user_count answer_count current_question_id
                            user_stats group_stats).

End ActivityStats.

(** ** Vocabulary *)

(** A poll in progress: an activity showing its first question, two
    participants in the same group, and two answers by the first of
    them. *)
Definition polling_history : list (Z * request) :=
  [ (10, POST_activities
           (mk_create_activity_body (Val "demo") Absent Absent));
    (20, POST_questions
           (mk_question_body (Val "text") (Val "Why?") None Absent Absent));
    (30, POST_users (mk_join_body (Val 1) (Val "ann") (Val "A")));
    (40, POST_users (mk_join_body (Val 1) (Val "bob") (Val "A")));
    (50, PUT_activities 1
           (mk_update_activity_body Absent (Val 1) Absent Absent Absent
                                    None None));
    (60, POST_answers (mk_answer_body (Val 1) (Val 1) (Val 1) (Val "x")));
    (70, POST_answers (mk_answer_body (Val 1) (Val 1) (Val 1) (Val "y"))) ].

(** The collation that tells no two texts apart. *)
Definition no_collation (x y : string) : comparison := Eq.

(** [x] is at least as new as [y]. *)
Definition no_older {A} (key : A -> option Z) (x y : A) : Prop :=
  newest_first key x y = true.

End Reads.

(* ================================================================== *)
(** * Numbers as text *)
(* ================================================================== *)

Module Numerals.
Import App.

(** The number a run of decimal digits stands for, read from the left
    after a number [acc]. *)
Fixpoint digits_value (acc : Z) (d : Decimal.uint) : Z :=
  match d with
  | Decimal.Nil => acc
  | Decimal.D0 d => digits_value (10 * acc + 0) d
  | Decimal.D1 d => digits_value (10 * acc + 1) d
  | Decimal.D2 d => digits_value (10 * acc + 2) d
  | Decimal.D3 d => digits_value (10 * acc + 3) d
  | Decimal.D4 d => digits_value (10 * acc + 4) d
  | Decimal.D5 d => digits_value (10 * acc + 5) d
  | Decimal.D6 d => digits_value (10 * acc + 6) d
  | Decimal.D7 d => digits_value (10 * acc + 7) d
  | Decimal.D8 d => digits_value (10 * acc + 8) d
  | Decimal.D9 d => digits_value (10 * acc + 9) d
  end.

(** The name [run_load_test] gives its [i]-th request, with the random
    suffix [generate_random_name(6)] returned. *)
Definition request_name (i : Z) (suffix : string) : string :=
  "測試使用者_" ++ str_int i ++ "_" ++ suffix.

(** The names of the requests of one run of [run_load_test], in the
    order of submission; [suffix i] is what [generate_random_name(6)]
    returned for request [i]. *)
Definition request_names (num_requests : Z) (suffix : Z -> string)
  : list string :=
  map (fun i => request_name i (suffix i)) (py_range 0 num_requests).

(** The ids [run_socket_load_test] gives its clients. *)
Definition client_ids (client_type : string) (num_clients : Z)
  : list string :=
  map (fun i => (client_type ++ "_" ++ str_int i)%string)
      (py_range 0 num_clients).

Definition text_question (answer_limit : string) : question_body :=
  mk_question_body (Val "text") (Val "Why?") None Absent
                   (Val (IsStr answer_limit)).

End Numerals.

(* ================================================================== *)
(** * Running the load test of [load_test.py] *)
(* ================================================================== *)

Module LoadRun.
Import App LoadTest Numerals.

(** ** Random names *)

(** [random.choice(seq)], where [k] is what the generator draws: any
    element can be chosen, and an empty sequence raises [IndexError]. *)
Definition choice {A} (k : nat) (seq : list A) : result A :=
  match seq with
  | [] => Raise IndexError
  | _ :: _ =>
      match nth_error seq (k mod List.length seq) with
      | Some x => Ok x
      | None => Raise IndexError
      end
  end.

(** [string.ascii_letters + string.digits] *)
Definition letters : list ascii :=
  list_ascii_of_string
    "abcdefghijklmnopqrstuvwxyzABCDEFGHIJKLMNOPQRSTUVWXYZ0123456789".

(** An ASCII letter or digit. *)
Definition is_alphanumeric (c : ascii) : bool :=
  let n := nat_of_ascii c in
  ((48 <=? n) && (n <=? 57) || (65 <=? n) && (n <=? 90) ||
   (97 <=? n) && (n <=? 122))%nat.

(** The results of a generator expression, up to the first that raises. *)
Fixpoint collect {A} (l : list (result A)) : result (list A) :=
  match l with
  | [] => Ok []
  | Ok x :: l' => and_then (collect l') (fun xs => Ok (x :: xs))
  | Raise e :: _ => Raise e
  end.

(** [generate_random_name(length)]; [draws i] is the draw of the [i]-th
    character. *)
Definition generate_random_name (draws : nat -> nat) (length : Z)
  : result string :=
  and_then
    (collect (map (fun i => choice (draws i) letters)
                  (seq 0 (Z.to_nat length))))
    (fun chars => Ok (string_of_list_ascii chars)).

Definition default_groups : list string :=
  ["第1組"; "第2組"; "第3組"; "第4組"; "第5組"; "未分組"].

(** [generate_random_group_name(groups)]; [None] is the default
    argument. *)
Definition generate_random_group_name (k : nat) (groups : option (list string))
  : result string :=
  match groups with
  | Some (g :: gs) => choice k (g :: gs)
  | _ => choice k default_groups
  end.

(** ** The request body and the server behind it *)

(** [payload] of [send_register_request]: [group_name] is sent only when
    it is neither [None] nor empty. *)
Definition register_payload (activity_id : Z) (name : string)
           (group_name : option string) : join_body :=
  mk_join_body (Val activity_id) (Val name)
               (match group_name with
                | Some g => if (g =? "")%string then Absent else Val g
                | None => Absent
                end).

Section Server.

(** The text of the response Flask writes for an outcome of the
    handler. *)
Variable response_text : outcome -> string.

(** [requests.post(url, json=payload)] answered by the [/api/users] route
    of [app.py]: the handler's status, or 500 when the handler raises. *)
Definition post_users (now : Z) (payload : join_body) (d : db)
  : post_outcome * db :=
  let o := serve now (POST_users payload) d in
  (Responded (match out_result o with
              | Ok r => status_code r
              | Raise _ => 500
              end)
             (response_text o),
   out_db o).

(** One registration of the load test against the application. *)
Definition register (now : Z) (started finished : float) (activity_id : Z)
           (name : string) (group_name : option string) (d : db)
  : (bool * float * option string) * db :=
  let '(posted, d') :=
    post_users now (register_payload activity_id name group_name) d in
  (send_register_request started finished posted, d').

End Server.

(** ** [run_load_test] *)

(** [a % b] *)
Definition py_mod (a b : Z) : result Z :=
  if b =? 0 then Raise ZeroDivisionError else Ok (a mod b).

(** [a / b] for two [int]s, neither beyond the range of binary64. *)
Definition int_truediv (a b : Z) : result float :=
  if b =? 0 then Raise ZeroDivisionError else Ok (fdiv (exact a) (exact b)).

(** A progress line: [completed], [num_requests], the percentage, and the
    counters of successes and failures. *)
Record progress_line : Type := mk_progress_line {
  pl_completed : Z;
  pl_num_requests : Z;
  pl_progress : float;
  pl_successful : Z;
  pl_failed : Z
}.

(** What the [i]-th request met: the clock before and after, and what
    [requests.post] did. *)
Definition exchange : Type := float * float * post_outcome.

Section Collecting.

(** [str(e)] for an exception the loop catches. *)
Variable exception_text : exn -> string.

(** [time.sleep]: it returns, or raises on a length it refuses, as it does
    on a negative one. *)
Variable time_sleep : float -> result unit.

(** One pass of the loop that submits the requests: the group name, the
    name, the submission and the pause after it.  [group_draws i] and
    [name_draws i] are what the generator draws for request [i], and
    [delays i] is what [random.uniform(delay_range[0], delay_range[1])]
    returns after it.  The result is the name and the group name
    submitted. *)
Definition submit_request (num_requests : Z)
           (group_names : option (list string))
           (delay_range : option (float * float))
           (group_draws : Z -> nat) (name_draws : Z -> nat -> nat)
           (delays : Z -> float) (i : Z)
  : result (string * option string) :=
  and_then
    (match group_names with
     | Some (_ :: _) =>
         and_then (generate_random_group_name (group_draws i) group_names)
                  (fun g => Ok (Some g))
     | _ => Ok None
     end)
    (fun group_name =>
  and_then (generate_random_name (name_draws i) 6) (fun suffix =>
  and_then
    (match delay_range with
     | Some _ =>
         if i <? num_requests - 1 then time_sleep (delays i) else Ok tt
     | None => Ok tt
     end)
    (fun _ => Ok (request_name i suffix, group_name)))).

(** The loop over [range(num_requests)], up to the first pass that
    raises. *)
Definition submit_requests (num_requests : Z)
           (group_names : option (list string))
           (delay_range : option (float * float))
           (group_draws : Z -> nat) (name_draws : Z -> nat -> nat)
           (delays : Z -> float)
  : result (list (string * option string)) :=
  collect (map (submit_request num_requests group_names delay_range
                               group_draws name_draws delays)
               (py_range 0 num_requests)).

(** What the [try] block does after [add_result]: the progress line it
    prints, if any.  [or] evaluates its second operand only when the first
    is false. *)
Definition progress (num_requests completed : Z) (self : LoadTestResult)
  : result (option progress_line) :=
  and_then (py_mod completed (Z.max 1 (num_requests / 10))) (fun m =>
  if (m =? 0) || (completed =? num_requests) then
    and_then (int_truediv completed num_requests) (fun q =>
    Ok (Some (mk_progress_line completed num_requests
                               (fmul q (float_of_int 100))
                               (successful_requests self)
                               (failed_requests self))))
  else Ok None).

(** The loop over [as_completed(futures)].  [send_register_request]
    catches every exception of its request, so [future.result()] returns;
    an exception raised later in the [try] block is caught and recorded as
    one more, failed, request.  [print] is taken not to fail. *)
Fixpoint collect_results (num_requests : Z) (exchanges : Z -> exchange)
         (order : list Z) (completed : Z) (self : LoadTestResult)
         (printed : list progress_line)
  : LoadTestResult * list progress_line :=
  match order with
  | [] => (self, printed)
  | i :: rest =>
      let completed := completed + 1 in
      let '(started, finished, posted) := exchanges i in
      let self := record_request self started finished posted in
      match progress num_requests completed self with
      | Ok line =>
          collect_results num_requests exchanges rest completed self
            (printed ++ match line with Some l => [l] | None => [] end)
      | Raise e =>
          collect_results num_requests exchanges rest completed
            (add_result self false (float_of_int 0)
                        (Some ("執行錯誤: " ++ exception_text e)%string))
            printed
      end
  end.

(** [order] is the order in which [as_completed] yields the futures of
    the requests [0 .. num_requests - 1]; [ThreadPoolExecutor] refuses a
    [max_workers] below 1.  An exception of the loop that submits leaves
    the [with] block once the requests already submitted are done, and
    ends the run. *)
Definition run_load_test (num_requests concurrency : Z)
           (group_names : option (list string))
           (delay_range : option (float * float))
           (started ended : float)
           (group_draws : Z -> nat) (name_draws : Z -> nat -> nat)
           (delays : Z -> float)
           (exchanges : Z -> exchange) (order : list Z)
  : result (LoadTestResult * list progress_line) :=
  let result := set_times init (Some started) None in
  if concurrency <=? 0 then Raise ValueError
  else
    and_then (submit_requests num_requests group_names delay_range
                              group_draws name_draws delays)
      (fun _ =>
         let '(result, printed) :=
           collect_results num_requests exchanges order 0 result [] in
         Ok (set_times result (start_time result) (Some ended), printed)).

End Collecting.

(** [time.sleep] as far as the sign of its argument goes: a negative
    length raises [ValueError]. *)
Definition sleep_refusing_negative (secs : float) : result unit :=
  if flt secs (S754_zero false) then Raise ValueError else Ok tt.

(** The request was answered 201. *)
Definition registered (x : exchange) : bool :=
  match x with
  | (_, _, Responded status_code _) => status_code =? 201
  | _ => false
  end.

(** The state after the requests of [order] have been collected. *)
Definition collected (exchanges : Z -> exchange) (order : list Z)
           (self : LoadTestResult) : LoadTestResult :=
  fold_left (fun r i => let '(started, finished, posted) := exchanges i in
                        record_request r started finished posted)
            order self.

(** ** [print_statistics] *)

(** What one [print] call shows: a fixed text, or a label with a value
    and the number of decimals it is shown with. *)
Inductive shown : Type :=
| shown_text (s : string)
| shown_count (label : string) (n : Z)
| shown_number (label : string) (x : number) (decimals : Z)
| shown_time (label : string) (x : float) (decimals : Z)
| shown_error (i : Z) (message : string).

(** [enumerate(l, start)] *)
Fixpoint enumerate {A} (start : Z) (l : list A) : list (Z * A) :=
  match l with
  | [] => []
  | x :: l' => (start, x) :: enumerate (start + 1) l'
  end.

(** ["=" * 60] and a line feed. *)
Definition rule : string := string_of_list_ascii (repeat "="%char 60).
Definition nl : string := String "010"%char "".

Definition is_shown_error (x : shown) : bool :=
  match x with
  | shown_error _ _ => true
  | _ => false
  end.

Section Printing.

Variable py_sum : list float -> float.

(** The [print] calls made, in order, and how the call ends.  The first
    subscript of [stats] raises [KeyError] on the empty dictionary. *)
Definition print_statistics (result : LoadTestResult)
  : list shown * Py.result unit :=
  match get_statistics py_sum result with
  | (_, Raise e) => ([], Raise e)
  | (_, Ok stats) =>
      let head :=
        [shown_text (nl ++ rule); shown_text "測試結果統計";
         shown_text rule] in
      match stats with
      | None => (head, Raise (KeyError "total_requests"))
      | Some st =>
          let body :=
            [ shown_count "總請求數" (st_total_requests st);
              shown_count "成功請求" (st_successful_requests st);
              shown_count "失敗請求" (st_failed_requests st);
              shown_number "成功率" (success_rate st) 2;
              shown_number (nl ++ "總耗時") (LoadTest.total_time st) 2;
              shown_number "請求速率" (requests_per_second st) 2;
              shown_text (nl ++ "回應時間統計:");
              shown_time "  平均" (avg_response_time st) 3;
              shown_time "  最小" (min_response_time st) 3;
              shown_time "  最大" (max_response_time st) 3;
              shown_time "  中位數" (median_response_time st) 3;
              shown_number "  P95" (p95_response_time st) 3;
              shown_number "  P99" (p99_response_time st) 3 ] in
          let errors :=
            match error_messages result with
            | [] => []
            | _ :: _ =>
                shown_text (nl ++ "錯誤訊息範例 (顯示前 5 個):") ::
                map (fun '(i, error) => shown_error i error)
                    (enumerate 1 (firstn 5 (error_messages result)))
            end in
          (head ++ body ++ errors ++ [shown_text rule], Ok tt)
      end
  end.

End Printing.

End LoadRun.

(* ================================================================== *)
(** * The result object of [socket_load_test.py] *)
(* ================================================================== *)

Module SocketTest.
Import LoadTest.

(** ** Dictionaries *)

(** A [dict] with text keys: its items in insertion order, no key
    twice. *)
Definition dict (V : Type) : Type := list (string * V).

(** [k in d] *)
Definition contains {V} (d : dict V) (k : string) : bool :=
  existsb (fun kv => (fst kv =? k)%string) d.

(** [d[k] = f(d[k])] for a key that is present: the item keeps its
    place. *)
Fixpoint update {V} (k : string) (f : V -> V) (d : dict V) : dict V :=
  match d with
  | [] => []
  | (k', v) :: rest =>
      if (k' =? k)%string then (k', f v) :: rest
      else (k', v) :: update k f rest
  end.

(** [d[k] = f(d[k])] on a [defaultdict]: a missing key is first inserted
    with the default value, at the end. *)
Definition update_default {V} (default : V) (k : string) (f : V -> V)
           (d : dict V) : dict V :=
  if contains d k then update k f d else d ++ [(k, f default)].

(** [sum(d.values())] *)
Definition sum_values (d : dict Z) : Z :=
  fold_left Z.add (map snd d) 0.

(** [d.get(k, 0)] *)
Definition count_of (d : dict Z) (k : string) : Z :=
  match find (fun kv => (fst kv =? k)%string) d with
  | Some (_, v) => v
  | None => 0
  end.

(** ** [SocketTestResult] *)

(** An entry of [client_states]. *)
Record client_state : Type := mk_client_state {
  connected : bool;
  cs_events_sent : Z;
  cs_events_received : Z
}.

Record SocketTestResult : Type := mk_SocketTestResult {
  total_clients : Z;
  connected_clients : Z;
  disconnected_clients : Z;
  failed_connections : Z;
  events_sent : dict Z;
  events_received : dict Z;
  events_failed : dict Z;
  connection_times : list float;
  event_response_times : dict (list float);
  error_messages : list string;
  start_time : option float;
  end_time : option float;
  client_states : dict client_state
}.

(** [__init__] *)
Definition init : SocketTestResult :=
  mk_SocketTestResult 0 0 0 0 [] [] [] [] [] [] None None [].

(** [add_connection(self, client_id, success, connection_time,
     error_msg=None)] *)
Definition add_connection (self : SocketTestResult) (client_id : string)
           (success : bool) (connection_time : float)
           (error_msg : option string) : SocketTestResult :=
  let total := total_clients self + 1 in
  let times := connection_times self ++ [connection_time] in
  if success then
    mk_SocketTestResult total (connected_clients self + 1)
      (disconnected_clients self) (failed_connections self)
      (events_sent self) (events_received self) (events_failed self)
      times (event_response_times self) (error_messages self)
      (start_time self) (end_time self)
      (if contains (client_states self) client_id
       then client_states self
       else client_states self ++
            [(client_id, mk_client_state true 0 0)])
  else
    mk_SocketTestResult total (connected_clients self)
      (disconnected_clients self) (failed_connections self + 1)
      (events_sent self) (events_received self) (events_failed self)
      times (event_response_times self)
      (if truthy_str error_msg
       then match error_msg with
            | Some m => error_messages self ++ [m]
            | None => error_messages self
            end
       else error_messages self)
      (start_time self) (end_time self) (client_states self).

(** [add_disconnection(self, client_id)] *)
Definition add_disconnection (self : SocketTestResult) (client_id : string)
  : SocketTestResult :=
  mk_SocketTestResult (total_clients self) (connected_clients self)
    (disconnected_clients self + 1) (failed_connections self)
    (events_sent self) (events_received self) (events_failed self)
    (connection_times self) (event_response_times self)
    (error_messages self) (start_time self) (end_time self)
    (update client_id
            (fun s => mk_client_state false (cs_events_sent s)
                                      (cs_events_received s))
            (client_states self)).

(** [add_event_sent(self, client_id, event_name, success=True)] *)
Definition add_event_sent (self : SocketTestResult)
           (client_id event_name : string) (success : bool)
  : SocketTestResult :=
  mk_SocketTestResult (total_clients self) (connected_clients self)
    (disconnected_clients self) (failed_connections self)
    (update_default 0 event_name (fun n => n + 1) (events_sent self))
    (events_received self)
    (if success then events_failed self
     else update_default 0 event_name (fun n => n + 1) (events_failed self))
    (connection_times self) (event_response_times self)
    (error_messages self) (start_time self) (end_time self)
    (update client_id
            (fun s => mk_client_state (connected s) (cs_events_sent s + 1)
                                      (cs_events_received s))
            (client_states self)).

(** [add_event_received(self, client_id, event_name,
     response_time=None)] *)
Definition add_event_received (self : SocketTestResult)
           (client_id event_name : string) (response_time : option float)
  : SocketTestResult :=
  mk_SocketTestResult (total_clients self) (connected_clients self)
    (disconnected_clients self) (failed_connections self)
    (events_sent self)
    (update_default 0 event_name (fun n => n + 1) (events_received self))
    (events_failed self)
    (connection_times self)
    (match response_time with
     | Some t => update_default [] event_name (fun l => l ++ [t])
                                (event_response_times self)
     | None => event_response_times self
     end)
    (error_messages self) (start_time self) (end_time self)
    (update client_id
            (fun s => mk_client_state (connected s) (cs_events_sent s)
                                      (cs_events_received s + 1))
            (client_states self)).

(** [result.start_time = time.time()] and [result.end_time = time.time()]
    in [run_socket_load_test]. *)
Definition set_times (self : SocketTestResult) (started ended : option float)
  : SocketTestResult :=
  mk_SocketTestResult (total_clients self) (connected_clients self)
    (disconnected_clients self) (failed_connections self)
    (events_sent self) (events_received self) (events_failed self)
    (connection_times self) (event_response_times self)
    (error_messages self) started ended (client_states self).

(** ** [get_statistics] *)

(** The statistics of a list of times: [avg], [min], [max], [median],
    [p95], [p99]. *)
Record time_statistics : Type := mk_time_statistics {
  avg : float;
  min : float;
  max : float;
  median : float;
  p95 : number;
  p99 : number
}.

Record statistics : Type := mk_statistics {
  st_total_clients : Z;
  st_connected_clients : Z;
  st_disconnected_clients : Z;
  st_failed_connections : Z;
  connection_success_rate : number;
  total_time : number;
  total_events_sent : Z;
  total_events_received : Z;
  st_events_sent : dict Z;
  st_events_received : dict Z;
  st_events_failed : dict Z;
  connection_time : option time_statistics;   (* [None]: no such key *)
  st_event_response_times : dict time_statistics
}.

(** The least magnitude that rounds to a binary64 beyond the largest
    finite one: [2^1024 - 2^970]. *)
Definition overflow_bound : Z := 2 ^ 1024 - 2 ^ 970.

(** [a / b] for two [int]s.  Python raises [OverflowError] ("integer
    division result too large for a float") where the quotient rounds
    beyond the binary64 range. *)
Definition truediv_ints (a b : Z) : P float :=
  if negb (b =? 0) && (overflow_bound * Z.abs b <=? Z.abs a)
  then ([division (Int a) (Int b)], Raise OverflowError)
  else truediv (Int a) (Int b).

Section SocketStatistics.

Variable py_sum : list float -> float.

(** The dictionary built from a non-empty list of times. *)
Definition statistics_of (times : list float) : P time_statistics :=
  let sorted_times := sorted times in
  avg <~ truediv (Float (py_sum times))
                 (Int (Z.of_nat (List.length times))) ;;
  lo <~ lift (py_min times) ;;
  hi <~ lift (py_max times) ;;
  median <~ item sorted_times (Z.of_nat (List.length sorted_times) / 2) ;;
  p95 <~ (if 0 <? Z.of_nat (List.length sorted_times) then
            i <~ lift (percentile_index f0_95
                         (Z.of_nat (List.length sorted_times))) ;;
            x <~ item sorted_times i ;;
            pure (Float x)
          else pure (Int 0)) ;;
  p99 <~ (if 0 <? Z.of_nat (List.length sorted_times) then
            i <~ lift (percentile_index f0_99
                         (Z.of_nat (List.length sorted_times))) ;;
            x <~ item sorted_times i ;;
            pure (Float x)
          else pure (Int 0)) ;;
  pure (mk_time_statistics avg lo hi median p95 p99).

(** The loop over [event_response_times.items()]. *)
Fixpoint event_statistics (items : dict (list float))
  : P (dict time_statistics) :=
  match items with
  | [] => pure []
  | (event_name, times) :: rest =>
      match times with
      | [] => event_statistics rest
      | _ :: _ =>
          st <~ statistics_of times ;;
          more <~ event_statistics rest ;;
          pure ((event_name, st) :: more)
      end
  end.

Definition get_statistics (self : SocketTestResult) : P statistics :=
  let total_time :=
    if truthy_float (end_time self) && truthy_float (start_time self)
    then match end_time self, start_time self with
         | Some e, Some s => Float (fsub e s)
         | _, _ => Int 0
         end
    else Int 0 in
  let total_events_sent := sum_values (events_sent self) in
  let total_events_received := sum_values (events_received self) in
  rate <~
    (if 0 <? total_clients self then
       q <~ truediv_ints (connected_clients self) (total_clients self) ;;
       pure (Float (fmul q (float_of_int 100)))
     else pure (Int 0)) ;;
  connection_time <~
    (match connection_times self with
     | [] => pure None
     | _ :: _ => st <~ statistics_of (connection_times self) ;;
                 pure (Some st)
     end) ;;
  event_times <~ event_statistics (event_response_times self) ;;
  pure (mk_statistics
          (total_clients self) (connected_clients self)
          (disconnected_clients self) (failed_connections self)
          rate total_time total_events_sent total_events_received
          (events_sent self) (events_received self) (events_failed self)
          connection_time event_times).

End SocketStatistics.

(** ** Vocabulary *)

(** One call of a method of the result object. *)
Inductive call : Type :=
| Connection (client_id : string) (success : bool) (connection_time : float)
             (error_msg : option string)
| Disconnection (client_id : string)
| EventSent (client_id event_name : string) (success : bool)
| EventReceived (client_id event_name : string)
                (response_time : option float).

Definition apply_call (self : SocketTestResult) (c : call)
  : SocketTestResult :=
  match c with
  | Connection client_id success connection_time error_msg =>
      add_connection self client_id success connection_time error_msg
  | Disconnection client_id => add_disconnection self client_id
  | EventSent client_id event_name success =>
      add_event_sent self client_id event_name success
  | EventReceived client_id event_name response_time =>
      add_event_received self client_id event_name response_time
  end.

Definition apply_calls (self : SocketTestResult) (calls : list call)
  : SocketTestResult :=
  fold_left apply_call calls self.

Definition is_connection (c : call) : bool :=
  match c with Connection _ _ _ _ => true | _ => false end.

Definition is_connected (c : call) : bool :=
  match c with Connection _ true _ _ => true | _ => false end.

Definition is_disconnection (c : call) : bool :=
  match c with Disconnection _ => true | _ => false end.

Definition is_sent (event_name : string) (c : call) : bool :=
  match c with
  | EventSent _ e _ => (e =? event_name)%string
  | _ => false
  end.

Definition is_failed (event_name : string) (c : call) : bool :=
  match c with
  | EventSent _ e false => (e =? event_name)%string
  | _ => false
  end.

Definition is_received (event_name : string) (c : call) : bool :=
  match c with
  | EventReceived _ e _ => (e =? event_name)%string
  | _ => false
  end.

Definition is_any_sent (c : call) : bool :=
  match c with EventSent _ _ _ => true | _ => false end.

Definition is_any_received (c : call) : bool :=
  match c with EventReceived _ _ _ => true | _ => false end.

(** An event with at least one recorded response time. *)
Definition has_times (kv : string * list float) : bool :=
  match snd kv with [] => false | _ :: _ => true end.

(** [d.get(k)] *)
Definition lookup {V} (d : dict V) (k : string) : option V :=
  option_map snd (find (fun kv => (fst kv =? k)%string) d).

(** The calls after the first successful [add_connection] of a client;
    [None] when there is none. *)
Fixpoint since_connected (client_id : string) (calls : list call)
  : option (list call) :=
  match calls with
  | [] => None
  | Connection id true _ _ :: rest =>
      if (id =? client_id)%string then Some rest
      else since_connected client_id rest
  | _ :: rest => since_connected client_id rest
  end.

Definition is_sent_by (client_id : string) (c : call) : bool :=
  match c with
  | EventSent id _ _ => (id =? client_id)%string
  | _ => false
  end.

Definition is_received_by (client_id : string) (c : call) : bool :=
  match c with
  | EventReceived id _ _ => (id =? client_id)%string
  | _ => false
  end.

Definition is_disconnection_of (client_id : string) (c : call) : bool :=
  match c with
  | Disconnection id => (id =? client_id)%string
  | _ => false
  end.

(** Three calls of one client: an event received while connecting, the
    connection, an event sent. *)
Definition one_client : list call :=
  [ EventReceived "user_0" "connect" None;
    Connection "user_0" true (float_of_int 1) None;
    EventSent "user_0" "join_activity" true ].

(** How many of the calls satisfy [p]. *)
Definition count (p : call -> bool) (calls : list call) : Z :=
  Z.of_nat (List.length (filter p calls)).

End SocketTest.

(* ================================================================== *)
(** * Properties of the handlers *)
(* ================================================================== *)

Module AppFacts.
Import App.

(** ** Traces *)

(** Symbolic execution of a handler body.  The monad's operations and the
    session's projections are reduced; statements stay folded and are
    split by cases on their result, request fields by cases on their
    presence. *)
Ltac step_run :=
  repeat
    (progress
       (unfold bind, subscript, ret, raise, get_db_connection, conn_cursor,
          cur_query, cur_execute, cur_execute_insert, conn_commit,
          cur_close, conn_close,
          socketio_emit, jsonify, cursor_is_dict;
        cbn [work committed conn_open cur_open cur_dict trace
             out_db out_trace out_result fst snd
             qb_type qb_content qb_options qb_time_limit qb_answer_limit
             cab_name cab_groups_count cab_groups
             uab_status uab_current_question_id uab_groups_count uab_groups
             uab_display_mode uab_projected_answer uab_stats_limit
             jb_activity_id jb_name jb_group_name
             ab_activity_id ab_question_id ab_user_id ab_answer_text])).

Ltac split_run :=
  repeat (step_run;
          match goal with
          | |- context [match ?x with _ => _ end] =>
              lazymatch x with
              | context [match _ with _ => _ end] => fail
              | _ => destruct x eqn:?
              end
          end);
  step_run.

Ltac run_handler :=
  unfold serve, run, handler, create_question, update_question,
    delete_question, create_activity, update_activity, join_activity,
    submit_answer, get_activity, get_activity_groups, int_or_none,
    display_mode_of_row;
  split_run.

(** ** What a handler leaves, by the result of its statement *)

Lemma drawn (t : table) (d : db) :
  with_sequences_of (nextval t d) d = nextval t d.
Proof. now destruct t, d. Qed.

Lemma create_question_outcome (now : Z) (data : question_body) (d : db)
      (answer_limit : option Z) :
  converted_limit (get (qb_answer_limit data)) = Ok answer_limit ->
  present (qb_type data) = true ->
  present (qb_content data) = true ->
  serve now (POST_questions data) d =
  match insert_question now (get (qb_type data)) (get (qb_content data))
                        (dumped_options (qb_options data))
                        (get (qb_time_limit data)) answer_limit d with
  | Ok (d', id) =>
      mk_outcome d' [Commit; Emit (question_created id)]
                 (Ok (mk_response 201 (b_id id)))
  | Raise e =>
      mk_outcome (if refused_by_constraint e then nextval Questions d else d)
                 [] (Raise e)
  end.
Proof.
  unfold converted_limit.
  destruct data as [type content options time_limit limit];
    cbn [qb_type qb_content qb_options qb_time_limit qb_answer_limit].
  intros Hl Ht Hc.
  unfold serve, run, handler, create_question, int_or_none. step_run.
  destruct type, content; try discriminate Ht; try discriminate Hc;
    (destruct (get limit) as [x|];
     [destruct (truthy_num (Some x)); [destruct (int x)|]|]);
    try discriminate Hl; injection Hl as <-; cbn [get];
    step_run;
    (destruct (insert_question _ _ _ _ _ _ d) as [[d' id]|e];
     [|destruct (refused_by_constraint e)]);
    step_run; rewrite ?drawn; reflexivity.
Qed.

Lemma update_question_outcome (now question_id : Z) (data : question_body)
      (d : db) (answer_limit : option Z) :
  converted_limit (get (qb_answer_limit data)) = Ok answer_limit ->
  present (qb_type data) = true ->
  present (qb_content data) = true ->
  serve now (PUT_questions question_id data) d =
  match update_question_stmt question_id (get (qb_type data))
                             (get (qb_content data))
                             (dumped_options (qb_options data))
                             (get (qb_time_limit data)) answer_limit d with
  | Ok (d', _) =>
      mk_outcome d' [Commit; Emit (question_updated question_id)]
                 (Ok (mk_response 200 b_success))
  | Raise e => mk_outcome d [] (Raise e)
  end.
Proof.
  unfold converted_limit.
  destruct data as [type content options time_limit limit];
    cbn [qb_type qb_content qb_options qb_time_limit qb_answer_limit].
  intros Hl Ht Hc.
  unfold serve, run, handler, update_question, int_or_none. step_run.
  destruct type, content; try discriminate Ht; try discriminate Hc;
    (destruct (get limit) as [x|];
     [destruct (truthy_num (Some x)); [destruct (int x)|]|]);
    try discriminate Hl; injection Hl as <-; cbn [get];
    step_run;
    destruct (update_question_stmt _ _ _ _ _ _ d) as [[d' u]|e];
    step_run; reflexivity.
Qed.

Lemma delete_question_outcome (now question_id : Z) (d : db) :
  serve now (DELETE_questions question_id) d =
  match delete_question_stmt question_id d with
  | Ok (d', _) =>
      mk_outcome d' [Commit; Emit (question_deleted question_id)]
                 (Ok (mk_response 200 b_success))
  | Raise e => mk_outcome d [] (Raise e)
  end.
Proof.
  unfold serve, run, handler, delete_question. step_run.
  destruct (delete_question_stmt question_id d) as [[d' u]|e];
    step_run; reflexivity.
Qed.

Lemma create_activity_outcome (now : Z) (data : create_activity_body)
      (d : db) (groups_count : option int_or_str) (groups : option json) :
  activity_parameters data = Ok (groups_count, groups) ->
  present (cab_name data) = true ->
  serve now (POST_activities data) d =
  match insert_activity now (get (cab_name data)) (Some "preparing")
                        groups_count groups d with
  | Ok (d', id) =>
      mk_outcome d' [Commit; Emit (activity_created id)]
                 (Ok (mk_response 201 (b_id id)))
  | Raise e =>
      mk_outcome (if refused_by_constraint e then nextval Activities d
                  else d)
                 [] (Raise e)
  end.
Proof.
  unfold activity_parameters.
  destruct data as [name count groups'];
    cbn [cab_name cab_groups_count cab_groups].
  intros Hp Hn.
  unfold serve, run, handler, create_activity. step_run.
  destruct name; try discriminate Hn;
    destruct (truthy_num (get count));
    [destruct (option_map int (get count)) as [[n|]|]| |
     destruct (option_map int (get count)) as [[n|]|]|];
    cbn [and_then] in Hp; try discriminate Hp;
    destruct groups' as [| |[|g gs]]; cbn [and_then] in Hp;
    injection Hp as <- <-; cbn [get]; step_run;
    (destruct (insert_activity _ _ _ _ _ d) as [[d' id]|e];
     [|destruct (refused_by_constraint e)]);
    step_run; rewrite ?drawn; reflexivity.
Qed.

Lemma join_activity_outcome (now : Z) (data : join_body) (d : db) :
  present (jb_activity_id data) = true ->
  present (jb_name data) = true ->
  serve now (POST_users data) d =
  match insert_user now (get (jb_activity_id data)) (get (jb_name data))
                    (get (jb_group_name data)) d with
  | Ok (d', id) =>
      mk_outcome d'
                 [Commit; Emit (user_joined (get (jb_activity_id data)) id)]
                 (Ok (mk_response 201 (b_id id)))
  | Raise e =>
      mk_outcome (if refused_by_constraint e then nextval Users d else d)
                 [] (Raise e)
  end.
Proof.
  destruct data as [activity_id name group_name];
    cbn [jb_activity_id jb_name jb_group_name].
  intros Ha Hn.
  unfold serve, run, handler, join_activity. step_run.
  destruct activity_id, name; try discriminate Ha; try discriminate Hn;
    cbn [get]; step_run;
    (destruct (insert_user _ _ _ _ d) as [[d' id]|e];
     [|destruct (refused_by_constraint e)]);
    step_run; rewrite ?drawn; reflexivity.
Qed.

(** A submission that meets the limit of its question. *)
Lemma submit_answer_refused (now : Z) (data : answer_body) (d : db)
      (answer_limit : Z) :
  present (ab_question_id data) = true ->
  present (ab_user_id data) = true ->
  select_answer_limit (get (ab_question_id data)) d =
    Some (Some answer_limit) ->
  answer_limit <> 0 ->
  answer_limit <=
    count_answers (get (ab_question_id data)) (get (ab_user_id data)) d ->
  serve now (POST_answers data) d =
  mk_outcome d []
    (Ok (mk_response 400 (b_error_code (limit_message answer_limit)
                                       "ANSWER_LIMIT_EXCEEDED"))).
Proof.
  destruct data as [activity_id question_id user_id answer_text];
    cbn [ab_activity_id ab_question_id ab_user_id ab_answer_text].
  intros Hq Hu Hsel H0 Hcount.
  apply Z.eqb_neq in H0. apply Z.leb_le in Hcount.
  unfold serve, run, handler, submit_answer. step_run.
  destruct question_id, user_id; try discriminate Hq; try discriminate Hu;
    cbn [get] in *; step_run; rewrite Hsel, H0; cbn [negb]; step_run;
    rewrite Hcount; step_run; reflexivity.
Qed.

Lemma submit_answer_outcome (now : Z) (data : answer_body) (d : db) :
  present (ab_question_id data) = true ->
  present (ab_activity_id data) = true ->
  present (ab_user_id data) = true ->
  present (ab_answer_text data) = true ->
  limit_reached data d = false ->
  serve now (POST_answers data) d =
  match insert_answer now (get (ab_activity_id data))
                      (get (ab_question_id data)) (get (ab_user_id data))
                      (get (ab_answer_text data)) d with
  | Ok (d', id) =>
      mk_outcome d'
                 [Commit;
                  Emit (answer_submitted (get (ab_activity_id data))
                                         (get (ab_question_id data)))]
                 (Ok (mk_response 201 (b_id id)))
  | Raise e =>
      mk_outcome (if refused_by_constraint e then nextval Answers d else d)
                 [] (Raise e)
  end.
Proof.
  unfold limit_reached.
  destruct data as [activity_id question_id user_id answer_text];
    cbn [ab_activity_id ab_question_id ab_user_id ab_answer_text].
  intros Hq Ha Hu Ht Hlimit.
  unfold serve, run, handler, submit_answer. step_run.
  destruct question_id, activity_id, user_id, answer_text;
    try discriminate Hq; try discriminate Ha; try discriminate Hu;
    try discriminate Ht; cbn [get] in *; step_run;
    (destruct (select_answer_limit _ d) as [[answer_limit|]|];
     [destruct (answer_limit =? 0); cbn [negb andb] in *; step_run;
      [|rewrite Hlimit]| |]);
    step_run;
    (destruct (insert_answer _ _ _ _ _ d) as [[d' id]|e];
     [|destruct (refused_by_constraint e)]);
    step_run; rewrite ?drawn; reflexivity.
Qed.

(** What follows the commit of [update_activity]. *)
Lemma update_activity_outcome (now activity_id : Z)
      (data : update_activity_body) (d : db) :
  collect_updates data <> [] ->
  match update_activity_stmt now (collect_updates data) activity_id d with
  | Ok (d', _) =>
      exists rest res,
        serve now (PUT_activities activity_id data) d =
          mk_outcome d'
            (Commit :: Emit (activity_updated activity_id data) :: rest)
            res /\
        emitted "activity_updated" rest = 0%nat
  | Raise e =>
      serve now (PUT_activities activity_id data) d = mk_outcome d [] (Raise e)
  end.
Proof.
  intros Hne.
  unfold serve, run, handler, update_activity, display_mode_of_row.
  step_run.
  destruct (collect_updates data) as [|x l] eqn:E; [congruence|].
  step_run.
  destruct (update_activity_stmt now (x :: l) activity_id d) as [[d' u]|e];
    step_run; [|reflexivity].
  split_run; do 2 eexists; split; reflexivity.
Qed.

Lemma update_activity_without_columns (now activity_id : Z)
      (data : update_activity_body) (d : db) :
  collect_updates data = [] ->
  exists rest res,
    serve now (PUT_activities activity_id data) d =
      mk_outcome d (Emit (activity_updated activity_id data) :: rest) res /\
    emitted "activity_updated" rest = 0%nat.
Proof.
  intros E.
  unfold serve, run, handler, update_activity, display_mode_of_row.
  step_run. rewrite E. split_run; do 2 eexists; split; reflexivity.
Qed.

(** A trace that commits once and then announces [e], possibly followed by
    events of other names. *)
Lemma once_after_commit name e rest :
  event_name e = name ->
  emitted name rest = 0%nat ->
  announced_once_after_write name (Commit :: Emit e :: rest).
Proof.
  intros He Hrest. exists [], (Emit e :: rest).
  repeat split.
  unfold emitted in *. cbn. rewrite He, String.eqb_refl. cbn. now rewrite Hrest.
Qed.

Ltac close_trace :=
  cbn [app]; intros Hin;
  first
    [ now (exfalso; cbn in Hin; intuition discriminate)
    | apply once_after_commit; reflexivity ].

(** A request whose statement is accepted leaves what the statement
    leaves and a trace that begins with the commit and the announcement. *)
Lemma performed_write_is_announced (now : Z) (r : request) (d d' : db)
      (e : event) :
  performs now d r d' e ->
  out_db (serve now r d) = d' /\
  event_name e = announces r /\
  exists rest,
    out_trace (serve now r d) = Commit :: Emit e :: rest /\
    emitted (announces r) rest = 0%nat.
Proof.
  intros Hp.
  destruct Hp as [data answer_limit id d' Hl Ht Hc Hs
                 |question_id data answer_limit d' Hl Ht Hc Hs
                 |question_id d' Hs
                 |data groups_count groups id d' Hg Hn Hs
                 |activity_id data d' Hne Hs
                 |data id d' Ha Hn Hs
                 |data id d' Hq Ha Hu Ht Hlimit Hs].
  - rewrite (create_question_outcome _ _ _ _ Hl Ht Hc), Hs.
    repeat split. now exists [].
  - rewrite (update_question_outcome _ _ _ _ _ Hl Ht Hc), Hs.
    repeat split. now exists [].
  - rewrite delete_question_outcome, Hs. repeat split. now exists [].
  - rewrite (create_activity_outcome _ _ _ _ _ Hg Hn), Hs.
    repeat split. now exists [].
  - pose proof (update_activity_outcome now activity_id data d Hne) as H.
    rewrite Hs in H. destruct H as (rest & res & -> & Hrest).
    repeat split. now exists rest.
  - rewrite (join_activity_outcome _ _ _ Ha Hn), Hs.
    repeat split. now exists [].
  - rewrite (submit_answer_outcome _ _ _ Hq Ha Hu Ht Hlimit), Hs.
    repeat split. now exists [].
Qed.

Ltac recall_fields :=
  repeat match goal with
         | H : ?a = ?a |- _ => clear H
         end;
  repeat (progress
            (repeat match goal with
                    | H : ?x = _ |- context [?x] => rewrite H
                    end;
             cbn [get present and_then option_map negb andb fst snd])).

Ltac performed :=
  left; eexists; econstructor;
  unfold converted_limit, activity_parameters, limit_reached;
  recall_fields;
  first [ reflexivity | eassumption | congruence ].

(** A success status is the answer to an accepted statement; the one
    request that succeeds without a statement is an [update_activity]
    that names no column. *)
Lemma success_is_performed (now : Z) (r : request) (d : db) :
  succeeded (serve now r d) = true ->
  (exists e, performs now d r (out_db (serve now r d)) e) \/
  (exists activity_id data,
      r = PUT_activities activity_id data /\
      collect_updates data = [] /\
      out_db (serve now r d) = d).
Proof.
  unfold succeeded.
  destruct r; run_handler; cbn; intros; try discriminate;
    repeat match goal with u : unit |- _ => destruct u end;
    try (right; do 2 eexists;
         split; [reflexivity|split; [assumption|reflexivity]]);
    performed.
Qed.

(** A request that answers with a success status has announced itself
    exactly once. *)
Lemma success_announces_once (now : Z) (r : request) (d : db) :
  succeeded (serve now r d) = true ->
  emitted (announces r) (out_trace (serve now r d)) = 1%nat.
Proof.
  unfold succeeded.
  destruct r; cbn [announces]; run_handler;
    cbn; intros; try discriminate; reflexivity.
Qed.

Lemma commit_is_announced (now : Z) (r : request) (d : db) :
  In Commit (out_trace (serve now r d)) ->
  announced_once_after_write (announces r) (out_trace (serve now r d)).
Proof.
  destruct r; cbn [announces]; run_handler; close_trace.
Qed.

(** C2. Every write operation of the API (create, update or delete a
    question, create or update an activity, join, submit an answer)
    performs its database write and then emits its event exactly once.
    Whenever the body of the request carries the keys the handler reads
    and the statement of the handler is accepted, the handler leaves the
    database the statement leaves, and its trace is the commit followed by
    the event of the operation ([question_created], [question_updated],
    [question_deleted], [activity_created], [activity_updated],
    [user_joined] or [answer_submitted]) and by no further event of that
    name.  Conversely a request answered with a success status has had its
    statement accepted (or is an [update_activity] that names no column,
    which writes nothing) and has emitted its event exactly once; and a
    trace that holds a commit holds the event once, after the commit. *)
Theorem write_announced_once (now : Z) (r : request) (d : db) :
  (forall d' e,
      performs now d r d' e ->
      out_db (serve now r d) = d' /\
      event_name e = announces r /\
      exists rest,
        out_trace (serve now r d) = Commit :: Emit e :: rest /\
        emitted (announces r) rest = 0%nat) /\
  (succeeded (serve now r d) = true ->
   ((exists e, performs now d r (out_db (serve now r d)) e) \/
    (exists activity_id data,
        r = PUT_activities activity_id data /\
        collect_updates data = [] /\
        out_db (serve now r d) = d)) /\
   emitted (announces r) (out_trace (serve now r d)) = 1%nat) /\
  (In Commit (out_trace (serve now r d)) ->
   announced_once_after_write (announces r) (out_trace (serve now r d))).
Proof.
  split; [|split].
  - intros d' e. apply performed_write_is_announced.
  - intros Hs. split.
    + now apply success_is_performed.
    + now apply success_announces_once.
  - apply commit_is_announced.
Qed.

Ltac accepted :=
  econstructor; first [ discriminate | lazy; reflexivity ].

Lemma write_announced_once_witness :
  Forall (fun k => exists e, written k e) (seq 0 8).
Proof.
  repeat constructor;
    eexists; unfold written; cbn [nth_error write_requests];
    cbv zeta;
    match goal with
    | |- performs ?now ?d ?r ?d' ?e /\ _ =>
        assert (Hp : performs now d r d' e) by accepted;
        split; [exact Hp|];
        exact (proj1 (write_announced_once now r d) d' e Hp)
    end.
Defined.

(** ** Looking a row up by its primary key *)

Lemma find_by_key {A} (key : A -> Z) (l : list A) (x : A) (k : Z) :
  NoDup (map key l) -> In x l -> key x = k ->
  find (fun y => key y =? k) l = Some x.
Proof.
  induction l as [|y l IH]; cbn; intros Hnd Hin Hk; [contradiction|].
  inversion Hnd as [|? ? Hy Hl]; subst.
  destruct Hin as [->|Hin].
  - now rewrite Z.eqb_refl.
  - destruct (Z.eqb_spec (key y) (key x)) as [E|_].
    + exfalso. apply Hy. rewrite E. now apply in_map.
    + now apply IH.
Qed.

Lemma find_no_key {A} (key : A -> Z) (l : list A) (k : Z) :
  (forall x, In x l -> key x <> k) ->
  find (fun y => key y =? k) l = None.
Proof.
  induction l as [|y l IH]; cbn; intros H; [reflexivity|].
  destruct (Z.eqb_spec (key y) k) as [E|_].
  - exfalso. now apply (H y); [left|].
  - apply IH. intros x Hx. apply H. now right.
Qed.

Lemma find_same {A} (f g : A -> bool) (l : list A) :
  (forall x, f x = g x) -> find f l = find g l.
Proof.
  intros E. induction l as [|y l IH]; cbn; [reflexivity|].
  now rewrite E, IH.
Qed.

Lemma select_answer_limit_of (d : db) (q : question_row) (qid : Z) :
  NoDup (map q_id (questions d)) -> In q (questions d) -> q_id q = qid ->
  select_answer_limit (Some qid) d = Some (q_answer_limit q).
Proof.
  intros Hnd Hin Hid. unfold select_answer_limit.
  rewrite (find_same (fun x => id_is (Some qid) (q_id x))
                     (fun x => q_id x =? qid))
    by (intros x; cbn; apply Z.eqb_sym).
  now rewrite (find_by_key q_id _ q qid Hnd Hin Hid).
Qed.

(** ** Answer limits *)

(** C1, as stated, fails: with a stored limit of 0 every user already has
    "at least 0" answers, yet the submission is stored and answered 201. *)
Lemma zero_limit_not_refused :
  ~ refused_at_limit 40 first_answer (replay zero_limit_history empty_db).
Proof.
  intros H.
  destruct (H 1 1 (mk_question 1 "text" "Why?" (Some (JArr [])) None
                               (Some 0) (Some 20)) 0)
    as (error & Hres & _).
  - reflexivity.
  - reflexivity.
  - vm_compute. now left.
  - reflexivity.
  - reflexivity.
  - vm_compute. discriminate.
  - vm_compute in Hres. discriminate.
Qed.

Lemma insert_answer_accepted (now : Z) (activity_id question_id user_id : option Z)
      (answer_text : option string) (d : db) :
  sendable answer_text = true ->
  names_row (has_activity d) activity_id = true ->
  names_row (has_question d) question_id = true ->
  names_row (has_user d) user_id = true ->
  insert_answer now activity_id question_id user_id answer_text d =
  Ok (mk_db (questions d) (activities d) (users d)
            (answers d ++
               [mk_answer (answers_id_seq d) activity_id question_id user_id
                          answer_text (Some now)])
            (questions_id_seq d) (activities_id_seq d) (users_id_seq d)
            (answers_id_seq d + 1),
      answers_id_seq d).
Proof.
  unfold sendable, names_row, insert_answer, check_text, check_integer,
    check_references, and_then.
  intros Ht Ha Hq Hu.
  destruct answer_text as [s|];
    [apply negb_true_iff in Ht; rewrite Ht|];
    (destruct activity_id as [a|];
     [apply andb_prop in Ha as [-> ->]|]);
    (destruct question_id as [q|];
     [apply andb_prop in Hq as [-> ->]|]);
    (destruct user_id as [u|];
     [apply andb_prop in Hu as [-> ->]|]);
    reflexivity.
Qed.

(** C1 (amended). For a question whose limit is a non-null, non-zero [L], a
    submission that carries the key [user_id], by a user who already has
    at least [L] answers to the question, is answered 400 with error code
    [ANSWER_LIMIT_EXCEEDED]; it stores and emits nothing.  When the limit
    is null or 0, or the user has fewer than [L] answers, a submission
    that carries all four keys, whose [activity_id] and [user_id] are null
    or name an existing row, whose ids are within the range of INTEGER and
    whose [answer_text] holds no NUL character, stores one new answer row
    with the submitted values, is answered 201 with that row's id and
    emits [answer_submitted] after the commit. *)
Theorem submit_answer_limit (now qid : Z) (data : answer_body) (d : db)
        (q : question_row) :
  NoDup (map q_id (questions d)) -> In q (questions d) -> q_id q = qid ->
  ab_question_id data = Val qid ->
  present (ab_user_id data) = true ->
  let o := serve now (POST_answers data) d in
  let prior := count_answers (Some qid) (get (ab_user_id data)) d in
  (forall L,
      q_answer_limit q = Some L -> L <> 0 -> L <= prior ->
      out_result o =
        Ok (mk_response 400 (b_error_code (limit_message L)
                                          "ANSWER_LIMIT_EXCEEDED")) /\
      out_db o = d /\ out_trace o = []) /\
  (q_answer_limit q = None \/ q_answer_limit q = Some 0 \/
   (exists L, q_answer_limit q = Some L /\ prior < L) ->
   present (ab_activity_id data) = true ->
   present (ab_answer_text data) = true ->
   fits_integer qid = true ->
   names_row (has_activity d) (get (ab_activity_id data)) = true ->
   names_row (has_user d) (get (ab_user_id data)) = true ->
   sendable (get (ab_answer_text data)) = true ->
   out_result o = Ok (mk_response 201 (b_id (answers_id_seq d))) /\
   answers (out_db o) =
     answers d ++ [mk_answer (answers_id_seq d) (get (ab_activity_id data))
                             (Some qid) (get (ab_user_id data))
                             (get (ab_answer_text data)) (Some now)] /\
   questions (out_db o) = questions d /\
   activities (out_db o) = activities d /\
   users (out_db o) = users d /\
   out_trace o =
     [Commit; Emit (answer_submitted (get (ab_activity_id data))
                                     (Some qid))]).
Proof.
  intros Hnd Hin Hid Hqid Hu o prior.
  pose proof (select_answer_limit_of d q qid Hnd Hin Hid) as Hsel.
  assert (Hq : has_question d qid = true).
  { unfold has_question. apply existsb_exists. exists q.
    split; [exact Hin | now apply Z.eqb_eq]. }
  assert (Hpq : present (ab_question_id data) = true) by now rewrite Hqid.
  assert (Hgq : get (ab_question_id data) = Some qid) by now rewrite Hqid.
  subst o prior. split.
  - intros L HL HL0 Hprior.
    rewrite (submit_answer_refused now data d L); rewrite ?Hgq; auto.
    now rewrite Hsel, HL.
  - intros Hcase Ha Ht Hfit Hna Hnu Hnt.
    assert (Hlimit : limit_reached data d = false).
    { unfold limit_reached. rewrite Hgq, Hsel.
      destruct Hcase as [-> | [-> | (L & -> & Hlt)]]; try reflexivity.
      apply Z.leb_gt in Hlt. rewrite Hlt. apply andb_false_r. }
    rewrite (submit_answer_outcome now data d Hpq Ha Hu Ht Hlimit), Hgq.
    rewrite insert_answer_accepted; auto.
    + now repeat split.
    + unfold names_row. now rewrite Hfit, Hq.
Qed.

Lemma submit_answer_limit_witness :
  (let d := replay one_answer_history empty_db in
   out_result (serve 50 (POST_answers first_answer) d) =
     Ok (mk_response 400 (b_error_code (limit_message 1)
                                       "ANSWER_LIMIT_EXCEEDED")) /\
   out_db (serve 50 (POST_answers first_answer) d) = d) /\
  (let d := replay zero_limit_history empty_db in
   out_result (serve 40 (POST_answers first_answer) d) =
     Ok (mk_response 201 (b_id 1)) /\
   out_trace (serve 40 (POST_answers first_answer) d) =
     [Commit; Emit (answer_submitted (Some 1) (Some 1))]).
Proof.
  split.
  - intros d.
    assert (Hnd : NoDup (map q_id (questions d)))
      by (vm_compute; repeat constructor; intros []).
    assert (Hin : In (mk_question 1 "text" "Why?" (Some (JArr [])) None
                                  (Some 1) (Some 20)) (questions d))
      by (vm_compute; now left).
    destruct (submit_answer_limit 50 1 first_answer d _ Hnd Hin eq_refl
                                  eq_refl eq_refl)
      as [Hrefuse _].
    destruct (Hrefuse 1) as (Hres & Hdb & _).
    + reflexivity.
    + discriminate.
    + vm_compute. discriminate.
    + split; [exact Hres | exact Hdb].
  - intros d.
    assert (Hnd : NoDup (map q_id (questions d)))
      by (vm_compute; repeat constructor; intros []).
    assert (Hin : In (mk_question 1 "text" "Why?" (Some (JArr [])) None
                                  (Some 0) (Some 20)) (questions d))
      by (vm_compute; now left).
    destruct (submit_answer_limit 40 1 first_answer d _ Hnd Hin eq_refl
                                  eq_refl eq_refl)
      as [_ Hstore].
    destruct Hstore as (Hres & _ & _ & _ & _ & Htrace);
      try reflexivity.
    + right. now left.
    + split; [exact Hres | exact Htrace].
Defined.

(** ** Statement inversion *)

Ltac split_hyp H :=
  repeat match type of H with
         | context [match ?x with _ => _ end] =>
             lazymatch x with
             | context [match _ with _ => _ end] => fail
             | _ => destruct x eqn:?
             end
         end.

(** The [VARCHAR] column stores the text it accepts cut to its width. *)
Lemma check_varchar_stored column n v stored :
  check_varchar column n v = Ok stored -> stored = option_map (varchar n) v.
Proof.
  unfold check_varchar. destruct v as [s|]; cbn [option_map].
  - destruct (_ || _); [now intros [= <-]|discriminate].
  - now intros [= <-].
Qed.

Lemma varchar_fits n s : utf8_length s <= n -> varchar n s = s.
Proof. unfold varchar. intros H. apply Z.leb_le in H. now rewrite H. Qed.

Lemma preparing_stored column :
  check_varchar column 20 (Some "preparing") = Ok (Some "preparing").
Proof. reflexivity. Qed.

Ltac stmt_inv H :=
  unfold insert_question, update_question_stmt, delete_question_stmt,
    insert_activity, update_activity_stmt, insert_user, insert_answer,
    and_then in H;
  rewrite ?preparing_stored in H;
  split_hyp H; try discriminate H;
  inversion H; subst; clear H.

(** ** Activity status *)

Lemma untouched_status now (l : list assignment) (r : activity_row) :
  forallb (fun x => negb (touches_status x)) l = true ->
  a_status (fold_left (assign now) l r) = a_status r.
Proof.
  revert r. induction l as [|x l IH]; cbn; intros r H; [reflexivity|].
  apply andb_prop in H as [Hx Hl].
  rewrite IH by exact Hl.
  now destruct x.
Qed.

Lemma rest_keeps_status (data : update_activity_body) :
  forallb (fun x => negb (touches_status x))
          (current_question_updates data ++ groups_count_updates data ++
           groups_updates data ++ display_mode_updates data) = true.
Proof.
  unfold current_question_updates, groups_count_updates, groups_updates,
    display_mode_updates.
  destruct (uab_current_question_id data), (uab_groups_count data),
    (uab_groups data) as [| |[|g gs]], (uab_display_mode data); reflexivity.
Qed.

(** The assignments as stored: one for one, each to the same column. *)
Lemma check_assignment_column (x stored : assignment) :
  check_assignment x = Ok stored ->
  touches_status stored = touches_status x.
Proof.
  destruct x as [v| |v|v|v|v]; cbn [check_assignment]; unfold and_then;
    try (now intros [= <-]).
  - destruct (check_varchar _ _ _); [now intros [= <-]|discriminate].
  - destruct (check_integer _ _); [now intros [= <-]|discriminate].
  - destruct (check_integer _ _); [now intros [= <-]|discriminate].
  - destruct (check_varchar _ _ _); [now intros [= <-]|discriminate].
Qed.

Lemma check_assignments_cons x l stored :
  check_assignments (x :: l) = Ok stored ->
  exists x' l', check_assignment x = Ok x' /\
                check_assignments l = Ok l' /\ stored = x' :: l'.
Proof.
  cbn [check_assignments]. unfold and_then.
  destruct (check_assignment x) as [x'|]; [|discriminate].
  destruct (check_assignments l) as [l'|]; [|discriminate].
  intros [= <-]. now exists x', l'.
Qed.

Lemma check_assignments_app l1 l2 stored :
  check_assignments (l1 ++ l2) = Ok stored ->
  exists s1 s2, check_assignments l1 = Ok s1 /\
                check_assignments l2 = Ok s2 /\ stored = s1 ++ s2.
Proof.
  revert stored. induction l1 as [|x l1 IH]; intros stored H.
  - now exists [], stored.
  - cbn [app] in H.
    apply check_assignments_cons in H as (x' & l' & Hx & Hl & ->).
    destruct (IH _ Hl) as (s1 & s2 & H1 & H2 & ->).
    exists (x' :: s1), s2. cbn [check_assignments]. unfold and_then.
    now rewrite Hx, H1.
Qed.

Lemma check_assignments_columns l stored :
  check_assignments l = Ok stored ->
  forallb (fun x => negb (touches_status x)) l = true ->
  forallb (fun x => negb (touches_status x)) stored = true.
Proof.
  revert stored. induction l as [|x l IH]; intros stored H Hl.
  - now injection H as <-.
  - apply check_assignments_cons in H as (x' & l' & Hx & Hl' & ->).
    cbn [forallb] in *. apply andb_prop in Hl as [H1 H2].
    rewrite (check_assignment_column _ _ Hx), H1. cbn [andb]. now apply IH.
Qed.

(** The status an update leaves in a row it matches: the supplied one as
    the column stores it, or the old one when the body has no [status]
    key. *)
Lemma status_after_update now (data : update_activity_body)
      (stored : list assignment) (r : activity_row) :
  check_assignments (collect_updates data) = Ok stored ->
  a_status (fold_left (assign now) stored r) =
  if present (uab_status data)
  then option_map (varchar 20) (get (uab_status data))
  else a_status r.
Proof.
  unfold collect_updates. intros H.
  apply check_assignments_app in H as (s1 & s2 & H1 & H2 & ->).
  rewrite fold_left_app.
  rewrite untouched_status
    by (apply (check_assignments_columns _ _ H2), rest_keeps_status).
  revert H1. unfold status_updates.
  destruct (uab_status data) as [| |s]; cbn [present get option_map].
  - now intros [= <-].
  - now intros [= <-].
  - intros H1.
    apply check_assignments_cons in H1 as (x' & l' & Hx & Hl & ->).
    cbn [check_assignment] in Hx. unfold and_then in Hx.
    destruct (check_varchar "status" 20 (Some s)) as [v|] eqn:Hv;
      [|discriminate].
    apply check_varchar_stored in Hv as ->. injection Hx as <-.
    destruct (s =? "active")%string.
    + apply check_assignments_cons in Hl as (y & l'' & Hy & Hl & ->).
      injection Hy as <-. now injection Hl as <-.
    + now injection Hl as <-.
Qed.

(** What an accepted [UPDATE activities] leaves. *)
Lemma update_activity_stmt_accepted now updates activity_id d d' u :
  update_activity_stmt now updates activity_id d = Ok (d', u) ->
  exists stored,
    check_assignments updates = Ok stored /\
    d' = mk_db (questions d)
               (map (fun r => if a_id r =? activity_id
                              then fold_left (assign now) stored r
                              else r) (activities d))
               (users d) (answers d)
               (questions_id_seq d) (activities_id_seq d) (users_id_seq d)
               (answers_id_seq d).
Proof.
  unfold update_activity_stmt, and_then.
  destruct (for_each _ updates); [|discriminate].
  destruct (for_each _ updates); [|discriminate].
  destruct (check_assignments updates) as [stored|]; [|discriminate].
  intros [= <- _]. now exists stored.
Qed.

(** Where the status of a row comes from after one request. *)
Lemma status_after (now : Z) (r : request) (d : db) (a : activity_row) :
  In a (activities (out_db (serve now r d))) ->
  (exists a0, In a0 (activities d) /\ a_status a = a_status a0) \/
  a_status a = Some "preparing" \/
  (exists id data, r = PUT_activities id data /\
                   present (uab_status data) = true /\
                   a_status a =
                     option_map (varchar 20) (get (uab_status data))).
Proof.
  destruct r as [data|question_id data|question_id|data|activity_id data
                |data|data].
  5: {
    destruct (collect_updates data) as [|x l] eqn:E.
    - destruct (update_activity_without_columns now activity_id data d E)
        as (rest & res & -> & _).
      intros Hin. left. exists a. now split.
    - assert (Hne : collect_updates data <> []) by now rewrite E.
      pose proof (update_activity_outcome now activity_id data d Hne) as H.
      destruct (update_activity_stmt _ _ _ d) as [[d' u]|e] eqn:Hs.
      + destruct H as (rest & res & -> & _). cbn [out_db].
        apply update_activity_stmt_accepted in Hs as (stored & Hc & ->).
        cbn [activities]. intros Hin.
        apply in_map_iff in Hin as (old & <- & Hold).
        destruct (a_id old =? activity_id);
          [|left; exists old; now split].
        rewrite (status_after_update now data stored old Hc).
        destruct (present (uab_status data)) eqn:Hp.
        * right; right. exists activity_id, data. now repeat split.
        * left. exists old. now split.
      + rewrite H. intros Hin. left. exists a. now split. }
  all: run_handler;
    try (intros Hin; left; exists a; now split);
    try (destruct t; cbn [nextval activities];
         intros Hin; left; exists a; now split);
    match goal with
    | H : _ = Ok (_, _) |- _ => stmt_inv H
    end;
    cbn [activities]; intros Hin;
    try (left; exists a; now split).
  (* create_activity *)
  all: apply in_app_or in Hin as [Hin|[<-|[]]];
    [ left; exists a; now split | right; now left ].
Qed.

(** C3, as stated, fails: [update_activity] stores the status it is given,
    so a reachable activity can carry a status outside the three values. *)
Lemma paused_status_reachable :
  ~ Forall valid_status (activities (replay paused_history empty_db)).
Proof.
  intros H. vm_compute in H.
  inversion H as [|? ? Hv _]; subst.
  repeat (destruct Hv as [Hv|Hv]; [discriminate Hv|]).
  exact Hv.
Qed.

Lemma status_explained_later past later a :
  status_explained past a -> status_explained (past ++ later) a.
Proof.
  intros [H|(now & id & data & Hin & Hp & Hs)]; [now left|].
  right. exists now, id, data. repeat split; auto.
  apply in_or_app. now left.
Qed.

Lemma replay_status (history past : list (Z * request)) (d : db) :
  (forall a, In a (activities d) -> status_explained past a) ->
  forall a, In a (activities (replay history d)) ->
            status_explained (past ++ history) a.
Proof.
  revert past d.
  induction history as [|[now r] rest IH]; cbn [replay]; intros past d Hd a Ha.
  - rewrite app_nil_r. now apply Hd.
  - replace (past ++ (now, r) :: rest) with ((past ++ [(now, r)]) ++ rest)
      by now rewrite <- app_assoc.
    apply (IH _ (out_db (serve now r d))); [|exact Ha].
    intros b Hb.
    destruct (status_after now r d b Hb)
      as [(b0 & Hb0 & E)|[E|(id & data & -> & Hp & E)]].
    + apply status_explained_later.
      destruct (Hd b0 Hb0) as [H|(n & i & dt & Hin & Hp & Hs)].
      * left. congruence.
      * right. exists n, i, dt. repeat split; auto. congruence.
    + now left.
    + right. exists now, id, data. repeat split; auto.
      apply in_or_app. right. now left.
Qed.

(** C3 (amended). [create_activity] creates every activity with status
    ['preparing'] and [update_activity] stores whatever status its request
    supplies, unvalidated, as the [VARCHAR(20)] column holds it (a text of
    more than 20 characters is accepted only when spaces alone exceed the
    width, and is then cut to its first 20 characters): the status of an
    activity reachable through the API is ['preparing'] or the value so
    stored of the [status] key of some earlier update request. *)
Theorem status_is_preparing_or_supplied (history : list (Z * request))
        (a : activity_row) :
  In a (activities (replay history empty_db)) ->
  a_status a = Some "preparing" \/
  exists now id data,
    In (now, PUT_activities id data) history /\
    present (uab_status data) = true /\
    a_status a = option_map (varchar 20) (get (uab_status data)).
Proof.
  intros Ha.
  apply (replay_status history [] empty_db); [intros b []|exact Ha].
Qed.

Lemma status_is_preparing_or_supplied_witness :
  let a := mk_activity 1 "demo" (Some "paused") None None None (Some "none")
                       None None (Some 10) in
  In a (activities (replay paused_history empty_db)) /\
  (a_status a = Some "preparing" \/
   exists now id data,
     In (now, PUT_activities id data) paused_history /\
     present (uab_status data) = true /\
     a_status a = option_map (varchar 20) (get (uab_status data))).
Proof.
  intros a.
  assert (Ha : In a (activities (replay paused_history empty_db)))
    by (vm_compute; now left).
  split; [exact Ha|].
  exact (status_is_preparing_or_supplied paused_history a Ha).
Defined.

(** A status of more than 20 characters is stored when spaces alone
    exceed the width, cut to its first 20 characters; one with another
    character beyond the width is refused. *)
Lemma padded_status_is_cut :
  let blanks n := string_of_list_ascii (repeat " "%char n) in
  let update status :=
    PUT_activities 1 (mk_update_activity_body (Val status) Absent Absent
                                              Absent Absent None None) in
  let d := replay [(10, POST_activities
                          (mk_create_activity_body (Val "demo") Absent
                                                   Absent))] empty_db in
  map a_status
      (activities (out_db (serve 20 (update ("paused" ++ blanks 15%nat)%string)
                                 d))) =
    [Some ("paused" ++ blanks 14%nat)%string] /\
  out_result (serve 20 (update ("paused" ++ blanks 14%nat ++ "!")%string) d) =
    Raise (StringDataRightTruncation "status").
Proof. vm_compute. now split. Qed.

(** What [create_activity] adds when it succeeds. *)
Lemma create_activity_preparing now data d id :
  out_result (serve now (POST_activities data) d) =
    Ok (mk_response 201 (b_id id)) ->
  exists a, activities (out_db (serve now (POST_activities data) d)) =
              activities d ++ [a] /\
            a_id a = id /\ a_status a = Some "preparing".
Proof.
  run_handler; intros Hres; try discriminate Hres;
    match goal with
    | H : _ = Ok (_, _) |- _ => stmt_inv H
    end;
    injection Hres as <-; eexists; cbn [activities];
    (split; [reflexivity|now split]).
Qed.

(** ** Starting an activity *)

(** C4. The request [{"status": "active", "current_question_id": 1}] on an
    existing activity: the update is committed and [activity_updated] is
    emitted, then the query for the stored display mode runs on the cursor
    the handler has already closed.  The handler raises; no
    [display_update] is emitted and no [{'success': true}] is returned. *)
Lemma start_request_raises :
  let o := serve 30 (PUT_activities 1 start_request)
                 (replay started_history empty_db) in
  out_result o = Raise (InterfaceError "cursor already closed") /\
  out_trace o = [Commit; Emit (activity_updated 1 start_request)] /\
  emitted "display_update" (out_trace o) = 0%nat.
Proof. vm_compute. repeat split. Qed.

(** The same on every database and for every such request: the handler
    never answers and never emits [display_update]. *)
Lemma start_without_display_mode_raises now id data d :
  uab_status data = Val "active" ->
  present (uab_current_question_id data) = true ->
  uab_display_mode data = Absent ->
  (exists e, out_result (serve now (PUT_activities id data) d) = Raise e) /\
  emitted "display_update" (out_trace (serve now (PUT_activities id data) d))
    = 0%nat.
Proof.
  intros Hs Hq Hm.
  unfold serve, run, handler, update_activity.
  rewrite Hs, Hm, Hq. cbn [present String.eqb Ascii.eqb Bool.eqb andb].
  split_run; split; try reflexivity; eauto.
Qed.

(** ** Groups of an activity *)

Lemma py_range_length lo hi :
  List.length (py_range lo hi) = Z.to_nat (hi - lo).
Proof. unfold py_range. now rewrite length_map, length_seq. Qed.

Lemma py_range_nth lo hi (n : nat) :
  (n < Z.to_nat (hi - lo))%nat ->
  nth_error (py_range lo hi) n = Some (lo + Z.of_nat n).
Proof.
  intros Hn. unfold py_range.
  rewrite nth_error_map, nth_error_seq.
  apply Nat.ltb_lt in Hn. now rewrite Hn.
Qed.

Section GroupsFacts.

Variable json_loads : string -> option json.

Lemma group_list_generated (groups : option json) (groups_count : option Z)
      (k : Z) :
  (forall g gs, groups <> Some (JArr (g :: gs))) ->
  groups_count = Some k -> k <> 0 ->
  group_list groups groups_count =
  map default_group_name (py_range 1 (k + 1)).
Proof.
  intros Hno -> Hk. unfold group_list.
  apply Z.eqb_neq in Hk.
  destruct groups as [[| | | |[|g gs]|]|];
    try (exfalso; now apply (Hno g gs));
    cbn [truthy_int]; now rewrite Hk.
Qed.

(** C6. [get_activity_groups] answers 404 [Activity not found] for an id
    without a row.  For an existing activity it answers with the stored
    list of group names when one is set (a non-empty array, kept as such
    or as JSON text); otherwise, for a positive [groups_count] [k], with
    the [k] generated names [第1組] ... [第k組]; otherwise with the empty
    list. *)
Theorem get_activity_groups_spec (activity_id : Z) (d : db) :
  let o := run (get_activity_groups json_loads activity_id) d in
  out_db o = d /\
  ((forall r, In r (activities d) -> a_id r <> activity_id) ->
   out_result o = Ok (mk_response 404 (b_error "Activity not found"))) /\
  (forall r,
      NoDup (map a_id (activities d)) -> In r (activities d) ->
      a_id r = activity_id ->
      exists names,
        out_result o =
          Ok (mk_response 200 (b_groups names (a_groups_count r))) /\
        (forall g gs, a_groups r = Some (JArr (g :: gs)) ->
                      names = g :: gs) /\
        (forall s g gs, a_groups r = Some (JStr s) -> s <> "" ->
                        json_loads s = Some (JArr (g :: gs)) ->
                        names = g :: gs) /\
        (no_custom_groups json_loads r ->
         forall k, a_groups_count r = Some k -> 0 < k ->
                   List.length names = Z.to_nat k /\
                   forall i, 1 <= i <= k ->
                             nth_error names (Z.to_nat (i - 1)) =
                             Some (JStr ("第" ++ str_int i ++ "組")%string)) /\
        (no_custom_groups json_loads r ->
         a_groups_count r = None \/
         (exists k, a_groups_count r = Some k /\ k <= 0) ->
         names = [])).
Proof.
  intros o. subst o.
  unfold run, get_activity_groups. step_run.
  split; [now destruct (find _ _)|].
  split.
  - intros Hnone. now rewrite (find_no_key a_id _ activity_id Hnone).
  - intros r Hnd Hin Hid.
    rewrite (find_by_key a_id _ r activity_id Hnd Hin Hid). step_run.
    eexists. split; [reflexivity|].
    split; [|split; [|split]].
    + intros g gs E. now rewrite E.
    + intros s g gs E Hs Hl. rewrite E. cbn.
      apply String.eqb_neq in Hs. now rewrite Hs, Hl.
    + intros Hno k Hk Hpos.
      rewrite (group_list_generated _ _ k (Hno) Hk) by lia.
      split.
      * rewrite length_map, py_range_length. f_equal. lia.
      * intros i Hi.
        rewrite nth_error_map, py_range_nth by lia.
        replace (1 + Z.of_nat (Z.to_nat (i - 1))) with i by lia.
        reflexivity.
    + intros Hno Hcount.
      destruct Hcount as [Hn|(k & Hk & Hle)].
      * unfold group_list.
        destruct (decoded_groups json_loads (a_groups r))
          as [[| | | |[|g gs]|]|] eqn:E;
          try (exfalso; now apply (Hno g gs)); now rewrite Hn.
      * destruct (Z.eqb_spec k 0) as [->|Hk0].
        -- unfold group_list.
           destruct (decoded_groups json_loads (a_groups r))
             as [[| | | |[|g gs]|]|] eqn:E;
             try (exfalso; now apply (Hno g gs)); now rewrite Hk.
        -- rewrite (group_list_generated _ _ k Hno Hk Hk0).
           unfold py_range.
           now replace (Z.to_nat (k + 1 - 1)) with 0%nat by lia.
Qed.

End GroupsFacts.

Lemma get_activity_groups_spec_witness :
  let d := replay groups_history empty_db in
  let no_json : string -> option json := fun _ => None in
  out_result (run (get_activity_groups no_json 1) d) =
    Ok (mk_response 200 (b_groups [JStr "A"; JStr "B"] (Some 2))) /\
  (exists names,
      out_result (run (get_activity_groups no_json 2) d) =
        Ok (mk_response 200 (b_groups names (Some 3))) /\
      List.length names = 3%nat /\
      nth_error names 2 = Some (JStr "第3組")) /\
  out_result (run (get_activity_groups no_json 7) d) =
    Ok (mk_response 404 (b_error "Activity not found")).
Proof.
  intros d no_json.
  assert (Hnd : NoDup (map a_id (activities d)))
    by (vm_compute; repeat constructor; cbn; intuition discriminate).
  split; [|split].
  - destruct (get_activity_groups_spec no_json 1 d) as (_ & _ & H).
    destruct (H (mk_activity 1 "named" (Some "preparing") None (Some 2)
                             (Some (JArr [JStr "A"; JStr "B"]))
                             (Some "none") None None (Some 10)) Hnd)
      as (names & Hres & Hcustom & _).
    + vm_compute. now left.
    + reflexivity.
    + now rewrite (Hcustom (JStr "A") [JStr "B"] eq_refl) in Hres.
  - destruct (get_activity_groups_spec no_json 2 d) as (_ & _ & H).
    destruct (H (mk_activity 2 "counted" (Some "preparing") None (Some 3)
                             None (Some "none") None None (Some 20)) Hnd)
      as (names & Hres & _ & _ & Hgen & _).
    + vm_compute. right. now left.
    + reflexivity.
    + exists names. split; [exact Hres|].
      destruct (Hgen (fun g gs (E : None = Some (JArr (g :: gs))) =>
                        match E with end) 3 eq_refl eq_refl)
        as [Hlen Hnth].
      split; [exact Hlen|].
      apply (Hnth 3). split; discriminate.
  - destruct (get_activity_groups_spec no_json 7 d) as (_ & Hnone & _).
    apply Hnone. intros r Hr. vm_compute in Hr.
    destruct Hr as [<-|[<-|[]]]; discriminate.
Defined.

(** ** Reading an activity *)

Lemma insert_sorted_perm x l : Permutation (insert_sorted x l) (x :: l).
Proof.
  induction l as [|y l IH]; cbn; [reflexivity|].
  destruct (before x y); [reflexivity|].
  rewrite IH. apply perm_swap.
Qed.

Lemma order_by_perm l : Permutation (order_by l) l.
Proof.
  induction l as [|x l IH]; cbn; [reflexivity|].
  rewrite insert_sorted_perm. now constructor.
Qed.

Lemma in_join_answers_users (activity_id : Z) (d : db) (x : answer_with_user) :
  In x (join_answers_users activity_id d) <->
  exists a u,
    In a (answers d) /\ In u (users d) /\
    ans_activity_id a = Some activity_id /\
    ans_user_id a = Some (u_id u) /\
    x = mk_answer_with_user a (u_name u) (u_group_name u).
Proof.
  unfold join_answers_users. rewrite in_flat_map. split.
  - intros (a & Ha & Hx).
    apply filter_In in Ha as [Ha Hact].
    apply in_map_iff in Hx as (u & <- & Hu).
    apply filter_In in Hu as [Hu Huid].
    exists a, u. repeat split; auto.
    + unfold id_is in Hact. destruct (ans_activity_id a); [|discriminate].
      apply Z.eqb_eq in Hact. now subst.
    + unfold id_is in Huid. destruct (ans_user_id a); [|discriminate].
      apply Z.eqb_eq in Huid. now subst.
  - intros (a & u & Ha & Hu & Hact & Huid & ->).
    exists a. split.
    + apply filter_In. split; [exact Ha|].
      rewrite Hact. cbn. apply Z.eqb_refl.
    + apply in_map_iff. exists u. split; [reflexivity|].
      apply filter_In. split; [exact Hu|].
      rewrite Huid. cbn. apply Z.eqb_refl.
Qed.

(** The anonymous submission is accepted: it is answered 201 and its row
    is stored under the activity. *)
Lemma anonymous_answer_is_stored :
  let d := replay (firstn 2 anonymous_history) empty_db in
  let o := serve 30 (POST_answers (mk_answer_body (Val 1) (Val 1) Null
                                                  (Val "because"))) d in
  out_result o = Ok (mk_response 201 (b_id 1)) /\
  answers (out_db o) =
    [mk_answer 1 (Some 1) (Some 1) None (Some "because") (Some 30)].
Proof. vm_compute. now split. Qed.

(** C10, as stated, fails: an answer submitted with a null [user_id] is
    stored under its activity, and [get_activity] leaves it out of the
    [answers] list. *)
Lemma answer_without_user_not_listed :
  ~ lists_every_answer 1 (replay anonymous_history empty_db).
Proof.
  intros H.
  assert (E : exists r us,
             out_result (run (get_activity 1)
                             (replay anonymous_history empty_db)) =
             Ok (mk_response 200 (b_activity r us [])))
    by (vm_compute; eauto).
  destruct E as (r & us & E).
  destruct (H r us []
              (mk_answer 1 (Some 1) (Some 1) None (Some "because") (Some 30))
              E)
    as (x & [] & _).
  - vm_compute. now left.
  - reflexivity.
Qed.

(** C10 (amended). [get_activity] answers 404 [Activity not found] when no
    activity row has the id.  Otherwise it answers with the activity's
    row, a [users] list holding exactly the users of that activity, and an
    [answers] list holding exactly those answers of the activity whose
    [user_id] names a user row, each joined with the name and group of
    that user; an answer whose [user_id] is null is not listed. *)
Theorem get_activity_spec (activity_id : Z) (d : db) :
  let o := run (get_activity activity_id) d in
  out_db o = d /\
  ((forall r, In r (activities d) -> a_id r <> activity_id) ->
   out_result o = Ok (mk_response 404 (b_error "Activity not found"))) /\
  (forall r,
      NoDup (map a_id (activities d)) -> In r (activities d) ->
      a_id r = activity_id ->
      exists us ans,
        out_result o = Ok (mk_response 200 (b_activity r us ans)) /\
        (forall u, In u us <->
                   In u (users d) /\ u_activity_id u = Some activity_id) /\
        (forall x, In x ans <->
                   exists a u,
                     In a (answers d) /\ In u (users d) /\
                     ans_activity_id a = Some activity_id /\
                     ans_user_id a = Some (u_id u) /\
                     x = mk_answer_with_user a (u_name u) (u_group_name u)) /\
        (forall x, In x ans -> ans_user_id (awu_answer x) <> None) /\
        us = filter (fun u => id_is (u_activity_id u) activity_id)
                    (users d) /\
        Permutation ans (join_answers_users activity_id d)).
Proof.
  intros o. subst o.
  unfold run, get_activity. step_run.
  split; [now destruct (find _ _)|].
  split.
  - intros Hnone. now rewrite (find_no_key a_id _ activity_id Hnone).
  - intros r Hnd Hin Hid.
    rewrite (find_by_key a_id _ r activity_id Hnd Hin Hid). step_run.
    do 2 eexists. split; [reflexivity|].
    assert (Hans : forall x,
               In x (order_by (join_answers_users activity_id d)) <->
               exists a u,
                 In a (answers d) /\ In u (users d) /\
                 ans_activity_id a = Some activity_id /\
                 ans_user_id a = Some (u_id u) /\
                 x = mk_answer_with_user a (u_name u) (u_group_name u)).
    { intros x. rewrite <- in_join_answers_users.
      split; apply Permutation_in;
        [apply order_by_perm | symmetry; apply order_by_perm]. }
    split; [|split; [|split; [|split]]].
    + intros u. rewrite filter_In. unfold id_is.
      split; intros [Hu Hact]; (split; [exact Hu|]).
      * destruct (u_activity_id u); [|discriminate].
        apply Z.eqb_eq in Hact. now subst.
      * rewrite Hact. apply Z.eqb_refl.
    + exact Hans.
    + intros x Hx. apply Hans in Hx as (a & u & _ & _ & _ & Hu & ->).
      cbn [awu_answer]. now rewrite Hu.
    + reflexivity.
    + apply order_by_perm.
Qed.

Lemma get_activity_spec_witness :
  let d := replay one_answer_history empty_db in
  let ann := mk_user 1 (Some 1) "ann" None (Some 30) in
  let answer := mk_answer 1 (Some 1) (Some 1) (Some 1) (Some "because")
                          (Some 40) in
  (exists row us ans,
      out_result (run (get_activity 1) d) =
        Ok (mk_response 200 (b_activity row us ans)) /\
      In ann us /\
      In (mk_answer_with_user answer "ann" None) ans) /\
  out_result (run (get_activity 2) d) =
    Ok (mk_response 404 (b_error "Activity not found")).
Proof.
  intros d ann answer.
  destruct (get_activity_spec 1 d) as (_ & _ & Hsome).
  destruct (get_activity_spec 2 d) as (_ & Hnone & _).
  split.
  - destruct (Hsome (mk_activity 1 "demo" (Some "preparing") None None None
                                 (Some "none") None None (Some 10)))
      as (us & ans & Hres & Hus & Hans & _).
    + vm_compute. repeat constructor. intros [].
    + vm_compute. now left.
    + reflexivity.
    + do 3 eexists. split; [exact Hres|]. split.
      * apply Hus. split; [vm_compute; left; reflexivity|reflexivity].
      * apply Hans. exists answer, ann.
        split; [vm_compute; left; reflexivity|].
        split; [vm_compute; left; reflexivity|].
        repeat split.
  - apply Hnone. intros r Hr. vm_compute in Hr.
    destruct Hr as [<-|[]]. discriminate.
Defined.

End AppFacts.

(* ================================================================== *)
(** * Properties of the load-test harness *)
(* ================================================================== *)

Module LoadTestFacts.
Import LoadTest.

(** ** binary64 arithmetic *)

(** Bit length *)
Lemma digits2_pos_bounds (p : positive) :
  2 ^ (Z.pos (digits2_pos p) - 1) <= Z.pos p < 2 ^ Z.pos (digits2_pos p).
Proof.
  induction p as [p IH|p IH|]; cbn [digits2_pos].
  - rewrite Pos2Z.inj_succ.
    replace (Z.succ (Z.pos (digits2_pos p)) - 1) with (Z.pos (digits2_pos p) - 1 + 1) by lia.
    rewrite Z.pow_succ_r by lia.
    rewrite Z.pow_add_r by lia. 
    change (2 ^ 1) with 2. lia.
  - rewrite Pos2Z.inj_succ.
    replace (Z.succ (Z.pos (digits2_pos p)) - 1) with (Z.pos (digits2_pos p) - 1 + 1) by lia.
    rewrite Z.pow_succ_r by lia.
    rewrite Z.pow_add_r by lia.
    change (2 ^ 1) with 2. lia.
  - cbn. lia.
Qed.

Lemma Zdigits2_unique (m D : Z) :
  0 < D -> 2 ^ (D - 1) <= m < 2 ^ D -> Zdigits2 m = D.
Proof.
  intros HD [Hlo Hhi].
  assert (0 < m) by (pose proof (Z.pow_pos_nonneg 2 (D - 1)); lia).
  destruct m as [|p|p]; try lia. cbn [Zdigits2].
  pose proof (digits2_pos_bounds p) as [Hl Hh].
  set (d := Z.pos (digits2_pos p)) in *.
  assert (d - 1 < D) by (apply (Z.pow_lt_mono_r_iff 2); lia).
  assert (D - 1 < d) by (apply (Z.pow_lt_mono_r_iff 2); lia).
  lia.
Qed.

(** Right shifts *)
Lemma shr_1_nonneg m r s :
  0 <= m ->
  shr_1 (Build_shr_record m r s) = Build_shr_record (m / 2) (Z.odd m) (r || s).
Proof.
  intros Hm. rewrite <- Z.div2_div.
  destruct m as [|[p|p|]|p]; try lia; reflexivity.
Qed.

Lemma iter_pos_nat {A} (f : A -> A) (p : positive) (x : A) :
  iter_pos f p x = Nat.iter (Pos.to_nat p) f x.
Proof.
  revert x. induction p as [p IH|p IH|]; intros x; cbn [iter_pos].
  - rewrite !IH, Pos2Nat.inj_xI.
    replace (S (2 * Pos.to_nat p)) with (Pos.to_nat p + S (Pos.to_nat p))%nat by lia.
    rewrite Nat.iter_add. f_equal. now rewrite Nat.iter_succ_r.
  - rewrite !IH, Pos2Nat.inj_xO.
    replace (2 * Pos.to_nat p)%nat with (Pos.to_nat p + Pos.to_nat p)%nat by lia.
    now rewrite Nat.iter_add.
  - reflexivity.
Qed.

Lemma shr_nat (j : nat) (m : Z) :
  0 <= m ->
  Nat.iter (S j) shr_1 (Build_shr_record m false false) =
  Build_shr_record (m / 2 ^ Z.of_nat (S j))
                   (Z.odd (m / 2 ^ Z.of_nat j))
                   (negb (m mod 2 ^ Z.of_nat j =? 0)).
Proof.
  intros Hm. induction j as [|j IH].
  - cbn [Nat.iter nat_rect]. rewrite shr_1_nonneg by lia.
    change (2 ^ Z.of_nat 1) with 2. change (2 ^ Z.of_nat 0) with 1.
    now rewrite Z.div_1_r, Z.mod_1_r.
  - change (Nat.iter (S (S j)) shr_1 ?x) with (shr_1 (Nat.iter (S j) shr_1 x)).
    rewrite IH.
    assert (Hp : 0 < 2 ^ Z.of_nat j) by (apply Z.pow_pos_nonneg; lia).
    rewrite shr_1_nonneg by (apply Z.div_pos; [lia | apply Z.pow_pos_nonneg; lia]).
    f_equal.
    + rewrite Z.div_div by (try apply Z.pow_pos_nonneg; lia).
      f_equal. rewrite (Nat2Z.inj_succ (S j)), Z.pow_succ_r by lia. lia.
    + rewrite (Nat2Z.inj_succ j), Z.pow_succ_r by lia.
      (* m mod (2*P) <> 0 <-> odd (m / P) || m mod P <> 0 *)
      set (P := 2 ^ Z.of_nat j) in *.
      pose proof (Z.div_mod m P ltac:(lia)) as Hdm.
      pose proof (Z.mod_pos_bound m P Hp) as Hb.
      pose proof (Z.div_mod (m / P) 2 ltac:(lia)) as Hdm2.
      pose proof (Z.mod_pos_bound (m / P) 2 ltac:(lia)) as Hb2.
      assert (Hmod : m mod (2 * P) = P * ((m / P) mod 2) + m mod P).
      { symmetry. apply Z.mod_unique_pos with ((m / P) / 2); nia. }
      rewrite Hmod, Zmod_odd.
      destruct (Z.odd (m / P)); destruct (Z.eqb_spec (m mod P) 0) as [E0|E0];
        cbn [negb orb]; symmetry.
      * apply negb_true_iff, Z.eqb_neq. lia.
      * apply negb_true_iff, Z.eqb_neq. lia.
      * apply negb_false_iff, Z.eqb_eq. lia.
      * apply negb_true_iff, Z.eqb_neq. lia.
Qed.

Lemma shr_pos (k : positive) (m : Z) :
  0 <= m ->
  iter_pos shr_1 k (Build_shr_record m false false) =
  Build_shr_record (m / 2 ^ Z.pos k)
                   (Z.odd (m / 2 ^ (Z.pos k - 1)))
                   (negb (m mod 2 ^ (Z.pos k - 1) =? 0)).
Proof.
  intros Hm. rewrite iter_pos_nat.
  destruct (Pos2Nat.is_succ k) as [j Hj]. rewrite Hj.
  rewrite shr_nat by exact Hm.
  replace (Z.of_nat (S j)) with (Z.pos k) by lia.
  replace (Z.of_nat j) with (Z.pos k - 1) by lia.
  reflexivity.
Qed.

Lemma round_nearest_even_bounds q l :
  q <= round_nearest_even q l <= q + 1.
Proof.
  destruct l as [|[| |]]; cbn [round_nearest_even]; try lia.
  destruct (Z.even q); lia.
Qed.

(** Rounding a [53 + k]-bit mantissa to 53 bits. *)
Lemma round_aux_shift (M E : Z) (k : positive) :
  2 ^ (52 + Z.pos k) <= M < 2 ^ (53 + Z.pos k) ->
  -1074 <= E + Z.pos k -> E + Z.pos k + 1 <= 971 ->
  exists m' e' m1,
    binary_round_aux prec emax false M E loc_Exact = S754_finite false m' e' /\
    2 ^ 52 <= Z.pos m' < 2 ^ 53 /\
    M / 2 ^ Z.pos k <= m1 <= M / 2 ^ Z.pos k + 1 /\
    (2 ^ Z.pos k < 2 * (M mod 2 ^ Z.pos k) -> m1 = M / 2 ^ Z.pos k + 1) /\
    (e' = E + Z.pos k /\ Z.pos m' = m1 \/
     e' = E + Z.pos k + 1 /\ 2 * Z.pos m' = m1).
Proof.
  intros HM Hlo Hhi.
  assert (H2k : 0 < 2 ^ Z.pos k) by (apply Z.pow_pos_nonneg; lia).
  pose proof HM as HM'.
  rewrite !Z.pow_add_r in HM by lia.
  assert (HMpos : 0 < M) by lia.
  set (q := M / 2 ^ Z.pos k).
  assert (Hq : 2 ^ 52 <= q < 2 ^ 53).
  { unfold q. split.
    - apply Z.div_le_lower_bound; lia.
    - apply Z.div_lt_upper_bound; lia. }
  unfold binary_round_aux, shr_fexp.
  rewrite (Zdigits2_unique M (53 + Z.pos k))
    by (try lia; now replace (53 + Z.pos k - 1) with (52 + Z.pos k) by lia).
  unfold fexp, SpecFloat.emin, prec, emax.
  replace (Z.max (53 + Z.pos k + E - 53) (3 - 1024 - 53) - E) with (Z.pos k)
    by lia.
  cbn [shr shr_record_of_loc]. rewrite shr_pos by lia. cbn [shr_m].
  fold q.
  set (l := loc_of_shr_record _).
  set (m1 := round_nearest_even q l).
  pose proof (round_nearest_even_bounds q l) as Hm1. fold m1 in Hm1.
  assert (Hup : 2 ^ Z.pos k < 2 * (M mod 2 ^ Z.pos k) -> m1 = q + 1).
  { intros Hrem. unfold m1, l.
    set (half := 2 ^ (Z.pos k - 1)).
    assert (Hh : 0 < half) by (apply Z.pow_pos_nonneg; lia).
    assert (H2h : 2 ^ Z.pos k = 2 * half).
    { unfold half. rewrite <- Z.pow_succ_r by lia. f_equal. lia. }
    pose proof (Z.div_mod M (2 ^ Z.pos k) ltac:(lia)) as Hdm.
    pose proof (Z.mod_pos_bound M (2 ^ Z.pos k) ltac:(lia)) as Hb.
    fold q in Hdm.
    set (rem := M mod 2 ^ Z.pos k) in *.
    assert (Hdiv : M / half = 2 * q + 1).
    { symmetry. apply Z.div_unique_pos with (rem - half); nia. }
    assert (Hmod : M mod half = rem - half).
    { symmetry. apply Z.mod_unique_pos with (2 * q + 1); nia. }
    rewrite Hdiv, Hmod.
    replace (Z.odd (2 * q + 1)) with true
      by (symmetry; rewrite Z.add_comm, Z.odd_add_mul_2; reflexivity).
    replace (rem - half =? 0) with false by (symmetry; apply Z.eqb_neq; lia).
    reflexivity. }
  destruct (Z.ltb_spec m1 (2 ^ 53)) as [Hlt|Hge].
  - rewrite (Zdigits2_unique m1 53) by (change (2 ^ (53 - 1)) with (2 ^ 52); lia).
    replace (Z.max (53 + (E + Z.pos k) - 53) (3 - 1024 - 53) - (E + Z.pos k))
      with 0 by lia.
    cbn [shr shr_record_of_loc shr_m].
    destruct m1 as [|p1|p1] eqn:Em1; try lia.
    replace (E + Z.pos k <=? 1024 - 53) with true by (symmetry; apply Z.leb_le; lia).
    exists p1, (E + Z.pos k), (Z.pos p1).
    split; [reflexivity|]. split; [lia|]. split; [exact Hm1|].
    split; [exact Hup|]. left. now split.
  - assert (m1 = 2 ^ 53) as Em1 by lia.
    rewrite Em1.
    rewrite (Zdigits2_unique (2 ^ 53) 54) by (cbn; lia).
    replace (Z.max (54 + (E + Z.pos k) - 53) (3 - 1024 - 53) - (E + Z.pos k))
      with 1 by lia.
    cbn [shr shr_record_of_loc iter_pos].
    rewrite shr_1_nonneg by (cbn; lia). cbn [shr_m].
    change (2 ^ 53 / 2) with (Z.pos (2 ^ 52)).
    cbv iota beta.
    replace (E + Z.pos k + 1 <=? 1024 - 53) with true by (symmetry; apply Z.leb_le; lia).
    exists (2 ^ 52)%positive, (E + Z.pos k + 1), (2 ^ 53).
    split; [reflexivity|]. split; [cbn; lia|]. split; [lia|].
    split; [intros Hr; rewrite <- Em1; now apply Hup|].
    right. split; reflexivity.
Qed.

(** Rounding a product to 53 bits and truncating it to an integer. *)
Lemma round_then_truncate (M E : Z) (k : positive) :
  2 ^ (52 + Z.pos k) <= M < 2 ^ (53 + Z.pos k) ->
  -1074 <= E + Z.pos k -> E + Z.pos k + 1 < 0 ->
  exists m1,
    int_of_float (binary_round_aux prec emax false M E loc_Exact) =
      Ok (m1 / 2 ^ (- (E + Z.pos k))) /\
    M / 2 ^ Z.pos k <= m1 <= M / 2 ^ Z.pos k + 1 /\
    (2 ^ Z.pos k < 2 * (M mod 2 ^ Z.pos k) -> m1 = M / 2 ^ Z.pos k + 1).
Proof.
  intros HM Hlo Hhi.
  destruct (round_aux_shift M E k HM Hlo)
    as (m' & e' & m1 & Hr & _ & Hm1 & Hup & Hcase); [lia|].
  exists m1. split; [|split; assumption].
  rewrite Hr. cbn [int_of_float cond_Zopp].
  destruct Hcase as [[-> <-]|[-> <-]].
  - now replace (0 <=? E + Z.pos k) with false
      by (symmetry; apply Z.leb_gt; lia).
  - replace (0 <=? E + Z.pos k + 1) with false
      by (symmetry; apply Z.leb_gt; lia).
    f_equal.
    replace (- (E + Z.pos k)) with (1 + - (E + Z.pos k + 1)) by lia.
    rewrite Z.pow_add_r by lia. change (2 ^ 1) with 2.
    assert (0 < 2 ^ (- (E + Z.pos k + 1))) by (apply Z.pow_pos_nonneg; lia).
    rewrite Z.div_mul_cancel_l by lia. reflexivity.
Qed.

(** [float(n)] for an integer of [53 - j] bits: exact, mantissa shifted to
    53 bits. *)
Lemma float_of_int_normal (n j : positive) :
  Z.pos j <= 52 ->
  2 ^ (52 - Z.pos j) <= Z.pos n < 2 ^ (53 - Z.pos j) ->
  exists N2, float_of_int (Z.pos n) = S754_finite false N2 (- Z.pos j) /\
             Z.pos N2 = Z.pos n * 2 ^ Z.pos j.
Proof.
  intros Hj Hn.
  exists (Pos.iter xO n j).
  assert (Hval : Z.pos (Pos.iter xO n j) = Z.pos n * 2 ^ Z.pos j).
  { change (Pos.iter xO n j) with (shift_pos j n).
    rewrite shift_pos_correct. change (Z.pow_pos 2 j) with (2 ^ Z.pos j). lia. }
  split; [|exact Hval].
  assert (Hd : Z.pos (digits2_pos n) = 53 - Z.pos j).
  { change (Z.pos (digits2_pos n)) with (Zdigits2 (Z.pos n)).
    apply Zdigits2_unique; [lia|].
    now replace (53 - Z.pos j - 1) with (52 - Z.pos j) by lia. }
  assert (H2j : 0 < 2 ^ Z.pos j) by (apply Z.pow_pos_nonneg; lia).
  assert (Hb : 2 ^ 52 <= Z.pos (Pos.iter xO n j) < 2 ^ 53).
  { rewrite Hval.
    replace (2 ^ 52) with (2 ^ (52 - Z.pos j) * 2 ^ Z.pos j)
      by (rewrite <- Z.pow_add_r by lia; f_equal; lia).
    replace (2 ^ 53) with (2 ^ (53 - Z.pos j) * 2 ^ Z.pos j)
      by (rewrite <- Z.pow_add_r by lia; f_equal; lia).
    nia. }
  unfold float_of_int, binary_normalize, binary_round, shl_align.
  rewrite Hd. unfold fexp, SpecFloat.emin, prec, emax.
  replace (Z.max (53 - Z.pos j + 0 - 53) (3 - 1024 - 53) - 0)
    with (Z.neg j) by lia.
  replace (Z.max (53 - Z.pos j + 0 - 53) (3 - 1024 - 53))
    with (- Z.pos j) by lia.
  unfold binary_round_aux, shr_fexp.
  rewrite (Zdigits2_unique (Z.pos (Pos.iter xO n j)) 53)
    by (try lia; change (2 ^ (53 - 1)) with (2 ^ 52); lia).
  unfold fexp, SpecFloat.emin.
  replace (Z.max (53 + - Z.pos j - 53) (3 - 1024 - 53) - - Z.pos j)
    with 0 by lia.
  cbn [shr shr_record_of_loc shr_m loc_of_shr_record round_nearest_even].
  rewrite (Zdigits2_unique (Z.pos (Pos.iter xO n j)) 53)
    by (try lia; change (2 ^ (53 - 1)) with (2 ^ 52); lia).
  replace (Z.max (53 + - Z.pos j - 53) (3 - 1024 - 53) - - Z.pos j)
    with 0 by lia.
  cbn [shr shr_m].
  now replace (- Z.pos j <=? 1024 - 53) with true
    by (symmetry; apply Z.leb_le; lia).
Qed.

(** The integer arithmetic behind the two cases of [index_exact]: [X] is
    the exact product [n * c], [A] the power of two that normalises [n],
    [K] the power of two dropped by the rounding and [T] the one dropped by
    the truncation, so that [K * T = P * A] with [P = 2 ^ 53]. *)
Lemma trunc_inexact (A K T P X F q m1 : Z) :
  0 < A -> 0 < K -> K <= P -> K * T = P * A ->
  K * q <= A * X < K * q + K -> q <= m1 <= q + 1 ->
  F * P <= X -> P < ((F + 1) * P - X) * A ->
  F * T <= m1 < (F + 1) * T.
Proof.
  intros HA HK HKP HKT Hq Hm1 HF Hgap.
  assert (H1 : K * (F * T) <= A * X).
  { replace (K * (F * T)) with (F * (K * T)) by ring. rewrite HKT.
    replace (F * (P * A)) with (A * (F * P)) by ring.
    apply Z.mul_le_mono_nonneg_l; lia. }
  assert (H2 : K * (q + 1) < K * ((F + 1) * T)).
  { replace (K * ((F + 1) * T)) with ((F + 1) * (K * T)) by ring.
    rewrite HKT.
    replace ((F + 1) * (P * A)) with (A * X + ((F + 1) * P - X) * A) by ring.
    lia. }
  split.
  - assert (F * T < q + 1); [|lia].
    apply (Z.mul_lt_mono_pos_l K); lia.
  - assert (q + 1 < (F + 1) * T); [|lia].
    apply (Z.mul_lt_mono_pos_l K); lia.
Qed.

Lemma trunc_short (A K T P X F q r : Z) :
  0 < A -> 0 < K -> K * T = P * A ->
  A * X = K * q + r -> 0 <= r < K ->
  0 < (F * P - X) * A -> 2 * ((F * P - X) * A) < K ->
  q = F * T - 1 /\ K < 2 * r.
Proof.
  intros HA HK HKT Hq Hr Hpos Hsmall.
  assert (HM : A * X = K * (F * T) - (F * P - X) * A).
  { replace (K * (F * T)) with (F * (K * T)) by ring. rewrite HKT. ring. }
  assert (Hq1 : q = F * T - 1).
  { assert (K * (F * T - 1) <= K * q + r < K * (F * T - 1) + K) by lia.
    assert (F * T - 1 < q + 1) by (apply (Z.mul_lt_mono_pos_l K); lia).
    assert (q < F * T - 1 + 1) by (apply (Z.mul_lt_mono_pos_l K); lia).
    lia. }
  split; [exact Hq1|]. subst q. lia.
Qed.

Lemma index_exact (mc : positive) (a rho n : Z) :
  100 * Z.pos mc = a * 2 ^ 53 - rho -> 0 < rho <= 40 -> 95 <= a <= 99 ->
  1 <= n < 2 ^ 40 ->
  percentile_index (S754_finite false mc (-53)) n = Ok (a * n / 100).
Proof.
  intros Hmc Hrho Ha Hn.
  destruct n as [|p|p]; try lia.
  (* the bit length of n and the shift that normalises it *)
  pose proof (digits2_pos_bounds p) as Hd.
  set (d := Z.pos (digits2_pos p)) in *.
  assert (Hd40 : d <= 40).
  { destruct (Z.le_gt_cases d 40) as [H|H]; [exact H|exfalso].
    assert (2 ^ 40 <= 2 ^ (d - 1)) by (apply Z.pow_le_mono_r; lia). lia. }
  assert (Hd1 : 1 <= d) by (unfold d; lia).
  destruct (53 - d) as [|j|j] eqn:Ej; try lia.
  destruct (float_of_int_normal p j) as (N2 & Hfloat & HN2).
  { lia. }
  { replace (52 - Z.pos j) with (d - 1) by lia.
    now replace (53 - Z.pos j) with d by lia. }
  unfold percentile_index. rewrite Hfloat.
  unfold fmul. cbn [SFmul xorb]. rewrite Pos2Z.inj_mul, HN2.
  set (A := 2 ^ Z.pos j) in *.
  assert (HA : 2 ^ 13 <= A)
    by (unfold A; apply Z.pow_le_mono_r; lia).
  assert (HAd : A * 2 ^ d = 2 ^ 53)
    by (unfold A; rewrite <- Z.pow_add_r by lia; f_equal; lia).
  assert (HAd1 : A * 2 ^ (d - 1) = 2 ^ 52)
    by (unfold A; rewrite <- Z.pow_add_r by lia; f_equal; lia).
  set (n := Z.pos p) in *.
  assert (HA0 : 0 < A) by lia.
  assert (HnA : 2 ^ 52 <= n * A < 2 ^ 53).
  { rewrite <- HAd, <- HAd1. split.
    - rewrite (Z.mul_comm n A). apply Z.mul_le_mono_nonneg_l; lia.
    - rewrite (Z.mul_comm n A). apply Z.mul_lt_mono_pos_l; lia. }
  set (c := Z.pos mc) in *.
  set (P := 2 ^ 53) in *.
  assert (HP : P = 9007199254740992) by reflexivity.
  change (2 ^ 52) with 4503599627370496 in *.
  change (2 ^ 40) with 1099511627776 in *.
  change (2 ^ 13) with 8192 in *.
  assert (Hc : 94 * P <= 100 * c < 100 * P) by lia.
  set (X := n * c).
  replace (n * A * c) with (A * X) by (unfold X; ring).
  (* the exact quotient *)
  pose proof (Z.div_mod (a * n) 100 ltac:(lia)) as Hdm.
  pose proof (Z.mod_pos_bound (a * n) 100 ltac:(lia)) as Hs.
  set (F := a * n / 100) in *. set (s := (a * n) mod 100) in *.
  assert (HX : 100 * X = (100 * F + s) * P - rho * n).
  { unfold X. rewrite <- Hdm.
    replace (100 * (n * c)) with (n * (100 * c)) by ring.
    rewrite Hmc. ring. }
  assert (Hrn : 0 < rho * n < 40 * 1099511627776).
  { split; [apply Z.mul_pos_pos; lia|].
    apply Z.le_lt_trans with (40 * n); [|lia].
    apply Z.mul_le_mono_nonneg_r; lia. }
  assert (HF0 : 0 <= F) by (apply Z.div_pos; [apply Z.mul_nonneg_nonneg|]; lia).
  (* the size of the product *)
  assert (HM : 2 ^ 104 <= A * X < 2 ^ 106).
  { replace (A * X) with (n * A * c) by (unfold X; ring).
    assert (Hc2 : 4503599627370496 <= c < P) by lia.
    change (2 ^ 104) with (4503599627370496 * 4503599627370496).
    change (2 ^ 106) with (P * P).
    split.
    - apply Z.mul_le_mono_nonneg; lia.
    - apply Z.mul_lt_mono_nonneg; lia. }
  set (M := A * X) in *.
  (* facts about the exact product shared by both sizes *)
  assert (Hgap : s <> 0 -> F * P <= X /\ P < ((F + 1) * P - X) * A).
  { intros Hs0. split; [lia|].
    assert (70368744177664 <= (F + 1) * P - X) by lia.
    apply Z.lt_le_trans with (70368744177664 * 8192); [lia|].
    apply Z.mul_le_mono_nonneg; lia. }
  assert (Heps : s = 0 -> 0 < (F * P - X) * A /\
                          100 * ((F * P - X) * A) = rho * (n * A) /\
                          100 * c * ((F * P - X) * A) = rho * M).
  { intros Hs0.
    assert (He : 100 * (F * P - X) = rho * n) by lia.
    split; [apply Z.mul_pos_pos; lia|]. split.
    - replace (100 * ((F * P - X) * A)) with (100 * (F * P - X) * A) by ring.
      rewrite He. ring.
    - replace (100 * c * ((F * P - X) * A))
        with (100 * (F * P - X) * (A * c)) by ring.
      rewrite He. unfold M, X. ring. }
  assert (Hrho40 : rho * (n * A) <= 40 * (n * A))
    by (apply Z.mul_le_mono_nonneg_r; lia).
  assert (HrhoM : rho * M <= 40 * M)
    by (apply Z.mul_le_mono_nonneg_r; lia).
  destruct (Z.lt_ge_cases M (2 ^ 105)) as [H105|H105].
  - (* a 105-bit product: 52 bits are dropped *)
    assert (HM52 : 2 ^ (52 + 52) <= M < 2 ^ (53 + 52))
      by (change (52 + 52) with 104; change (53 + 52) with 105; lia).
    destruct (round_then_truncate M (- Z.pos j + -53) 52 HM52)
      as (m1 & Hidx & Hm1 & Hup); [lia|lia|].
    rewrite Hidx. f_equal.
    replace (- (- Z.pos j + -53 + 52)) with (Z.pos j + 1) by lia.
    rewrite Z.pow_add_r by lia. fold A. change (2 ^ 1) with 2.
    change (2 ^ Z.pos 52) with 4503599627370496 in *.
    pose proof (Z.div_mod M 4503599627370496 ltac:(lia)) as Hq.
    pose proof (Z.mod_pos_bound M 4503599627370496 ltac:(lia)) as Hr.
    set (q := M / 4503599627370496) in *.
    set (r := M mod 4503599627370496) in *.
    assert (HKT : 4503599627370496 * (A * 2) = P * A) by lia.
    destruct (Z.eq_dec s 0) as [Hs0|Hs0].
    + (* 100 divides a * n: the product falls just short of F *)
      destruct (Heps Hs0) as (He0 & He1 & He2).
      assert (Hsmall : 2 * ((F * P - X) * A) < 4503599627370496).
      { set (U := (F * P - X) * A) in *.
        assert (94 * P * U <= 100 * c * U)
          by (apply Z.mul_le_mono_nonneg_r; lia).
        change (2 ^ 105) with 40564819207303340847894502572032 in H105.
        lia. }
      destruct (trunc_short A 4503599627370496 (A * 2) P X F q r
                            HA0 ltac:(lia) HKT Hq Hr He0 Hsmall)
        as [Hq1 Hround].
      rewrite (Hup Hround), Hq1.
      replace (F * (A * 2) - 1 + 1) with (F * (A * 2)) by lia.
      apply Z.div_mul. lia.
    + destruct (Hgap Hs0) as [HF Hg].
      destruct (trunc_inexact A 4503599627370496 (A * 2) P X F q m1
                              HA0 ltac:(lia) ltac:(lia) HKT
                              ltac:(fold M; lia) Hm1 HF Hg)
        as [Hlo Hhi].
      symmetry. apply Z.div_unique_pos with (m1 - F * (A * 2)); lia.
  - (* a 106-bit product: 53 bits are dropped *)
    assert (HM53 : 2 ^ (52 + 53) <= M < 2 ^ (53 + 53))
      by (change (52 + 53) with 105; change (53 + 53) with 106; lia).
    destruct (round_then_truncate M (- Z.pos j + -53) 53 HM53)
      as (m1 & Hidx & Hm1 & Hup); [lia|lia|].
    rewrite Hidx. f_equal.
    replace (- (- Z.pos j + -53 + 53)) with (Z.pos j) by lia.
    fold A.
    change (2 ^ Z.pos 53) with P in Hm1, Hup.
    pose proof (Z.div_mod M P ltac:(lia)) as Hq.
    pose proof (Z.mod_pos_bound M P ltac:(lia)) as Hr.
    set (q := M / P) in *.
    set (r := M mod P) in *.
    assert (HKT : P * A = P * A) by reflexivity.
    destruct (Z.eq_dec s 0) as [Hs0|Hs0].
    + destruct (Heps Hs0) as (He0 & He1 & He2).
      assert (Hsmall : 2 * ((F * P - X) * A) < P) by lia.
      destruct (trunc_short A P A P X F q r
                            HA0 ltac:(lia) HKT Hq Hr He0 Hsmall)
        as [Hq1 Hround].
      rewrite (Hup Hround), Hq1.
      replace (F * A - 1 + 1) with (F * A) by lia.
      apply Z.div_mul. lia.
    + destruct (Hgap Hs0) as [HF Hg].
      destruct (trunc_inexact A P A P X F q m1
                              HA0 ltac:(lia) ltac:(lia) HKT
                              ltac:(fold M; lia) Hm1 HF Hg)
        as [Hlo Hhi].
      symmetry. apply Z.div_unique_pos with (m1 - F * A); lia.
Qed.

(** [float(n)] for every length a list can have: a normal float within a
    relative [2^-52] above [n]. *)
Lemma float_of_int_value (n : Z) :
  1 <= n < 2 ^ 63 ->
  exists m e,
    float_of_int n = S754_finite false m e /\
    2 ^ 52 <= Z.pos m < 2 ^ 53 /\ -52 <= e <= 11 /\
    Z.pos m * 2 ^ (e + 52) <= n * (2 ^ 52 + 1).
Proof.
  intros Hn. destruct n as [|p|p]; try lia.
  pose proof (digits2_pos_bounds p) as Hd.
  set (d := Z.pos (digits2_pos p)) in *.
  assert (Hd63 : d <= 63).
  { destruct (Z.le_gt_cases d 63) as [H|H]; [exact H|exfalso].
    assert (2 ^ 63 <= 2 ^ (d - 1)) by (apply Z.pow_le_mono_r; lia). lia. }
  assert (Hd1 : 1 <= d) by (unfold d; lia).
  destruct (Z.compare_spec d 53) as [E53|Hlt|Hgt].
  - (* 53 bits: the integer is its own mantissa *)
    exists p, 0. rewrite E53 in Hd.
    change (2 ^ (53 - 1)) with (2 ^ 52) in Hd.
    split; [|split; [exact Hd|split; [lia|cbn; lia]]].
    unfold float_of_int, binary_normalize, binary_round, shl_align.
    fold d. rewrite E53.
    change (fexp prec emax (53 + 0) - 0) with 0.
    cbv iota.
    unfold binary_round_aux, shr_fexp.
    change (Zdigits2 (Z.pos p)) with d. rewrite E53.
    change (fexp prec emax (53 + 0) - 0) with 0.
    cbn [shr shr_record_of_loc shr_m loc_of_shr_record round_nearest_even].
    change (Zdigits2 (Z.pos p)) with d. rewrite E53.
    change (fexp prec emax (53 + 0) - 0) with 0.
    reflexivity.
  - (* fewer bits: shifted left, exact *)
    destruct (53 - d) as [|j|j] eqn:Ej; try lia.
    destruct (float_of_int_normal p j) as (N2 & Hfloat & HN2).
    { lia. }
    { replace (52 - Z.pos j) with (d - 1) by lia.
      now replace (53 - Z.pos j) with d by lia. }
    exists N2, (- Z.pos j).
    assert (Hpow : 2 ^ Z.pos j * 2 ^ (52 - Z.pos j) = 2 ^ 52)
      by (rewrite <- Z.pow_add_r by lia; f_equal; lia).
    assert (HA : 2 ^ Z.pos j * 2 ^ d = 2 ^ 53)
      by (rewrite <- Z.pow_add_r by lia; f_equal; lia).
    assert (HA1 : 2 ^ Z.pos j * 2 ^ (d - 1) = 2 ^ 52)
      by (rewrite <- Z.pow_add_r by lia; f_equal; lia).
    assert (0 < 2 ^ Z.pos j) by (apply Z.pow_pos_nonneg; lia).
    split; [exact Hfloat|]. split; [|split; [lia|]].
    + rewrite HN2, <- HA, <- HA1, (Z.mul_comm (Z.pos p)). split.
      * apply Z.mul_le_mono_nonneg_l; lia.
      * apply Z.mul_lt_mono_pos_l; lia.
    + rewrite HN2.
      replace (- Z.pos j + 52) with (52 - Z.pos j) by lia.
      rewrite <- Z.mul_assoc, Hpow. lia.
  - (* more bits: rounded *)
    destruct (d - 53) as [|k|k] eqn:Ek; try lia.
    destruct (round_aux_shift (Z.pos p) 0 k)
      as (m' & e' & m1 & Hr & Hm' & Hm1 & _ & Hcase); try lia.
    { replace (52 + Z.pos k) with (d - 1) by lia.
      replace (53 + Z.pos k) with d by lia. exact Hd. }
    exists m', e'.
    split; [|split; [exact Hm'|split; [lia|]]].
    + unfold float_of_int, binary_normalize, binary_round, shl_align.
      fold d. unfold fexp, SpecFloat.emin, prec, emax.
      replace (Z.max (d + 0 - 53) (3 - 1024 - 53) - 0) with (Z.pos k) by lia.
      exact Hr.
    + assert (H2k : 0 < 2 ^ Z.pos k) by (apply Z.pow_pos_nonneg; lia).
      assert (Hval : Z.pos m' * 2 ^ (e' + 52) = m1 * 2 ^ Z.pos k * 2 ^ 52).
      { destruct Hcase as [[-> <-]|[-> <-]].
        - replace (0 + Z.pos k + 52) with (Z.pos k + 52) by lia.
          rewrite Z.pow_add_r by lia. ring.
        - replace (0 + Z.pos k + 1 + 52) with (1 + (Z.pos k + 52)) by lia.
          rewrite (Z.pow_add_r 2 1), (Z.pow_add_r 2 (Z.pos k)) by lia.
          change (2 ^ 1) with 2. ring. }
      rewrite Hval.
      pose proof (Z.mul_div_le (Z.pos p) (2 ^ Z.pos k) H2k) as Hfloor.
      assert (Hbig : 2 ^ 52 * 2 ^ Z.pos k <= Z.pos p).
      { rewrite <- Z.pow_add_r by lia.
        replace (52 + Z.pos k) with (d - 1) by lia. exact (proj1 Hd). }
      set (K := 2 ^ Z.pos k) in *. set (n := Z.pos p) in *.
      set (q := n / K) in *.
      change (2 ^ 52) with 4503599627370496 in *.
      assert (Hm1K : m1 * K <= n + K).
      { apply Z.le_trans with ((q + 1) * K).
        - apply Z.mul_le_mono_nonneg_r; lia.
        - lia. }
      apply Z.le_trans with ((n + K) * 4503599627370496);
        [apply Z.mul_le_mono_nonneg_r; lia|lia].
Qed.

(** [int(x)] never exceeds [x]. *)
Lemma int_of_float_below (m : positive) (e : Z) :
  -53 <= e ->
  exists i, int_of_float (S754_finite false m e) = Ok i /\
            0 <= i /\ i * 2 ^ 53 <= Z.pos m * 2 ^ (e + 53).
Proof.
  intros He. cbn [int_of_float cond_Zopp].
  destruct (Z.leb_spec 0 e) as [H0|H0].
  - eexists. split; [reflexivity|]. split.
    + apply Z.mul_nonneg_nonneg; [lia|apply Z.pow_nonneg; lia].
    + rewrite Z.pow_add_r by lia. lia.
  - eexists. split; [reflexivity|].
    assert (Hp : 0 < 2 ^ (- e)) by (apply Z.pow_pos_nonneg; lia).
    split; [apply Z.div_pos; lia|].
    replace (2 ^ 53) with (2 ^ (- e) * 2 ^ (e + 53))
      by (rewrite <- Z.pow_add_r by lia; f_equal; lia).
    rewrite Z.mul_assoc.
    apply Z.mul_le_mono_nonneg_r; [apply Z.pow_nonneg; lia|].
    rewrite Z.mul_comm. apply Z.mul_div_le. exact Hp.
Qed.

(** The index [int(n * q)] for a factor [q] of at most 0.99 lies below
    [n], for every length a list can have. *)
Lemma index_below (mc : positive) (n : Z) :
  2 ^ 52 <= Z.pos mc -> 100 * Z.pos mc <= 99 * 2 ^ 53 ->
  1 <= n < 2 ^ 63 ->
  exists i, percentile_index (S754_finite false mc (-53)) n = Ok i /\
            0 <= i < n.
Proof.
  intros Hc1 Hc2 Hn.
  destruct (float_of_int_value n Hn) as (m & e & Hfloat & Hm & He & Hval).
  unfold percentile_index. rewrite Hfloat.
  unfold fmul. cbn [SFmul xorb]. rewrite Pos2Z.inj_mul.
  set (c := Z.pos mc) in *. set (mx := Z.pos m) in *.
  set (M := mx * c).
  change (2 ^ 52) with 4503599627370496 in *.
  change (2 ^ 53) with 9007199254740992 in *.
  assert (HM : 2 ^ 104 <= M < 2 ^ 106).
  { unfold M.
    change (2 ^ 104) with (4503599627370496 * 4503599627370496).
    change (2 ^ 106) with (9007199254740992 * 9007199254740992).
    split.
    - apply Z.mul_le_mono_nonneg; lia.
    - apply Z.mul_lt_mono_nonneg; lia. }
  set (B := 2 ^ (e + 52)) in *.
  assert (HB : 0 < B) by (apply Z.pow_pos_nonneg; lia).
  assert (Hgoal : forall (k : positive),
             52 <= Z.pos k <= 53 ->
             2 ^ (52 + Z.pos k) <= M < 2 ^ (53 + Z.pos k) ->
             exists i,
               int_of_float (binary_round_aux prec emax false M (e + -53)
                                              loc_Exact) = Ok i /\
               0 <= i < n).
  { intros k Hk53 HMk.
    destruct (round_aux_shift M (e + -53) k HMk)
      as (m' & e' & m1 & Hr & Hm' & Hm1 & _ & Hcase); try lia.
    rewrite Hr.
    destruct (int_of_float_below m' e') as (i & Hi & Hi0 & Hile).
    { destruct Hcase as [[-> _]|[-> _]]; lia. }
    exists i. split; [exact Hi|]. split; [exact Hi0|].
    set (K := 2 ^ Z.pos k) in *.
    assert (HK : 0 < K <= 9007199254740992).
    { split; [apply Z.pow_pos_nonneg; lia|].
      change 9007199254740992 with (2 ^ 53).
      apply Z.pow_le_mono_r; lia. }
    (* the value of the product, scaled by [2 ^ 105] *)
    assert (Hy : Z.pos m' * 2 ^ (e' + 53) * 4503599627370496 = m1 * K * B).
    { unfold K, B.
      destruct Hcase as [[-> <-]|[-> <-]].
      - replace (e + -53 + Z.pos k + 53) with (Z.pos k + e) by lia.
        replace (e + 52) with (e + 52 + 0) at 1 by lia.
        change 4503599627370496 with (2 ^ 52).
        rewrite <- Z.mul_assoc, <- (Z.pow_add_r 2 _ 52) by lia.
        rewrite <- Z.mul_assoc, <- (Z.pow_add_r 2 (Z.pos k)) by lia.
        do 2 f_equal. lia.
      - replace (e + -53 + Z.pos k + 1 + 53) with (1 + (Z.pos k + e)) by lia.
        change 4503599627370496 with (2 ^ 52).
        rewrite <- Z.mul_assoc, <- (Z.pow_add_r 2 _ 52) by lia.
        rewrite <- (Z.mul_assoc _ (2 ^ Z.pos k)),
                <- (Z.pow_add_r 2 (Z.pos k)) by lia.
        replace (1 + (Z.pos k + e) + 52) with (1 + (Z.pos k + (e + 52)))
          by lia.
        rewrite (Z.pow_add_r 2 1) by lia. change (2 ^ 1) with 2. ring. }
    pose proof (Z.mul_div_le M K ltac:(lia)) as Hfloor.
    set (q := M / K) in *.
    assert (Hm1K : m1 * K <= M + K).
    { apply Z.le_trans with ((q + 1) * K).
      - apply Z.mul_le_mono_nonneg_r; lia.
      - lia. }
    assert (H1 : m1 * K * B <= (M + K) * B)
      by (apply Z.mul_le_mono_nonneg_r; lia).
    assert (H2 : K * B <= 2 * (mx * B)).
    { apply Z.le_trans with (9007199254740992 * B).
      - apply Z.mul_le_mono_nonneg_r; lia.
      - replace (2 * (mx * B)) with (2 * mx * B) by ring.
        apply Z.mul_le_mono_nonneg_r; lia. }
    assert (H3 : (M + K) * B <= (c + 2) * (mx * B)).
    { replace ((M + K) * B) with (c * (mx * B) + K * B) by (unfold M; ring).
      lia. }
    assert (H4 : (c + 2) * (mx * B) <= (c + 2) * (n * 4503599627370497)).
    { apply Z.mul_le_mono_nonneg_l; [lia|].
      change 4503599627370497 with (4503599627370496 + 1). exact Hval. }
    assert (H5 : (c + 2) * 4503599627370497 < 9007199254740992 * 4503599627370496)
      by lia.
    assert (H6 : i * 9007199254740992 * 4503599627370496
                 < n * (9007199254740992 * 4503599627370496)).
    { apply Z.le_lt_trans with ((c + 2) * (n * 4503599627370497)).
      - apply Z.le_trans with (Z.pos m' * 2 ^ (e' + 53) * 4503599627370496).
        + apply Z.mul_le_mono_nonneg_r; lia.
        + lia.
      - replace ((c + 2) * (n * 4503599627370497))
          with (n * ((c + 2) * 4503599627370497)) by ring.
        apply Z.mul_lt_mono_pos_l; lia. }
    lia. }
  destruct (Z.lt_ge_cases M (2 ^ 105)) as [H105|H105].
  - apply (Hgoal 52%positive); [lia|].
    change (52 + 52) with 104. change (53 + 52) with 105. lia.
  - apply (Hgoal 53%positive); [lia|].
    change (52 + 53) with 105. change (53 + 53) with 106. lia.
Qed.

(** ** The order on floats *)

Ltac compare_cases :=
  repeat match goal with
         | |- context [Z.compare ?a ?b] => destruct (Z.compare_spec a b)
         | |- context [Pos.compare_cont Eq ?a ?b] =>
             change (Pos.compare_cont Eq a b) with (Pos.compare a b);
             destruct (Pos.compare_spec a b)
         end;
  cbn; try reflexivity; try discriminate; try lia.

Lemma fle_trans (x y z : float) :
  not_nan y -> fle x y -> fle y z -> fle x z.
Proof.
  unfold not_nan, fle, flt, SFltb.
  destruct x as [sx|sx| |sx mx ex], y as [sy|sy| |sy my ey],
           z as [sz|sz| |sz mz ez];
    intros Hy; try congruence; cbn;
    try destruct sx; try destruct sy; try destruct sz; cbn;
    try reflexivity; try discriminate;
    compare_cases.
Qed.

Lemma flt_fle (x y : float) : flt x y = true -> fle x y.
Proof.
  unfold fle, flt, SFltb.
  destruct x as [sx|sx| |sx mx ex], y as [sy|sy| |sy my ey]; cbn;
    try destruct sx; try destruct sy; cbn;
    try reflexivity; try discriminate;
    compare_cases.
Qed.

(** ** [sorted], [min], [max] *)

Lemma insert_perm x l : Permutation (insert x l) (x :: l).
Proof.
  induction l as [|y l IH]; cbn; [reflexivity|].
  destruct (flt x y); [reflexivity|].
  rewrite IH. apply perm_swap.
Qed.

Lemma sorted_from_perm (l acc : list float) :
  Permutation (fold_left (fun acc x => insert x acc) l acc) (acc ++ l).
Proof.
  revert acc. induction l as [|x l IH]; intros acc; cbn.
  - now rewrite app_nil_r.
  - rewrite IH, insert_perm. apply Permutation_middle.
Qed.

Lemma sorted_perm (l : list float) : Permutation (sorted l) l.
Proof. unfold sorted. now rewrite sorted_from_perm. Qed.

Lemma sorted_length (l : list float) :
  List.length (sorted l) = List.length l.
Proof. apply Permutation_length, sorted_perm. Qed.

Lemma insert_sorted x l :
  not_nan x -> Forall not_nan l ->
  StronglySorted fle l -> StronglySorted fle (insert x l).
Proof.
  intros Hx Hl Hs. induction Hs as [|y l Hs IH Hy]; cbn.
  - repeat constructor.
  - inversion Hl as [|? ? Hny Hnl]; subst.
    destruct (flt x y) eqn:E.
    + constructor; [now constructor|].
      constructor; [now apply flt_fle|].
      apply Forall_forall. intros z Hz.
      apply (fle_trans x y z Hny); [now apply flt_fle|].
      rewrite Forall_forall in Hy. now apply Hy.
    + constructor; [now apply IH|].
      apply Forall_forall. intros z Hz.
      apply (Permutation_in _ (insert_perm x l)) in Hz.
      destruct Hz as [<-|Hz]; [exact E|].
      rewrite Forall_forall in Hy. now apply Hy.
Qed.

Lemma sorted_from_sorted (l acc : list float) :
  Forall not_nan l -> Forall not_nan acc -> StronglySorted fle acc ->
  StronglySorted fle (fold_left (fun acc x => insert x acc) l acc).
Proof.
  revert acc. induction l as [|x l IH]; intros acc Hl Hacc Hs; cbn.
  - exact Hs.
  - inversion Hl as [|? ? Hx Hl']; subst.
    apply IH; [exact Hl'| |now apply insert_sorted].
    apply Forall_forall. intros z Hz.
    apply (Permutation_in _ (insert_perm x acc)) in Hz.
    destruct Hz as [<-|Hz]; [exact Hx|].
    rewrite Forall_forall in Hacc. now apply Hacc.
Qed.

Lemma sorted_sorted (l : list float) :
  Forall not_nan l -> StronglySorted fle (sorted l).
Proof.
  intros Hl. apply sorted_from_sorted; [exact Hl|constructor|constructor].
Qed.

Lemma fle_refl (x : float) : fle x x.
Proof.
  unfold fle, flt, SFltb.
  destruct x as [s|s| |s m e]; try destruct s; cbn; try reflexivity.
  - rewrite Z.compare_refl.
    change (Pos.compare_cont Eq m m) with (Pos.compare m m).
    now rewrite Pos.compare_refl.
  - rewrite Z.compare_refl.
    change (Pos.compare_cont Eq m m) with (Pos.compare m m).
    now rewrite Pos.compare_refl.
Qed.

Lemma min_from (l : list float) (m0 : float) :
  not_nan m0 -> Forall not_nan l ->
  let m := fold_left (fun m y => if flt y m then y else m) l m0 in
  In m (m0 :: l) /\ fle m m0 /\ Forall (fle m) l.
Proof.
  revert m0. induction l as [|y l IH]; intros m0 Hm0 Hl; cbn.
  - repeat split; [now left|apply fle_refl|constructor].
  - inversion Hl as [|? ? Hy Hl']; subst.
    destruct (flt y m0) eqn:E.
    + destruct (IH y Hy Hl') as (Hin & Hle & Hall).
      repeat split.
      * destruct Hin as [<-|Hin]; [right; now left|right; now right].
      * apply (fle_trans _ y m0 Hy); [exact Hle|now apply flt_fle].
      * constructor; assumption.
    + destruct (IH m0 Hm0 Hl') as (Hin & Hle & Hall).
      repeat split.
      * destruct Hin as [<-|Hin]; [now left|right; now right].
      * exact Hle.
      * constructor; [|exact Hall].
        apply (fle_trans _ m0 y Hm0); [exact Hle|exact E].
Qed.

Lemma max_from (l : list float) (m0 : float) :
  not_nan m0 -> Forall not_nan l ->
  let m := fold_left (fun m y => if flt m y then y else m) l m0 in
  In m (m0 :: l) /\ fle m0 m /\ Forall (fun x => fle x m) l.
Proof.
  revert m0. induction l as [|y l IH]; intros m0 Hm0 Hl; cbn.
  - repeat split; [now left|apply fle_refl|constructor].
  - inversion Hl as [|? ? Hy Hl']; subst.
    destruct (flt m0 y) eqn:E.
    + destruct (IH y Hy Hl') as (Hin & Hle & Hall).
      repeat split.
      * destruct Hin as [<-|Hin]; [right; now left|right; now right].
      * apply (fle_trans m0 y _ Hy); [now apply flt_fle|exact Hle].
      * constructor; assumption.
    + destruct (IH m0 Hm0 Hl') as (Hin & Hle & Hall).
      repeat split.
      * destruct Hin as [<-|Hin]; [now left|right; now right].
      * exact Hle.
      * constructor; [|exact Hall].
        apply (fle_trans y m0 _ Hm0); [exact E|exact Hle].
Qed.

Lemma py_min_spec (l : list float) (m : float) :
  Forall not_nan l -> py_min l = Ok m ->
  In m l /\ Forall (fle m) l.
Proof.
  destruct l as [|x l]; cbn; [discriminate|].
  intros Hl [= <-]. inversion Hl as [|? ? Hx Hl']; subst.
  destruct (min_from l x Hx Hl') as (Hin & Hle & Hall).
  split; [exact Hin|]. constructor; assumption.
Qed.

Lemma py_max_spec (l : list float) (m : float) :
  Forall not_nan l -> py_max l = Ok m ->
  In m l /\ Forall (fun x => fle x m) l.
Proof.
  destruct l as [|x l]; cbn; [discriminate|].
  intros Hl [= <-]. inversion Hl as [|? ? Hx Hl']; subst.
  destruct (max_from l x Hx Hl') as (Hin & Hle & Hall).
  split; [exact Hin|]. constructor; assumption.
Qed.

(** ** Evaluating [get_statistics] *)

Lemma index_0_95 (n : Z) :
  1 <= n < 2 ^ 40 -> percentile_index f0_95 n = Ok (95 * n / 100).
Proof. intros Hn. apply (index_exact _ 95 40); [reflexivity|lia|lia|exact Hn]. Qed.

Lemma index_0_99 (n : Z) :
  1 <= n < 2 ^ 40 -> percentile_index f0_99 n = Ok (99 * n / 100).
Proof. intros Hn. apply (index_exact _ 99 8); [reflexivity|lia|lia|exact Hn]. Qed.

(** The percentile indices of a list of [n] elements: within the list, and
    the integer parts of [0.95 * n] and [0.99 * n] below [2 ^ 40]. *)
Lemma percentile_indices (n : Z) :
  1 <= n <= max_size ->
  exists i95 i99,
    percentile_index f0_95 n = Ok i95 /\ 0 <= i95 < n /\
    percentile_index f0_99 n = Ok i99 /\ 0 <= i99 < n /\
    (n < 2 ^ 40 -> i95 = 95 * n / 100 /\ i99 = 99 * n / 100).
Proof.
  unfold max_size. intros Hn.
  destruct (index_below 8556839292003942 n) as (i95 & H95 & B95);
    [cbn; lia|cbn; lia|lia|].
  destruct (index_below 8917127262193582 n) as (i99 & H99 & B99);
    [cbn; lia|cbn; lia|lia|].
  fold f0_95 in H95. fold f0_99 in H99.
  exists i95, i99. repeat split; try assumption; try lia.
  - rewrite (index_0_95 n) in H95 by lia. congruence.
  - rewrite (index_0_99 n) in H99 by lia. congruence.
Qed.

Lemma item_in_bounds {A} (l : list A) (i : Z) :
  0 <= i < Z.of_nat (List.length l) ->
  exists x, item l i = ([indexing (List.length l) i], Ok x) /\
            nth_error l (Z.to_nat i) = Some x.
Proof.
  intros Hi. unfold item.
  replace (i <? 0) with false by (symmetry; apply Z.ltb_ge; lia).
  replace (i <? 0) with false by (symmetry; apply Z.ltb_ge; lia).
  destruct (nth_error l (Z.to_nat i)) as [x|] eqn:E.
  - now exists x.
  - apply nth_error_None in E. lia.
Qed.

Lemma returns_then {A B} (m : P A) (k : A -> P B) l1 l2 a b :
  returns m l1 a -> returns (k a) l2 b -> returns (then_ m k) (l1 ++ l2) b.
Proof. unfold returns, then_. now intros -> ->. Qed.

Lemma returns_pure {A} (a : A) : returns (pure a) [] a.
Proof. reflexivity. Qed.

Lemma returns_lift {A} (r : result A) (a : A) :
  r = Ok a -> returns (lift r) [] a.
Proof. now intros ->. Qed.

Lemma returns_item {A} (l : list A) (i : Z) :
  0 <= i < Z.of_nat (List.length l) ->
  exists x, returns (item l i) [indexing (List.length l) i] x /\
            nth_error l (Z.to_nat i) = Some x.
Proof. apply item_in_bounds. Qed.

Lemma returns_truediv_positive (m : Z) (b : number) :
  positive_number b = true ->
  exists q, returns (truediv (Int m) b) [division (Int m) b] q.
Proof.
  unfold returns, truediv. intros Hb.
  destruct b as [k|x]; cbn in Hb.
  - replace (k =? 0) with false
      by (symmetry; apply Z.eqb_neq; apply Z.ltb_lt in Hb; lia).
    eauto.
  - assert (is_zero x = false) as Hx.
    { destruct x as [s|s| |s e]; try reflexivity.
      destruct s; discriminate. }
    cbn [to_float]. rewrite Hx. eauto.
Qed.

Section Run.
Variable py_sum : list float -> float.

Lemma get_statistics_run (self : LoadTestResult) :
  let times := response_times self in
  let n := Z.of_nat (List.length times) in
  1 <= n <= max_size ->
  exists log rate rps lo hi x50 x95 x99 i95 i99,
    returns (get_statistics py_sum self) log
      (Some (mk_statistics
               (total_requests self) (successful_requests self)
               (failed_requests self) rate
               (if truthy_float (end_time self) &&
                   truthy_float (start_time self)
                then match end_time self, start_time self with
                     | Some e, Some s => Float (fsub e s)
                     | _, _ => Int 0
                     end
                else Int 0)
               rps
               (fdiv (py_sum times) (float_of_int n))
               lo hi x50 (Float x95) (Float x99))) /\
    Forall in_bounds log /\
    (0 < total_requests self ->
     rate = Float (fmul (fdiv (exact (successful_requests self))
                              (exact (total_requests self)))
                        (float_of_int 100))) /\
    py_min times = Ok lo /\ py_max times = Ok hi /\
    nth_error (sorted times) (Z.to_nat (n / 2)) = Some x50 /\
    (percentile_index f0_95 n = Ok i95 /\ 0 <= i95 < n /\
     nth_error (sorted times) (Z.to_nat i95) = Some x95) /\
    (percentile_index f0_99 n = Ok i99 /\ 0 <= i99 < n /\
     nth_error (sorted times) (Z.to_nat i99) = Some x99) /\
    (n < 2 ^ 40 -> i95 = 95 * n / 100 /\ i99 = 99 * n / 100).
Proof.
  intros times n Hn. subst times n.
  unfold get_statistics.
  destruct (response_times self) as [|t ts] eqn:Et; [cbn in Hn; lia|].
  set (l := t :: ts) in *. set (n := Z.of_nat (List.length l)) in *.
  rewrite sorted_length. fold n.
  replace (0 <? n) with true by (symmetry; apply Z.ltb_lt; lia).
  destruct (percentile_indices n Hn)
    as (i95 & i99 & H95 & B95 & H99 & B99 & Hexact).
  rewrite H95, H99.
  destruct (returns_item (sorted l) (n / 2)) as (x50 & I50 & N50).
  { rewrite sorted_length. fold n. split; [apply Z.div_pos; lia|].
    apply Z.div_lt_upper_bound; lia. }
  destruct (returns_item (sorted l) i95) as (x95 & I95 & N95).
  { rewrite sorted_length. exact B95. }
  destruct (returns_item (sorted l) i99) as (x99 & I99 & N99).
  { rewrite sorted_length. exact B99. }
  rewrite sorted_length in I50, I95, I99.
  assert (Hbounds : Forall in_bounds
                      [indexing (List.length l) (n / 2);
                       indexing (List.length l) i95;
                       indexing (List.length l) i99]).
  { assert (0 <= n / 2 < n)
      by (split; [apply Z.div_pos; lia|apply Z.div_lt_upper_bound; lia]).
    repeat apply Forall_cons; try apply Forall_nil;
      unfold in_bounds; fold n; lia. }
  destruct (float_of_int_value n) as (m & e & Hfn & _);
    [unfold max_size in Hn; lia|].
  assert (Havg : returns (truediv (Float (py_sum l)) (Int n))
                         [division (Float (py_sum l)) (Int n)]
                         (fdiv (py_sum l) (float_of_int n))).
  { unfold returns, truediv. cbn [to_float]. now rewrite Hfn. }
  assert (Hlo : exists lo, py_min l = Ok lo) by (cbn; eauto).
  assert (Hhi : exists hi, py_max l = Ok hi) by (cbn; eauto).
  destruct Hlo as (lo & Hlo). destruct Hhi as (hi & Hhi).
  (* the success rate *)
  assert (Hrate : exists log rate,
    returns (if 0 <? total_requests self
             then q <~ truediv (Int (successful_requests self))
                               (Int (total_requests self)) ;;
                  pure (Float (fmul q (float_of_int 100)))
             else pure (Int 0)) log rate /\
    Forall in_bounds log /\
    (0 < total_requests self ->
     rate = Float (fmul (fdiv (exact (successful_requests self))
                              (exact (total_requests self)))
                        (float_of_int 100)))).
  { destruct (0 <? total_requests self) eqn:Htot.
    - apply Z.ltb_lt in Htot.
      do 2 eexists. split; [|split].
      + eapply returns_then; [|apply returns_pure].
        unfold returns, truediv.
        now replace (total_requests self =? 0) with false
          by (symmetry; apply Z.eqb_neq; lia).
      + repeat constructor.
      + reflexivity.
    - apply Z.ltb_ge in Htot.
      do 2 eexists. split; [apply returns_pure|]. split; [constructor|lia]. }
  destruct Hrate as (log1 & rate & Rrate & Brate & Erate).
  (* the request rate *)
  set (total_time := if truthy_float (end_time self) && _ then _ else _).
  assert (Hrps : exists log rps,
    returns (if positive_number total_time
             then q <~ truediv (Int (total_requests self)) total_time ;;
                  pure (Float q)
             else pure (Int 0)) log rps /\
    Forall in_bounds log).
  { destruct (positive_number total_time) eqn:Hpos.
    - destruct (returns_truediv_positive (total_requests self)
                                         total_time Hpos) as (q & Rq).
      do 2 eexists. split.
      + eapply returns_then; [exact Rq|apply returns_pure].
      + repeat constructor.
    - do 2 eexists. split; [apply returns_pure|constructor]. }
  destruct Hrps as (log2 & rps & Rrps & Brps).
  exists (log1 ++ log2 ++ [division (Float (py_sum l)) (Int n)] ++ [] ++ [] ++
          [indexing (List.length l) (n / 2)] ++
          ([] ++ [indexing (List.length l) i95] ++ []) ++
          ([] ++ [indexing (List.length l) i99] ++ []) ++ []),
         rate, rps, lo, hi, x50, x95, x99, i95, i99.
  split; [|split; [|repeat split; try assumption; try lia;
                    now apply Hexact]].
  - eapply returns_then; [exact Rrate|].
    eapply returns_then; [exact Rrps|].
    eapply returns_then; [exact Havg|].
    eapply returns_then; [apply returns_lift, Hlo|].
    eapply returns_then; [apply returns_lift, Hhi|].
    eapply returns_then; [exact I50|].
    eapply returns_then.
    { eapply returns_then; [now apply returns_lift|].
      eapply returns_then; [exact I95|apply returns_pure]. }
    eapply returns_then.
    { eapply returns_then; [now apply returns_lift|].
      eapply returns_then; [exact I99|apply returns_pure]. }
    apply returns_pure.
  - cbn [app].
    apply Forall_app. split; [exact Brate|].
    apply Forall_app. split; [exact Brps|].
    constructor; [exact I|exact Hbounds].
Qed.
End Run.


(** ** Registration requests *)

(** C7. [send_register_request] reports a success exactly when the post
    returned a response with status 201.  Every other response and every
    exception gives a failure that carries an error message, and in all
    cases the result carries the elapsed time, which [add_result] appends
    to [response_times]. *)
Theorem send_register_request_spec (started finished : float)
        (posted : post_outcome) (self : LoadTestResult) :
  let '(success, response_time, error_msg) :=
    send_register_request started finished posted in
  (success = true <-> exists text, posted = Responded 201 text) /\
  (success = true -> error_msg = None) /\
  (success = false -> exists msg, error_msg = Some msg /\ msg <> "") /\
  response_time = fsub finished started /\
  response_times (record_request self started finished posted) =
    response_times self ++ [response_time].
Proof.
  unfold record_request, send_register_request.
  destruct posted as [status_code text| | |msg];
    [destruct (Z.eqb_spec status_code 201) as [->|Hne]| | |];
    repeat split; try discriminate; try reflexivity;
    try (intros (text' & E); congruence);
    try (intros _; eexists; split; [reflexivity|cbn; discriminate]);
    eauto.
Qed.

Lemma send_register_request_spec_witness :
  send_register_request (float_of_int 1) (float_of_int 3)
                        (Responded 500 "oops") =
    (false, float_of_int 2, Some "HTTP 500: oops") /\
  response_times (record_request init (float_of_int 1) (float_of_int 3)
                                 (Responded 500 "oops")) =
    [float_of_int 2].
Proof.
  pose proof (send_register_request_spec
                (float_of_int 1) (float_of_int 3) (Responded 500 "oops")
                init) as H.
  split; [reflexivity|].
  cbn in H. destruct H as (_ & _ & _ & _ & H). exact H.
Defined.

(** ** Counters of [LoadTestResult] *)

(** C9, as stated, fails: a failed call whose message is the empty text,
    which is not null, appends nothing. *)
Lemma empty_message_not_logged :
  ~ logs_every_message init (S754_zero false) "".
Proof. unfold logs_every_message. cbn. discriminate. Qed.

Lemma add_result_counters self success response_time error_msg :
  let r := add_result self success response_time error_msg in
  total_requests r = total_requests self + 1 /\
  successful_requests r + failed_requests r =
    successful_requests self + failed_requests self + 1 /\
  response_times r = response_times self ++ [response_time] /\
  error_messages r =
    error_messages self ++ logged_message (success, response_time, error_msg).
Proof.
  unfold add_result. destruct success; cbn.
  - repeat split; try lia. now rewrite app_nil_r.
  - repeat split; try lia.
    destruct error_msg as [m|]; cbn; [|now rewrite app_nil_r].
    destruct (m =? "")%string; cbn; [now rewrite app_nil_r|reflexivity].
Qed.

(** C9 (amended). After any sequence of [add_result] calls on a fresh
    [LoadTestResult], [total_requests = successful_requests +
    failed_requests] and [len(response_times) = total_requests]; each
    failed call with a non-empty error message appends exactly that
    message to [error_messages], and no other call appends anything. *)
Theorem add_result_invariants (calls : list call) :
  let r := add_results init calls in
  total_requests r = successful_requests r + failed_requests r /\
  Z.of_nat (List.length (response_times r)) = total_requests r /\
  response_times r = map (fun c => snd (fst c)) calls /\
  error_messages r = flat_map logged_message calls.
Proof.
  cut (forall self,
          let r := add_results self calls in
          total_requests r - total_requests self =
            successful_requests r + failed_requests r -
            (successful_requests self + failed_requests self) /\
          total_requests r = total_requests self +
                             Z.of_nat (List.length calls) /\
          response_times r =
            response_times self ++ map (fun c => snd (fst c)) calls /\
          error_messages r =
            error_messages self ++ flat_map logged_message calls).
  { intros H. destruct (H init) as (H1 & H2 & H3 & H4).
    cbn in H1, H2, H3, H4. cbn zeta.
    split; [lia|]. split; [|split; assumption].
    now rewrite H2, H3, length_map. }
  induction calls as [|[[success t] msg] calls IH]; intros self; cbn zeta.
  - cbn. rewrite !app_nil_r. repeat split; lia.
  - cbn [add_results fold_left].
    destruct (add_result_counters self success t msg) as (A1 & A2 & A3 & A4).
    destruct (IH (add_result self success t msg)) as (H1 & H2 & H3 & H4).
    unfold add_results in *. cbn zeta in *.
    repeat split.
    + lia.
    + rewrite H2, A1. cbn [List.length]. lia.
    + rewrite H3, A3, <- app_assoc. reflexivity.
    + rewrite H4, A4, <- app_assoc. reflexivity.
Qed.


(** ** [get_statistics] *)

Section Stats.
Variable py_sum : list float -> float.

(** C5. After at least one [add_result] call, none of them with a NaN for
    a time, [get_statistics] returns a dictionary in which [success_rate]
    is [successful_requests / total_requests * 100], [avg_response_time]
    is the sum of the recorded times divided by their number,
    [min_response_time] and [max_response_time] are a least and a greatest
    recorded time, and the median, 95th and 99th percentile are the
    elements of the sorted times at the indices [n // 2], [int(n * 0.95)]
    and [int(n * 0.99)]; below [2 ^ 40] recorded times these two indices
    are the integer parts of [95 * n / 100] and [99 * n / 100]. *)
Theorem get_statistics_spec (calls : list call) (started ended : option float) :
  calls <> [] ->
  Z.of_nat (List.length calls) <= max_size ->
  Forall (fun c => not_nan (snd (fst c))) calls ->
  let self := set_times (add_results init calls) started ended in
  let times := response_times self in
  let n := Z.of_nat (List.length times) in
  exists log st,
    returns (get_statistics py_sum self) log (Some st) /\
    success_rate st =
      Float (fmul (fdiv (exact (successful_requests self))
                        (exact (total_requests self)))
                  (float_of_int 100)) /\
    avg_response_time st = fdiv (py_sum times) (float_of_int n) /\
    (In (min_response_time st) times /\
     Forall (fun t => fle (min_response_time st) t) times) /\
    (In (max_response_time st) times /\
     Forall (fun t => fle t (max_response_time st)) times) /\
    exists sorted_times x95 x99 i95 i99,
      Permutation sorted_times times /\
      StronglySorted fle sorted_times /\
      nth_error sorted_times (Z.to_nat (n / 2)) =
        Some (median_response_time st) /\
      (p95_response_time st = Float x95 /\
       percentile_index f0_95 n = Ok i95 /\
       nth_error sorted_times (Z.to_nat i95) = Some x95) /\
      (p99_response_time st = Float x99 /\
       percentile_index f0_99 n = Ok i99 /\
       nth_error sorted_times (Z.to_nat i99) = Some x99) /\
      (n < 2 ^ 40 -> i95 = 95 * n / 100 /\ i99 = 99 * n / 100).
Proof.
  intros Hne Hlen Hnan self times n.
  destruct (add_result_invariants calls) as (Htot & Hcount & Htimes & _).
  cbn zeta in Htot, Hcount, Htimes.
  assert (Et : times = map (fun c => snd (fst c)) calls) by exact Htimes.
  assert (En : n = Z.of_nat (List.length calls))
    by (unfold n; now rewrite Et, length_map).
  assert (Hn : 1 <= n <= max_size).
  { rewrite En. split; [|exact Hlen].
    destruct calls; [congruence|cbn [List.length]; lia]. }
  assert (Hnn : Forall not_nan times).
  { rewrite Et. apply Forall_map. exact Hnan. }
  destruct (get_statistics_run py_sum self Hn)
    as (log & rate & rps & lo & hi & x50 & x95 & x99 & i95 & i99 &
        Hrun & _ & Hrate & Hlo & Hhi & H50 & (H95 & _ & N95) &
        (H99 & _ & N99) & Hexact).
  fold times in Hrun, Hlo, Hhi, H50, H95, N95, H99, N99.
  fold n in Hrun, H50, H95, H99, Hexact.
  eexists log, _. split; [exact Hrun|].
  cbn [success_rate avg_response_time min_response_time max_response_time
       median_response_time p95_response_time p99_response_time].
  split.
  { apply Hrate.
    assert (total_requests self = n) as -> by (symmetry; exact Hcount).
    lia. }
  split; [reflexivity|].
  split; [now apply py_min_spec|].
  split; [now apply py_max_spec|].
  exists (sorted times), x95, x99, i95, i99.
  split; [apply sorted_perm|].
  split; [now apply sorted_sorted|].
  repeat split; try assumption; now apply Hexact.
Qed.

(** C8. For a list of [n >= 1] response times the indices [get_statistics]
    computes for the median and for the 95th and 99th percentile are at
    least 0 and less than [n], so that the run completes and every
    subscript it records is within the sorted list; for the empty list
    [get_statistics] returns the empty dictionary having recorded no
    division and no subscript. *)
Theorem get_statistics_safe (self : LoadTestResult) :
  let n := Z.of_nat (List.length (response_times self)) in
  (n = 0 -> get_statistics py_sum self = ([], Ok None)) /\
  (1 <= n <= max_size ->
   0 <= n / 2 < n /\
   (exists i, percentile_index f0_95 n = Ok i /\ 0 <= i < n) /\
   (exists i, percentile_index f0_99 n = Ok i /\ 0 <= i < n) /\
   exists log st,
     get_statistics py_sum self = (log, Ok (Some st)) /\
     Forall in_bounds log).
Proof.
  intros n. split.
  - intros Hn. unfold get_statistics.
    destruct (response_times self); [reflexivity|]. cbn in n. lia.
  - intros Hn.
    split; [split; [apply Z.div_pos; lia|apply Z.div_lt_upper_bound; lia]|].
    destruct (get_statistics_run py_sum self Hn)
      as (log & rate & rps & lo & hi & x50 & x95 & x99 & i95 & i99 &
          Hrun & Hb & _ & _ & _ & _ & (H95 & B95 & _) & (H99 & B99 & _) & _).
    split; [now exists i95|]. split; [now exists i99|].
    eexists log, _. split; [exact Hrun|exact Hb].
Qed.

End Stats.

Lemma get_statistics_spec_witness :
  let self := set_times (add_results init three_calls) None None in
  exists log st,
    returns (get_statistics sum_left self) log (Some st) /\
    median_response_time st = float_of_int 2 /\
    p95_response_time st = Float (float_of_int 3) /\
    min_response_time st = float_of_int 1.
Proof.
  intros self.
  assert (H1 : three_calls <> []) by discriminate.
  assert (H2 : Z.of_nat (List.length three_calls) <= max_size)
    by discriminate.
  assert (H3 : Forall (fun c => not_nan (snd (fst c))) three_calls)
    by (repeat constructor; discriminate).
  destruct (get_statistics_spec sum_left three_calls None None H1 H2 H3)
    as (log & st & Hrun & _).
  exists log, st. split; [exact Hrun|].
  unfold returns in Hrun. vm_compute in Hrun.
  injection Hrun as _ <-. repeat split.
Defined.

Lemma get_statistics_safe_witness :
  let self := add_results init three_calls in
  get_statistics sum_left init = ([], Ok None) /\
  exists log st,
    get_statistics sum_left self = (log, Ok (Some st)) /\
    Forall in_bounds log.
Proof.
  intros self.
  destruct (get_statistics_safe sum_left init) as [Hempty _].
  destruct (get_statistics_safe sum_left self) as [_ Hfull].
  split; [now apply Hempty|].
  destruct Hfull as (_ & _ & _ & Hrun); [split; discriminate|].
  exact Hrun.
Defined.

End LoadTestFacts.

Module IntegrityFacts.
Import App AppFacts Integrity.

(** ** One request is at most one statement *)

Lemma serve_writes (now : Z) (r : request) (d : db) :
  out_db (serve now r d) = d \/ writes now d (out_db (serve now r d)).
Proof.
  destruct r; run_handler; rewrite ?drawn;
    first [ now left
          | right; eapply w_nextval; reflexivity
          | right; econstructor; eassumption ].
Qed.

Lemma replay_invariant (P : db -> Prop) :
  (forall now d d', writes now d d' -> P d -> P d') ->
  forall history d, P d -> P (replay history d).
Proof.
  intros Hstep history.
  induction history as [|[now r] rest IH]; cbn [replay]; intros d Hd;
    [exact Hd|].
  apply IH.
  destruct (serve_writes now r d) as [->|Hw]; [exact Hd|].
  exact (Hstep now d _ Hw Hd).
Qed.

(** ** Primary keys *)

Lemma keys_append {A} (key : A -> Z) (rows : list A) (next : Z) (x : A) :
  key x = next -> 1 <= next ->
  keys_in_sequence key rows next ->
  keys_in_sequence key (rows ++ [x]) (next + 1).
Proof.
  intros Hx Hpos [Hnd Hall]. split.
  - rewrite map_app. cbn.
    apply NoDup_app; [exact Hnd|repeat constructor; intros []|].
    intros k Hk [<-|[]].
    apply in_map_iff in Hk as (r & Hr & Hin).
    rewrite Forall_forall in Hall. specialize (Hall r Hin). lia.
  - apply Forall_app. split.
    + eapply Forall_impl; [|exact Hall]. cbn. intros; lia.
    + repeat constructor; lia.
Qed.

Lemma keys_map {A} (key : A -> Z) (f : A -> A) (rows : list A) (next : Z) :
  (forall r, key (f r) = key r) ->
  keys_in_sequence key rows next ->
  keys_in_sequence key (map f rows) next.
Proof.
  intros Hf [Hnd Hall]. split.
  - rewrite map_map.
    rewrite (map_ext (fun r => key (f r)) key) by exact Hf. exact Hnd.
  - apply Forall_map. eapply Forall_impl; [|exact Hall].
    cbn. intros r. now rewrite Hf.
Qed.

Lemma NoDup_map_filter {A B} (key : A -> B) (p : A -> bool) (rows : list A) :
  NoDup (map key rows) -> NoDup (map key (filter p rows)).
Proof.
  induction rows as [|r rows IH]; cbn; intros Hnd; [constructor|].
  inversion Hnd as [|? ? Hr Hrest]; subst.
  destruct (p r); cbn; [constructor|]; auto.
  intros Hin. apply Hr.
  apply in_map_iff in Hin as (x & Hx & Hin).
  apply filter_In in Hin as [Hin _].
  apply in_map_iff. now exists x.
Qed.

Lemma keys_filter {A} (key : A -> Z) (p : A -> bool) (rows : list A)
      (next : Z) :
  keys_in_sequence key rows next ->
  keys_in_sequence key (filter p rows) next.
Proof.
  intros [Hnd Hall]. split.
  - now apply NoDup_map_filter.
  - apply Forall_forall. intros r Hr. apply filter_In in Hr as [Hr _].
    rewrite Forall_forall in Hall. now apply Hall.
Qed.

Lemma sequence_positive {A} (key : A -> Z) (rows : list A) (next : Z) :
  keys_in_sequence key rows next -> rows <> [] -> 1 < next.
Proof.
  intros [_ Hall] Hne. destruct rows as [|r rows]; [congruence|].
  inversion Hall; subst. lia.
Qed.

Lemma keys_later {A} (key : A -> Z) (rows : list A) (next : Z) :
  keys_in_sequence key rows next -> keys_in_sequence key rows (next + 1).
Proof.
  intros [Hnd Hall]. split; [exact Hnd|].
  eapply Forall_impl; [|exact Hall]. cbn. intros; lia.
Qed.

Lemma assign_keeps_id now (updates : list assignment) (r : activity_row) :
  a_id (fold_left (assign now) updates r) = a_id r.
Proof.
  revert r. induction updates as [|x l IH]; cbn; intros r; [reflexivity|].
  rewrite IH. now destruct x.
Qed.

Lemma writes_keys now (d d' : db) :
  writes now d d' ->
  sequences_started d /\ primary_keys d ->
  sequences_started d' /\ primary_keys d'.
Proof.
  unfold sequences_started, primary_keys.
  intros Hw ((S1 & S2 & S3 & S4) & K1 & K2 & K3 & K4).
  destruct Hw as [t ->|? ? ? ? ? ? H|? ? ? ? ? ? ? H|? ? H|? ? ? ? ? H|? ? ? H
                  |? ? ? ? H|? ? ? ? ? H].
  { destruct t;
      cbn [nextval questions activities users answers questions_id_seq
           activities_id_seq users_id_seq answers_id_seq];
      refine (conj (conj _ (conj _ (conj _ _))) (conj _ (conj _ (conj _ _))));
      try assumption; try lia; now apply keys_later. }
  all: stmt_inv H; cbn [questions activities users answers questions_id_seq
                        activities_id_seq users_id_seq answers_id_seq];
    refine (conj (conj _ (conj _ (conj _ _))) (conj _ (conj _ (conj _ _))));
    try assumption; try lia;
    try (apply keys_append; [reflexivity|assumption|assumption]).
  - apply keys_map; [|assumption]. intros r. now destruct (q_id r =? _).
  - now apply keys_filter.
  - apply keys_map; [|assumption]. intros r.
    destruct (a_id r =? _); [apply assign_keeps_id|reflexivity].
Qed.

Lemma reachable_keys (history : list (Z * request)) :
  sequences_started (replay history empty_db) /\
  primary_keys (replay history empty_db).
Proof.
  apply (replay_invariant
           (fun d => sequences_started d /\ primary_keys d)).
  - exact writes_keys.
  - unfold sequences_started, primary_keys, keys_in_sequence. cbn.
    repeat split; try lia; constructor.
Qed.

(** X1. In every database reached through the API the ids of each table
    are pairwise distinct and lie between 1 and the next value of the
    table's sequence. *)
Theorem primary_keys_hold (history : list (Z * request)) :
  primary_keys (replay history empty_db).
Proof.
  destruct (reachable_keys history) as [_ H]. exact H.
Qed.

(** ** Foreign keys *)

Lemma refers_to_more (has has' : Z -> bool) (v : option Z) :
  (forall id, has id = true -> has' id = true) ->
  refers_to has v -> refers_to has' v.
Proof. intros H. destruct v; cbn; auto. Qed.

Lemma existsb_app_l {A} (p : A -> bool) (l l' : list A) :
  existsb p l = true -> existsb p (l ++ l') = true.
Proof. intros H. rewrite existsb_app, H. reflexivity. Qed.

Lemma existsb_map_key {A} (key : A -> Z) (f : A -> A) (l : list A) (id : Z) :
  (forall r, key (f r) = key r) ->
  existsb (fun r => key r =? id) (map f l) =
  existsb (fun r => key r =? id) l.
Proof.
  intros Hf. induction l as [|r l IH]; cbn; [reflexivity|].
  now rewrite Hf, IH.
Qed.

Lemma existsb_filter_other {A} (key : A -> Z) (l : list A) (id gone : Z) :
  id <> gone ->
  existsb (fun r => key r =? id)
          (filter (fun r => negb (key r =? gone)) l) =
  existsb (fun r => key r =? id) l.
Proof.
  intros Hne. induction l as [|r l IH]; cbn; [reflexivity|].
  destruct (Z.eqb_spec (key r) gone) as [E|E]; cbn; rewrite IH.
  - destruct (Z.eqb_spec (key r) id); [lia|reflexivity].
  - reflexivity.
Qed.

Lemma filter_absent {A} (key : A -> Z) (l : list A) (gone : Z) :
  existsb (fun r => key r =? gone) l = false ->
  filter (fun r => negb (key r =? gone)) l = l.
Proof.
  induction l as [|r l IH]; cbn; [reflexivity|].
  intros H. apply orb_false_iff in H as [Hr Hl].
  rewrite Hr. cbn. now rewrite IH.
Qed.

Lemma writes_references now (d d' : db) :
  writes now d d' -> foreign_keys d -> foreign_keys d'.
Proof.
  unfold foreign_keys.
  intros Hw (U & AA).
  destruct Hw as [t ->|? ? ? ? ? ? H|? ? ? ? ? ? ? H|? ? H|? ? ? ? ? H|? ? ? H
                  |? ? ? ? H|? ? ? ? ? H].
  { now destruct t. }
  all: stmt_inv H; cbn [questions activities users answers];
    unfold has_question, has_activity, has_user in *;
    cbn [questions activities users answers].
  - (* insert_question *)
    split; [exact U|].
    eapply Forall_impl; [|exact AA]. cbn. intros row (H1 & H2 & H3).
    repeat split; try assumption.
    eapply refers_to_more; [|exact H2]. intros id. apply existsb_app_l.
  - (* update_question *)
    split; [exact U|].
    eapply Forall_impl; [|exact AA]. cbn. intros row (H1 & H2 & H3).
    repeat split; try assumption.
    eapply refers_to_more; [|exact H2]. intros id Hid.
    rewrite existsb_map_key; [exact Hid|].
    intros r. now destruct (q_id r =? _).
  - split; assumption.
  - (* delete_question *)
    split; [exact U|].
    match goal with
    | H : _ && _ = false |- _ => rename H into Hguard
    end.
    apply Forall_forall. intros row Ha.
    rewrite Forall_forall in AA. destruct (AA row Ha) as (H1 & H2 & H3).
    repeat split; try assumption.
    destruct (ans_question_id row) as [q|] eqn:Eq; cbn in *; [|exact I].
    destruct (Z.eq_dec q question_id) as [->|Hne].
    + rewrite H2 in Hguard. cbn in Hguard.
      exfalso.
      assert (existsb (fun a0 => id_is (ans_question_id a0) question_id)
                      (answers d) = true).
      { apply existsb_exists. exists row. split; [exact Ha|].
        rewrite Eq. cbn. apply Z.eqb_refl. }
      congruence.
    + now rewrite existsb_filter_other.
  - (* insert_activity *)
    split.
    + eapply Forall_impl; [|exact U]. cbn. intros usr.
      apply refers_to_more. intros id. apply existsb_app_l.
    + eapply Forall_impl; [|exact AA]. cbn. intros row (H1 & H2 & H3).
      repeat split; try assumption.
      eapply refers_to_more; [|exact H1]. intros id. apply existsb_app_l.
  - (* update_activity *)
    match goal with
    | |- context [fold_left (assign now) ?stored] =>
        assert (Hsame : forall id,
          existsb (fun a => a_id a =? id)
            (map (fun r => if a_id r =? activity_id
                           then fold_left (assign now) stored r else r)
                 (activities d)) =
          existsb (fun a => a_id a =? id) (activities d))
    end.
    { intros id. apply existsb_map_key. intros r.
      destruct (a_id r =? _); [apply assign_keeps_id|reflexivity]. }
    split.
    + eapply Forall_impl; [|exact U]. cbn. intros usr.
      apply refers_to_more. intros id. now rewrite Hsame.
    + eapply Forall_impl; [|exact AA]. cbn. intros row (H1 & H2 & H3).
      repeat split; try assumption.
      eapply refers_to_more; [|exact H1]. intros id. now rewrite Hsame.
  - (* insert_user *)
    split.
    + apply Forall_app. split; [exact U|].
      repeat constructor. cbn [u_activity_id].
      match goal with
      | H : check_references _ _ ?v = Ok _ |- refers_to _ ?v =>
          unfold check_references in H; destruct v as [id|]; cbn; [|exact I];
          destruct (existsb _ _) eqn:E in H; [exact E|discriminate H]
      end.
    + eapply Forall_impl; [|exact AA]. cbn. intros row (H1 & H2 & H3).
      repeat split; try assumption.
      eapply refers_to_more; [|exact H3]. intros id. apply existsb_app_l.
  - (* insert_answer *)
    split; [exact U|].
    apply Forall_app. split; [exact AA|].
    repeat constructor;
      cbn [ans_activity_id ans_question_id ans_user_id];
      match goal with
      | |- refers_to ?has ?v =>
          match goal with
          | H : check_references _ has v = Ok _ |- _ =>
              unfold check_references in H; destruct v as [id|]; cbn;
              [|exact I];
              destruct (existsb _ _) eqn:E in H; [exact E|discriminate H]
          end
      end.
Qed.

(** X2. In every database reached through the API each user names an
    existing activity (or none), and each answer names an existing
    activity, question and user (or none): no request leaves a reference
    to a row that is gone. *)
Theorem foreign_keys_hold (history : list (Z * request)) :
  foreign_keys (replay history empty_db).
Proof.
  apply (replay_invariant foreign_keys).
  - exact writes_references.
  - split; constructor.
Qed.

(** ** Requests that fail *)

Lemma status_update_collected (data : update_activity_body) (s : string) :
  uab_status data = Val s -> collect_updates data <> [].
Proof.
  intros H. unfold collect_updates, status_updates. rewrite H. discriminate.
Qed.

(** X3. A request that ends in an exception has stored no row and
    announced nothing: it leaves the database as it was, or, when it is an
    [INSERT] refused by a [NOT NULL] or foreign-key constraint, as it was
    but for the one id the statement has drawn from the sequence of its
    table.  There is one exception: [update_activity] can fail after its
    commit and its [activity_updated] broadcast, on the cursor it has
    already closed. *)
Theorem failed_request_stores_nothing (now : Z) (r : request) (d : db)
        (e : exn) :
  out_result (serve now r d) = Raise e ->
  (same_rows d (out_db (serve now r d)) /\
   out_trace (serve now r d) = [] /\
   (out_db (serve now r d) = d \/
    exists t, inserts_into r = Some t /\
              refused_by_constraint e = true /\
              out_db (serve now r d) = nextval t d)) \/
  (exists id data,
      r = PUT_activities id data /\
      e = InterfaceError "cursor already closed" /\
      out_trace (serve now r d) = [Commit; Emit (activity_updated id data)]).
Proof.
  destruct r as [data|question_id data|question_id|data|activity_id data
                |data|data];
    run_handler; rewrite ?drawn; cbn [out_result];
    intros H; try discriminate H;
    try (left; split; [now repeat split|split; [reflexivity|]];
         first [ now left
               | right; eexists; injection H as <-;
                 split; [reflexivity|split; [assumption|reflexivity]] ]).
  all: try (exfalso;
            match goal with
            | Hs : uab_status _ = Val _, Hc : collect_updates _ = [] |- _ =>
                exact (status_update_collected _ _ Hs Hc)
            end).
  all: try match goal with
           | Hb : false && _ = true |- _ => discriminate Hb
           end.
  all: right; exists activity_id, data; injection H as <-; repeat split.
Qed.

Lemma failed_request_stores_nothing_witness :
  (let r := POST_questions
              (mk_question_body Absent (Val "Why?") None Absent Absent) in
   out_result (serve 20 r empty_db) = Raise (KeyError "type") /\
   out_db (serve 20 r empty_db) = empty_db) /\
  (let r := POST_users (mk_join_body (Val 7) (Val "ann") Null) in
   out_result (serve 20 r empty_db) =
     Raise (ForeignKeyViolation "activity_id") /\
   users (out_db (serve 20 r empty_db)) = [] /\
   users_id_seq (out_db (serve 20 r empty_db)) = 2).
Proof.
  split; intros r.
  - split; [reflexivity|].
    destruct (failed_request_stores_nothing 20 r empty_db (KeyError "type")
                                            eq_refl)
      as [(_ & _ & [H|(t & _ & Hr & _)])|(id & data & H & _)];
      [exact H|discriminate Hr|discriminate H].
  - split; [reflexivity|].
    destruct (failed_request_stores_nothing
                20 r empty_db (ForeignKeyViolation "activity_id") eq_refl)
      as [((_ & _ & Hu & _) & _ & [H|(t & Ht & _ & H)])|(id & data & H & _)];
      [split; [exact Hu|now rewrite H]
      |injection Ht as <-; split; [exact Hu|now rewrite H]
      |discriminate H].
Defined.

(** ** What is never removed or set *)

Lemma writes_keep now (d d' : db) :
  writes now d d' ->
  exists us ans acts,
    users d' = users d ++ us /\
    answers d' = answers d ++ ans /\
    map a_id (activities d') = map a_id (activities d) ++ acts.
Proof.
  intros Hw.
  destruct Hw as [t ->|? ? ? ? ? ? H|? ? ? ? ? ? ? H|? ? H|? ? ? ? ? H|? ? ? H
                  |? ? ? ? H|? ? ? ? ? H].
  { exists [], [], []. rewrite !app_nil_r. now destruct t. }
  all: stmt_inv H; cbn [activities users answers].
  all: try (exists [], [], []; now rewrite !app_nil_r).
  - eexists [], [], [_]. rewrite !app_nil_r, map_app. now repeat split.
  - exists [], [], []. rewrite !app_nil_r. repeat split.
    rewrite map_map. apply map_ext. intros r.
    destruct (a_id r =? _); [apply assign_keeps_id|reflexivity].
  - eexists [_], [], []. rewrite !app_nil_r. now repeat split.
  - eexists [], [_], []. rewrite !app_nil_r. now repeat split.
Qed.

(** X4. No request removes or alters a stored user or answer, and none
    removes an activity: after any further requests the users and the
    answers of a database are still there, unchanged and in place, followed
    by the new ones, and so are the ids of its activities. *)
Theorem users_and_answers_are_kept (history : list (Z * request)) (d : db) :
  exists us ans acts,
    users (replay history d) = users d ++ us /\
    answers (replay history d) = answers d ++ ans /\
    map a_id (activities (replay history d)) =
      map a_id (activities d) ++ acts.
Proof.
  apply (replay_invariant
           (fun d' => exists us ans acts,
                users d' = users d ++ us /\
                answers d' = answers d ++ ans /\
                map a_id (activities d') = map a_id (activities d) ++ acts)).
  - intros now d1 d2 Hw (us & ans & acts & Hu & Ha & Hc).
    destruct (writes_keep now d1 d2 Hw)
      as (us' & ans' & acts' & Hu' & Ha' & Hc').
    exists (us ++ us'), (ans ++ ans'), (acts ++ acts').
    rewrite Hu', Ha', Hc', Hu, Ha, Hc, !app_assoc. now repeat split.
  - exists [], [], []. now rewrite !app_nil_r.
Qed.

Lemma assign_keeps_ended_at now (updates : list assignment)
      (r : activity_row) :
  a_ended_at (fold_left (assign now) updates r) = a_ended_at r.
Proof.
  revert r. induction updates as [|x l IH]; cbn; intros r; [reflexivity|].
  rewrite IH. now destruct x.
Qed.

Lemma writes_no_end now (d d' : db) :
  writes now d d' ->
  Forall (fun a => a_ended_at a = None) (activities d) ->
  Forall (fun a => a_ended_at a = None) (activities d').
Proof.
  intros Hw Hd.
  destruct Hw as [t ->|? ? ? ? ? ? H|? ? ? ? ? ? ? H|? ? H|? ? ? ? ? H|? ? ? H
                  |? ? ? ? H|? ? ? ? ? H].
  { now destruct t. }
  all: stmt_inv H; cbn [activities]; try exact Hd.
  - apply Forall_app. split; [exact Hd|]. now repeat constructor.
  - apply Forall_map. eapply Forall_impl; [|exact Hd].
    cbn. intros r Hr.
    destruct (a_id r =? _); [now rewrite assign_keeps_ended_at|exact Hr].
Qed.

(** X5. No request ever records the end of an activity: in every database
    reached through the API the [ended_at] column is null in every row,
    whatever statuses the activities were given. *)
Theorem ended_at_is_never_set (history : list (Z * request)) :
  Forall (fun a => a_ended_at a = None)
         (activities (replay history empty_db)).
Proof.
  apply (replay_invariant
           (fun d => Forall (fun a => a_ended_at a = None) (activities d))).
  - exact writes_no_end.
  - constructor.
Qed.

(** ** Ids *)

Lemma writes_sequence now (d d' : db) :
  writes now d d' -> questions_id_seq d <= questions_id_seq d'.
Proof.
  intros Hw.
  destruct Hw as [t ->|? ? ? ? ? ? H|? ? ? ? ? ? ? H|? ? H|? ? ? ? ? H|? ? ? H
                  |? ? ? ? H|? ? ? ? ? H].
  { destruct t; cbn [nextval questions_id_seq]; lia. }
  all: stmt_inv H; cbn [questions_id_seq]; lia.
Qed.

Lemma replay_sequence (history : list (Z * request)) (d : db) :
  questions_id_seq d <= questions_id_seq (replay history d).
Proof.
  apply (replay_invariant
           (fun d' => questions_id_seq d <= questions_id_seq d')).
  - intros now d1 d2 Hw H. pose proof (writes_sequence now d1 d2 Hw). lia.
  - lia.
Qed.

(** What a successful [create_question] has done. *)
Lemma create_question_done (now : Z) (data : question_body) (d : db)
      (id : Z) :
  out_result (serve now (POST_questions data) d) =
    Ok (mk_response 201 (b_id id)) ->
  exists type content answer_limit,
    qb_type data = Val type /\ qb_content data = Val content /\
    questions (out_db (serve now (POST_questions data) d)) =
      questions d ++
      [mk_question id (varchar 20 type) content
                   (dumped_options (qb_options data))
                   (get (qb_time_limit data)) answer_limit (Some now)] /\
    id = questions_id_seq d /\
    questions_id_seq (out_db (serve now (POST_questions data) d)) = id + 1 /\
    (truthy_num (get (qb_answer_limit data)) = false ->
     answer_limit = None) /\
    (forall x, get (qb_answer_limit data) = Some x ->
               truthy_num (Some x) = true -> int x = answer_limit).
Proof.
  run_handler; cbn [out_result]; intros H; try discriminate H;
    injection H as <-;
    match goal with
    | Hs : insert_question _ _ _ _ _ _ _ = Ok _ |- _ => stmt_inv Hs
    end;
    repeat match goal with
           | Hv : check_varchar _ _ _ = Ok _ |- _ =>
               apply check_varchar_stored in Hv; cbn [option_map] in Hv;
               subst
           end;
    try match goal with
        | Hn : check_not_null _ None = Ok _ |- _ => discriminate Hn
        end;
    repeat match goal with
           | Hn : check_not_null _ (Some _) = Ok _ |- _ =>
               injection Hn as <-
           end;
    cbn [questions questions_id_seq];
    do 3 eexists; repeat split; try reflexivity; try congruence.
Qed.

(** X6. Question ids are handed out in increasing order and never again:
    a question created after another one, whatever was created or deleted
    in between, has a greater id. *)
Theorem question_ids_increase (before between : list (Z * request))
        (now1 now2 : Z) (data1 data2 : question_body) (id1 id2 : Z) :
  let d1 := replay before empty_db in
  let o1 := serve now1 (POST_questions data1) d1 in
  let d2 := replay between (out_db o1) in
  let o2 := serve now2 (POST_questions data2) d2 in
  out_result o1 = Ok (mk_response 201 (b_id id1)) ->
  out_result o2 = Ok (mk_response 201 (b_id id2)) ->
  id1 < id2.
Proof.
  intros d1 o1 d2 o2 H1 H2.
  destruct (create_question_done now1 data1 d1 id1 H1)
    as (? & ? & ? & _ & _ & _ & E1 & S1 & _).
  destruct (create_question_done now2 data2 d2 id2 H2)
    as (? & ? & ? & _ & _ & _ & E2 & _).
  pose proof (replay_sequence between (out_db o1)) as Hle.
  fold d2 in Hle. fold o1 in S1. lia.
Qed.

Lemma question_ids_increase_witness :
  out_result (serve 20 (POST_questions sample_question) empty_db) =
    Ok (mk_response 201 (b_id 1)) /\
  out_result
    (serve 40 (POST_questions sample_question)
       (replay [(30, DELETE_questions 1)]
          (out_db (serve 20 (POST_questions sample_question) empty_db)))) =
    Ok (mk_response 201 (b_id 2)) /\
  1 < 2.
Proof.
  split; [reflexivity|]. split; [reflexivity|].
  exact (question_ids_increase [] [(30, DELETE_questions 1)] 20 40
           sample_question sample_question 1 2 eq_refl eq_refl).
Defined.

End IntegrityFacts.

Module ReadsFacts.
Import App AppFacts Integrity IntegrityFacts Reads.

(** ** Sorting *)

Lemma insert_by_perm {A} (le : A -> A -> bool) (x : A) (l : list A) :
  Permutation (insert_by le x l) (x :: l).
Proof.
  induction l as [|y l IH]; cbn; [reflexivity|].
  destruct (le x y); [reflexivity|].
  rewrite IH. apply perm_swap.
Qed.

Lemma sort_by_perm {A} (le : A -> A -> bool) (l : list A) :
  Permutation (sort_by le l) l.
Proof.
  induction l as [|x l IH]; cbn; [reflexivity|].
  rewrite insert_by_perm. now constructor.
Qed.

Section Sorting.

Context {A : Type} (le : A -> A -> bool).
Hypothesis le_total : forall x y, le x y = true \/ le y x = true.
Hypothesis le_trans :
  forall x y z, le x y = true -> le y z = true -> le x z = true.

Lemma insert_by_sorted (x : A) (l : list A) :
  StronglySorted (fun a b => le a b = true) l ->
  StronglySorted (fun a b => le a b = true) (insert_by le x l).
Proof.
  induction l as [|y l IH]; cbn; intros Hs.
  - repeat constructor.
  - inversion Hs as [|? ? Hl Hy]; subst.
    destruct (le x y) eqn:E.
    + constructor; [exact Hs|].
      constructor; [exact E|].
      eapply Forall_impl; [|exact Hy]. cbn. intros z. now apply le_trans.
    + constructor; [now apply IH|].
      rewrite insert_by_perm.
      constructor; [|exact Hy].
      destruct (le_total x y); congruence.
Qed.

Lemma sort_by_sorted (l : list A) :
  StronglySorted (fun a b => le a b = true) (sort_by le l).
Proof.
  induction l as [|x l IH]; cbn; [constructor|].
  now apply insert_by_sorted.
Qed.

End Sorting.

Lemma asc_nulls_last_flip (x y : option Z) :
  asc_nulls_last y x = CompOpp (asc_nulls_last x y).
Proof.
  destruct x, y; cbn; try reflexivity. apply Z.compare_antisym.
Qed.

Lemma newest_first_total {A} (key : A -> option Z) (x y : A) :
  newest_first key x y = true \/ newest_first key y x = true.
Proof.
  unfold newest_first. rewrite (asc_nulls_last_flip (key y) (key x)).
  destruct (asc_nulls_last (key y) (key x)); cbn; auto.
Qed.

Lemma newest_first_trans {A} (key : A -> option Z) (x y z : A) :
  newest_first key x y = true -> newest_first key y z = true ->
  newest_first key x z = true.
Proof.
  unfold newest_first.
  destruct (key x) as [a|], (key y) as [b|], (key z) as [c|]; cbn;
    try reflexivity; try discriminate.
  destruct (b ?= a) eqn:E1; try discriminate;
    destruct (c ?= b) eqn:E2; try discriminate;
    destruct (c ?= a) eqn:E3; try reflexivity; intros _ _; exfalso;
    rewrite ?Z.compare_eq_iff, ?Z.compare_lt_iff, ?Z.compare_gt_iff in *;
    lia.
Qed.

Lemma newest_first_sorted {A} (key : A -> option Z) (l : list A) :
  StronglySorted (no_older key) (sort_by (newest_first key) l).
Proof.
  apply (sort_by_sorted (newest_first key)).
  - apply newest_first_total.
  - apply newest_first_trans.
Qed.

(** ** Listings *)

Ltac run_reader :=
  unfold run_read, get_questions, get_activities, get_answers,
    get_activity_stats, jsonify_read;
  split_run; cbn [read_db read_trace read_result].

Lemma get_questions_run (d : db) :
  run_read get_questions d =
  mk_read_outcome d []
    (Ok (mk_read_response 200
           (b_questions (sort_by (newest_first q_created_at)
                                 (questions d))))).
Proof. run_reader. reflexivity. Qed.

Lemma get_activities_run (d : db) :
  run_read get_activities d =
  mk_read_outcome d []
    (Ok (mk_read_response 200
           (b_activities (sort_by (newest_first a_created_at)
                                  (activities d))))).
Proof. run_reader. reflexivity. Qed.

(** X7. [get_questions] and [get_activities] answer 200 with every row of
    their table exactly once, a row created later never after one created
    earlier (rows without a creation time first); they change nothing in
    the database and broadcast nothing. *)
Theorem listings_are_complete_and_newest_first (d : db) :
  (exists rows,
      run_read get_questions d =
        mk_read_outcome d [] (Ok (mk_read_response 200 (b_questions rows))) /\
      Permutation rows (questions d) /\
      StronglySorted (no_older q_created_at) rows) /\
  (exists rows,
      run_read get_activities d =
        mk_read_outcome d []
          (Ok (mk_read_response 200 (b_activities rows))) /\
      Permutation rows (activities d) /\
      StronglySorted (no_older a_created_at) rows).
Proof.
  split; eexists;
    (split; [first [apply get_questions_run|apply get_activities_run]|]);
    (split; [apply sort_by_perm|apply newest_first_sorted]).
Qed.

(** ** Answers of a user *)

Lemma firstn_sorted {A} (R : A -> A -> Prop) (n : nat) (l : list A) :
  StronglySorted R l -> StronglySorted R (firstn n l ++ skipn n l).
Proof. now rewrite firstn_skipn. Qed.

(** X8. [get_answers] filters only when it is given both a question id
    and a user id other than 0: it then returns exactly the answers of that
    user to that question, newest first.  In every other case, also when
    just one of the two is given, it returns the same as without any
    parameter: the 100 newest answers of the whole table (all of them when
    there are fewer). *)
Theorem get_answers_spec (question_id user_id : option Z) (d : db) :
  (truthy_int question_id && truthy_int user_id = true ->
   exists rows,
     run_read (get_answers question_id user_id) d =
       mk_read_outcome d [] (Ok (mk_read_response 200 (b_answers rows))) /\
     Permutation rows (filter (answered_by question_id user_id) (answers d)) /\
     StronglySorted (no_older ans_submitted_at) rows) /\
  (truthy_int question_id && truthy_int user_id = false ->
   run_read (get_answers question_id user_id) d =
     run_read (get_answers None None) d /\
   exists rows rest,
     run_read (get_answers question_id user_id) d =
       mk_read_outcome d [] (Ok (mk_read_response 200 (b_answers rows))) /\
     List.length rows = Nat.min 100 (List.length (answers d)) /\
     Permutation (rows ++ rest) (answers d) /\
     StronglySorted (no_older ans_submitted_at) (rows ++ rest)).
Proof.
  split; intros Hif.
  - eexists. split; [|split].
    + unfold run_read, get_answers, jsonify_read. rewrite Hif.
      step_run. reflexivity.
    + apply sort_by_perm.
    + apply newest_first_sorted.
  - assert (Hrun : run_read (get_answers question_id user_id) d =
                   mk_read_outcome d []
                     (Ok (mk_read_response 200
                            (b_answers
                               (firstn 100
                                  (sort_by (newest_first ans_submitted_at)
                                           (answers d))))))).
    { unfold run_read, get_answers, jsonify_read. rewrite Hif.
      step_run. reflexivity. }
    split; [rewrite Hrun; reflexivity|].
    exists (firstn 100 (sort_by (newest_first ans_submitted_at) (answers d))),
           (skipn 100 (sort_by (newest_first ans_submitted_at) (answers d))).
    split; [exact Hrun|]. split; [|split].
    + rewrite length_firstn.
      now rewrite (Permutation_length (sort_by_perm _ (answers d))).
    + rewrite firstn_skipn. apply sort_by_perm.
    + rewrite firstn_skipn. apply newest_first_sorted.
Qed.

Lemma get_answers_spec_witness :
  run_read (get_answers (Some 1) None)
           (replay one_answer_history empty_db) =
  run_read (get_answers None None) (replay one_answer_history empty_db).
Proof.
  destruct (get_answers_spec (Some 1) None
              (replay one_answer_history empty_db)) as [_ H].
  destruct (H eq_refl) as [E _]. exact E.
Defined.

(** ** Grouping *)

Section Grouping.

Context {A K : Type} (eqb : K -> K -> bool) (key : A -> K).
Hypothesis eqb_eq : forall x y, eqb x y = true <-> x = y.

Lemma total_app (l l' : list Z) : total (l ++ l') = total l + total l'.
Proof. induction l as [|x l IH]; cbn; [reflexivity|]. rewrite IH. lia. Qed.

Lemma add_to_group_total (f : A -> Z) (x : A) (groups : list (K * list A)) :
  over_groups f (add_to_group eqb key x groups) = over_groups f groups + f x.
Proof.
  unfold over_groups.
  induction groups as [|[k rows] rest IH]; cbn; [lia|].
  destruct (eqb k (key x)); cbn.
  - rewrite map_app, total_app. cbn. lia.
  - rewrite IH. lia.
Qed.

Lemma fold_groups_total (f : A -> Z) (l : list A) (acc : list (K * list A)) :
  over_groups f (fold_left (fun groups x => add_to_group eqb key x groups)
                           l acc) =
  over_groups f acc + total (map f l).
Proof.
  revert acc.
  induction l as [|x l IH]; cbn [fold_left map total]; intros acc; [lia|].
  rewrite IH, add_to_group_total. lia.
Qed.

Lemma group_by_total (f : A -> Z) (l : list A) :
  over_groups f (group_by eqb key l) = total (map f l).
Proof. unfold group_by. rewrite fold_groups_total. reflexivity. Qed.

Lemma add_to_group_keys (x : A) (groups : list (K * list A)) (k : K) :
  In k (map fst (add_to_group eqb key x groups)) ->
  k = key x \/ In k (map fst groups).
Proof.
  induction groups as [|[k' rows] rest IH]; cbn.
  - intros [<-|[]]. now left.
  - destruct (eqb k' (key x)); cbn; intros [<-|H]; auto.
    destruct (IH H); auto.
Qed.

Lemma add_to_group_grouped (x : A) (groups : list (K * list A)) :
  grouped key groups -> grouped key (add_to_group eqb key x groups).
Proof.
  unfold grouped.
  induction groups as [|[k rows] rest IH]; cbn; intros [Hnd Hall].
  - split; repeat constructor; cbn; [intros []|discriminate].
  - inversion Hnd as [|? ? Hk Hrest]; subst.
    inversion Hall as [|? ? [Hne Hrows] Hall']; subst. cbn in Hne, Hrows.
    destruct (eqb k (key x)) eqn:E; cbn.
    + apply eqb_eq in E. split; [exact Hnd|].
      constructor; [|exact Hall']. cbn. split.
      * destruct rows; discriminate.
      * apply Forall_app. split; [exact Hrows|]. now repeat constructor.
    + destruct (IH (conj Hrest Hall')) as [Hnd' Hall''].
      split.
      * constructor; [|exact Hnd'].
        intros Hin. apply add_to_group_keys in Hin as [->|Hin]; [|tauto].
        assert (eqb (key x) (key x) = true) by now apply eqb_eq.
        congruence.
      * constructor; [|exact Hall'']. now split.
Qed.

Lemma group_by_grouped (l : list A) : grouped key (group_by eqb key l).
Proof.
  unfold group_by.
  assert (H : forall acc,
    grouped key acc ->
    grouped key (fold_left (fun groups x => add_to_group eqb key x groups)
                       l acc)).
  { induction l as [|x l IH]; cbn; intros acc Hacc; [exact Hacc|].
    apply IH. now apply add_to_group_grouped. }
  apply H. split; constructor.
Qed.

Lemma add_to_group_rows (x : A) (groups : list (K * list A)) :
  Permutation (List.concat (map snd (add_to_group eqb key x groups)))
              (x :: List.concat (map snd groups)).
Proof.
  induction groups as [|[k rows] rest IH]; cbn; [reflexivity|].
  destruct (eqb k (key x)); cbn.
  - rewrite <- app_assoc. cbn.
    symmetry. apply Permutation_middle.
  - rewrite IH. symmetry. apply Permutation_middle.
Qed.

Lemma group_by_rows (l : list A) :
  Permutation (List.concat (map snd (group_by eqb key l))) l.
Proof.
  unfold group_by.
  assert (H : forall acc,
    Permutation
      (List.concat (map snd (fold_left
                          (fun groups x => add_to_group eqb key x groups)
                          l acc)))
      (List.concat (map snd acc) ++ l)).
  { induction l as [|x l IH]; cbn; intros acc.
    - now rewrite app_nil_r.
    - rewrite IH, add_to_group_rows. cbn. apply Permutation_middle. }
  rewrite H. reflexivity.
Qed.

(** Rows with pairwise distinct keys are grouped one by one. *)
Lemma fold_groups_single (l : list A) (acc : list (K * list A)) :
  NoDup (map fst acc ++ map key l) ->
  fold_left (fun groups x => add_to_group eqb key x groups) l acc =
  acc ++ map (fun x => (key x, [x])) l.
Proof.
  revert acc. induction l as [|x l IH]; cbn; intros acc Hnd.
  - now rewrite app_nil_r.
  - assert (Hadd : add_to_group eqb key x acc = acc ++ [(key x, [x])]).
    { apply NoDup_remove_2 in Hnd.
      assert (Hx : ~ In (key x) (map fst acc))
        by (intros H; apply Hnd; apply in_or_app; now left).
      clear Hnd IH. induction acc as [|[k rows] rest IH]; cbn; [reflexivity|].
      destruct (eqb k (key x)) eqn:E.
      - apply eqb_eq in E. exfalso. apply Hx. now left.
      - rewrite IH; [reflexivity|]. intros H. apply Hx. now right. }
    rewrite Hadd, IH.
    + now rewrite <- app_assoc.
    + rewrite map_app. cbn. rewrite <- app_assoc. cbn.
      apply NoDup_remove_1 in Hnd as Hrest.
      apply NoDup_remove_2 in Hnd as Hx.
      apply Permutation_NoDup
        with (l := key x :: map fst acc ++ map key l).
      * apply Permutation_middle.
      * now constructor.
Qed.

Lemma group_by_single (l : list A) :
  NoDup (map key l) ->
  group_by eqb key l = map (fun x => (key x, [x])) l.
Proof. intros H. unfold group_by. now rewrite fold_groups_single. Qed.

End Grouping.

(** ** Statistics *)

Lemma total_perm (l l' : list Z) : Permutation l l' -> total l = total l'.
Proof. induction 1; cbn; lia. Qed.

Lemma user_key_eqb_eq (x y : Z * string * option string) :
  user_key_eqb x y = true <-> x = y.
Proof.
  destruct x as [[i n] g], y as [[i' n'] g']. unfold user_key_eqb.
  rewrite !andb_true_iff, Z.eqb_eq, String.eqb_eq.
  assert (Hg : option_eqb g g' = true <-> g = g').
  { destruct g, g'; cbn; try rewrite String.eqb_eq;
      split; intros H; try discriminate; congruence. }
  rewrite Hg. split; [intros [[-> ->] ->]; reflexivity|].
  intros [= -> -> ->]. auto.
Qed.

Section ActivityStatsFacts.

Variable collate : string -> string -> comparison.

(** What [get_activity_stats] answers. *)
Lemma get_activity_stats_run (activity_id : Z) (d : db) :
  let cq := match find (fun r => a_id r =? activity_id) (activities d) with
            | Some r => a_current_question_id r
            | None => None
            end in
  run_read (get_activity_stats collate activity_id) d =
  mk_read_outcome d []
    (Ok (mk_read_response 200
           (b_stats
              (Z.of_nat (List.length (users_of activity_id d)))
              (Z.of_nat (List.length
                           (filter (fun a => id_is (ans_activity_id a)
                                                   activity_id)
                                   (answers d))))
              cq
              (if truthy_int cq
               then user_stats_of collate cq activity_id d else [])
              (if truthy_int cq
               then group_stats_of collate cq activity_id d else [])))).
Proof.
  intros cq. subst cq.
  unfold run_read, get_activity_stats, jsonify_read. step_run.
  destruct (truthy_int _); step_run; reflexivity.
Qed.

(** The user rows of one activity in a database whose user ids are
    distinct. *)
Lemma users_of_keys (activity_id : Z) (d : db) :
  NoDup (map u_id (users d)) ->
  NoDup (map u_id (users_of activity_id d)) /\
  NoDup (map user_key (users_of activity_id d)).
Proof.
  intros Hnd.
  assert (H : NoDup (map u_id (users_of activity_id d)))
    by now apply NoDup_map_filter.
  split; [exact H|].
  apply (NoDup_map_inv (fun k => fst (fst k))).
  rewrite map_map. exact H.
Qed.

Lemma user_stats_rows (cq : option Z) (activity_id : Z) (d : db) :
  NoDup (map u_id (users d)) ->
  Permutation
    (user_stats_of collate cq activity_id d)
    (map (fun u => mk_user_stat
                     (u_id u) (u_name u) (u_group_name u)
                     (Z.of_nat (List.length
                                  (joined_answers cq activity_id d u))))
         (users_of activity_id d)).
Proof.
  intros Hnd. unfold user_stats_of. rewrite sort_by_perm.
  rewrite (group_by_single user_key_eqb user_key user_key_eqb_eq)
    by now apply users_of_keys.
  rewrite map_map.
  erewrite map_ext; [reflexivity|].
  intros u. cbn. unfold count_joined. cbn. now rewrite Z.add_0_r.
Qed.

Lemma none_matches {A B} (m : A -> B -> bool) (a : B) (us : list A) :
  (forall v, In v us -> m v a = false) ->
  total (map (fun v => if m v a then 1 else 0) us) = 0.
Proof.
  induction us as [|v us IH]; cbn [map total]; intros H; [reflexivity|].
  rewrite (H v) by now left. rewrite IH; [reflexivity|].
  intros w Hw. apply H. now right.
Qed.

(** Answers joined to users with distinct ids are counted once. *)
Lemma matched_once (m : user_row -> answer_row -> bool)
      (p : answer_row -> bool) (us : list user_row) (l : list answer_row) :
  (forall u a, m u a = true ->
               p a = true /\ id_is (ans_user_id a) (u_id u) = true) ->
  NoDup (map u_id us) ->
  total (map (fun u => Z.of_nat (List.length (filter (m u) l))) us) <=
  Z.of_nat (List.length (filter p l)).
Proof.
  intros Hm Hnd.
  induction l as [|a l IH].
  - cbn [filter List.length]. clear.
    induction us as [|u us IHu]; cbn [map total]; lia.
  - assert (Hsplit :
      total (map (fun u => Z.of_nat (List.length (filter (m u) (a :: l))))
                 us) =
      total (map (fun u => if m u a then 1 else 0) us) +
      total (map (fun u => Z.of_nat (List.length (filter (m u) l))) us)).
    { clear. induction us as [|u us IHu]; [reflexivity|].
      cbn [map total]. rewrite IHu. cbn [filter].
      destruct (m u a); cbn [List.length]; lia. }
    assert (Hmatch :
      total (map (fun u => if m u a then 1 else 0) us) <=
      if p a then 1 else 0).
    { clear IH Hsplit.
      induction us as [|u us IHu]; cbn [map total].
      - destruct (p a); lia.
      - inversion Hnd as [|? ? Hu Hus]; subst. specialize (IHu Hus).
        destruct (m u a) eqn:Eu; [|exact IHu].
        destruct (Hm u a Eu) as [Hp Hid]. rewrite Hp.
        assert (Hnone : total (map (fun v => if m v a then 1 else 0) us) = 0).
        { apply none_matches. intros v Hv.
          destruct (m v a) eqn:Ev; [|reflexivity].
          exfalso. apply Hu.
          destruct (Hm v a Ev) as [_ Hid'].
          unfold id_is in Hid, Hid'.
          destruct (ans_user_id a); [|discriminate].
          apply Z.eqb_eq in Hid, Hid'.
          apply in_map_iff. exists v. split; [congruence|exact Hv]. }
        rewrite Hnone. lia. }
    rewrite Hsplit. cbn [filter].
    destruct (p a); cbn [List.length]; lia.
Qed.

Lemma joined_at_most_once (cq : option Z) (activity_id : Z) (d : db)
      (us : list user_row) :
  NoDup (map u_id us) ->
  count_joined cq activity_id d us <=
  Z.of_nat (List.length (filter (fun a => id_is (ans_activity_id a)
                                               activity_id)
                                (answers d))).
Proof.
  intros Hnd.
  apply (matched_once
           (fun u a => id_is (ans_user_id a) (u_id u) &&
                       col_is (ans_question_id a) cq &&
                       id_is (ans_activity_id a) activity_id)
           (fun a => id_is (ans_activity_id a) activity_id)
           us (answers d)); [|exact Hnd].
  intros u a H. apply andb_prop in H as [H Ha].
  apply andb_prop in H as [Hu _]. now split.
Qed.

Lemma filter_none {A} (p : A -> bool) (l : list A) :
  (forall x, In x l -> p x = false) -> filter p l = [].
Proof.
  induction l as [|x l IH]; cbn; intros H; [reflexivity|].
  rewrite (H x) by now left. apply IH. intros y Hy. apply H. now right.
Qed.

Lemma unknown_activity_has_no_rows (activity_id : Z) (d : db) :
  foreign_keys d -> has_activity d activity_id = false ->
  users_of activity_id d = [] /\
  filter (fun a => id_is (ans_activity_id a) activity_id) (answers d) = [].
Proof.
  intros [Hu Ha] Hno. unfold users_of.
  rewrite Forall_forall in Hu, Ha.
  split; apply filter_none.
  - intros u Hin. specialize (Hu u Hin).
    destruct (u_activity_id u) as [id|]; cbn in *; [|reflexivity].
    destruct (Z.eqb_spec id activity_id) as [->|]; [congruence|reflexivity].
  - intros a Hin. destruct (Ha a Hin) as [H _].
    destruct (ans_activity_id a) as [id|]; cbn in *; [|reflexivity].
    destruct (Z.eqb_spec id activity_id) as [->|]; [congruence|reflexivity].
Qed.

Lemma find_unknown (activity_id : Z) (d : db) :
  has_activity d activity_id = false ->
  find (fun r => a_id r =? activity_id) (activities d) = None.
Proof.
  unfold has_activity. intros H.
  induction (activities d) as [|r l IH]; cbn in *; [reflexivity|].
  apply orb_false_iff in H as [Hr Hl]. rewrite Hr. now apply IH.
Qed.

(** X9. With a current question set, [get_activity_stats] gives
    [user_stats] exactly one row for every participant of the activity,
    holding the number of that participant's answers to the current
    question in this activity; there are [user_count] rows, and their
    counts add up to at most [answer_count]. *)
Theorem user_stats_one_row_per_user (history : list (Z * request))
        (activity_id : Z) (r : activity_row) :
  let d := replay history empty_db in
  let cq := a_current_question_id r in
  find (fun r => a_id r =? activity_id) (activities d) = Some r ->
  truthy_int cq = true ->
  exists user_count answer_count user_stats group_stats,
    run_read (get_activity_stats collate activity_id) d =
      mk_read_outcome d []
        (Ok (mk_read_response 200
               (b_stats user_count answer_count cq user_stats
                        group_stats))) /\
    Permutation user_stats
      (map (fun u => mk_user_stat
                       (u_id u) (u_name u) (u_group_name u)
                       (Z.of_nat (List.length
                                    (joined_answers cq activity_id d u))))
           (users_of activity_id d)) /\
    Z.of_nat (List.length user_stats) = user_count /\
    total (map us_answer_count user_stats) <= answer_count.
Proof.
  intros d cq Hfind Hcq.
  destruct (reachable_keys history) as [_ (_ & _ & [Hnd _] & _)].
  fold d in Hnd.
  pose proof (get_activity_stats_run activity_id d) as Hrun.
  cbn zeta in Hrun. rewrite Hfind in Hrun. fold cq in Hrun.
  rewrite Hcq in Hrun.
  pose proof (user_stats_rows cq activity_id d Hnd) as Hperm.
  do 4 eexists. split; [exact Hrun|]. split; [exact Hperm|]. split.
  - rewrite (Permutation_length Hperm). now rewrite length_map.
  - rewrite (total_perm _ _ (Permutation_map us_answer_count Hperm)).
    rewrite map_map. cbn [us_answer_count].
    apply (joined_at_most_once cq activity_id d (users_of activity_id d)).
    now apply users_of_keys.
Qed.

Lemma count_distinct_nodup (l : list Z) :
  NoDup l -> count_distinct l = Z.of_nat (List.length l).
Proof. intros H. unfold count_distinct. now rewrite nodup_fixed_point. Qed.

Lemma count_distinct_positive (l : list Z) :
  l <> [] -> 1 <= count_distinct l.
Proof.
  intros H. unfold count_distinct.
  destruct l as [|x l]; [congruence|].
  destruct (nodup Z.eq_dec (x :: l)) as [|y l'] eqn:E.
  - exfalso. assert (Hin : In x (nodup Z.eq_dec (x :: l)))
      by (apply nodup_In; now left).
    rewrite E in Hin. exact Hin.
  - cbn [List.length]. lia.
Qed.

Lemma NoDup_concat_part {A B} (key : A -> B) (rows : list A)
      (groups : list (list A)) :
  In rows groups -> NoDup (map key (List.concat groups)) ->
  NoDup (map key rows).
Proof.
  induction groups as [|g groups IH]; cbn; [intros []|].
  rewrite map_app. intros [->|Hin] Hnd.
  - now apply NoDup_app_remove_r in Hnd.
  - apply IH; [exact Hin|]. now apply NoDup_app_remove_l in Hnd.
Qed.

(** X10. With a current question set, the rows of [group_stats] split the
    participants and their answers to the current question between the
    groups: group names are not repeated (participants without a group
    count for the group called 未分組), every group has at
    least one member, so its average is the quotient rounded to two
    decimals, the member counts add up to [user_count] and the answer
    totals to the sum of the [user_stats] counts. *)
Theorem group_stats_split_the_users (history : list (Z * request))
        (activity_id : Z) (r : activity_row) :
  let d := replay history empty_db in
  let cq := a_current_question_id r in
  find (fun r => a_id r =? activity_id) (activities d) = Some r ->
  truthy_int cq = true ->
  exists user_count answer_count user_stats group_stats,
    run_read (get_activity_stats collate activity_id) d =
      mk_read_outcome d []
        (Ok (mk_read_response 200
               (b_stats user_count answer_count cq user_stats
                        group_stats))) /\
    NoDup (map gs_group_name group_stats) /\
    Forall (fun g => 1 <= gs_member_count g /\
                     gs_avg_answers_per_person g =
                       round_2 (gs_total_answers g) (gs_member_count g))
           group_stats /\
    total (map gs_member_count group_stats) = user_count /\
    total (map gs_total_answers group_stats) =
      total (map us_answer_count user_stats).
Proof.
  intros d cq Hfind Hcq.
  destruct (reachable_keys history) as [_ (_ & _ & [Hnd _] & _)].
  fold d in Hnd.
  pose proof (get_activity_stats_run activity_id d) as Hrun.
  cbn zeta in Hrun. rewrite Hfind in Hrun. fold cq in Hrun.
  rewrite Hcq in Hrun.
  pose proof (user_stats_rows cq activity_id d Hnd) as Hperm.
  destruct (users_of_keys activity_id d Hnd) as [Hids _].
  set (us := users_of activity_id d) in *.
  set (groups := group_by String.eqb group_key us).
  destruct (group_by_grouped String.eqb group_key String.eqb_eq us)
    as [Hnames Hgroups]. fold groups in Hnames, Hgroups.
  pose proof (group_by_rows String.eqb group_key us) as Hrows.
  fold groups in Hrows.
  set (row := fun '(k, rows) =>
         let member_count := count_distinct (map u_id rows) in
         let total_answers := count_joined cq activity_id d rows in
         mk_group_stat k member_count total_answers
           (if 0 <? member_count
            then round_2 total_answers member_count else 0)).
  assert (Hstats : Permutation (group_stats_of collate cq activity_id d)
                               (map row groups))
    by apply sort_by_perm.
  assert (Hpart : forall g, In g groups -> NoDup (map u_id (snd g))).
  { intros g Hg. apply (NoDup_concat_part u_id (snd g) (map snd groups)).
    - now apply in_map.
    - apply (Permutation_NoDup (l := map u_id us)); [|exact Hids].
      symmetry. now apply Permutation_map. }
  do 4 eexists. split; [exact Hrun|]. split; [|split; [|split]].
  - apply (Permutation_NoDup
             (l := map gs_group_name (map row groups))).
    + symmetry. now apply Permutation_map.
    + rewrite map_map.
      erewrite map_ext; [exact Hnames|]. now intros [k rows].
  - rewrite Hstats.
    apply Forall_map. apply Forall_forall. intros [k rows] Hg.
    rewrite Forall_forall in Hgroups.
    destruct (Hgroups _ Hg) as [Hne _]. cbn in Hne.
    assert (Hpos : 1 <= count_distinct (map u_id rows)).
    { apply count_distinct_positive. destruct rows; [congruence|discriminate]. }
    cbn. split; [exact Hpos|].
    destruct (0 <? count_distinct (map u_id rows)) eqn:E; [reflexivity|].
    apply Z.ltb_ge in E. lia.
  - rewrite (total_perm _ _ (Permutation_map gs_member_count Hstats)).
    rewrite map_map.
    transitivity (over_groups (fun _ : user_row => 1) groups).
    + unfold over_groups. f_equal. apply map_ext_in.
      intros [k rows] Hg. cbn.
      rewrite count_distinct_nodup by exact (Hpart _ Hg).
      rewrite length_map. clear.
      induction rows as [|x rows IH]; [reflexivity|].
      cbn [List.length map total]. lia.
    + unfold groups. rewrite group_by_total. clear.
      induction us as [|x us IH]; [reflexivity|].
      cbn [List.length map total]. lia.
  - rewrite (total_perm _ _ (Permutation_map gs_total_answers Hstats)).
    rewrite (total_perm _ _ (Permutation_map us_answer_count Hperm)).
    rewrite !map_map. cbn [us_answer_count].
    transitivity (over_groups
                    (fun u => Z.of_nat (List.length
                                (joined_answers cq activity_id d u)))
                    groups).
    + unfold over_groups. f_equal. apply map_ext. now intros [k rows].
    + unfold groups. now rewrite group_by_total.
Qed.

(** X11. [get_activity_stats] never answers 404.  For an id that names no
    activity it answers 200 with both counts 0, no current question and
    empty lists; for an activity whose current question is null or 0 it
    reports the counts of users and answers and leaves both lists
    empty. *)
Theorem stats_without_current_question (history : list (Z * request))
        (activity_id : Z) :
  let d := replay history empty_db in
  (has_activity d activity_id = false ->
   run_read (get_activity_stats collate activity_id) d =
     mk_read_outcome d []
       (Ok (mk_read_response 200 (b_stats 0 0 None [] [])))) /\
  (forall r,
      find (fun r => a_id r =? activity_id) (activities d) = Some r ->
      truthy_int (a_current_question_id r) = false ->
      run_read (get_activity_stats collate activity_id) d =
        mk_read_outcome d []
          (Ok (mk_read_response 200
                 (b_stats
                    (Z.of_nat (List.length (users_of activity_id d)))
                    (Z.of_nat (List.length
                                 (filter (fun a => id_is (ans_activity_id a)
                                                         activity_id)
                                         (answers d))))
                    (a_current_question_id r) [] [])))).
Proof.
  intros d.
  pose proof (get_activity_stats_run activity_id d) as Hrun.
  cbn zeta in Hrun.
  split.
  - intros Hno.
    assert (Hfk : foreign_keys d).
    { apply (replay_invariant foreign_keys);
        [exact writes_references|split; constructor]. }
    destruct (unknown_activity_has_no_rows activity_id d Hfk Hno)
      as [Hu Ha].
    rewrite (find_unknown activity_id d Hno), Hu, Ha in Hrun.
    exact Hrun.
  - intros r Hfind Hcq. rewrite Hfind, Hcq in Hrun. exact Hrun.
Qed.

End ActivityStatsFacts.

Lemma user_stats_one_row_per_user_witness :
  exists user_stats group_stats,
    read_result (run_read (get_activity_stats no_collation 1)
                          (replay polling_history empty_db)) =
      Ok (mk_read_response 200
            (b_stats 2 2 (Some 1) user_stats group_stats)) /\
    total (map us_answer_count user_stats) <= 2.
Proof.
  destruct (user_stats_one_row_per_user
              no_collation polling_history 1
              (mk_activity 1 "demo" (Some "preparing") (Some 1) None None
                           (Some "none") None None (Some 10))
              eq_refl eq_refl)
    as (uc & ac & us & gs & Hrun & _ & _ & Hle).
  assert (E : uc = 2 /\ ac = 2).
  { vm_compute in Hrun. injection Hrun as -> -> _ _. now split. }
  destruct E as [-> ->].
  exists us, gs. split; [now rewrite Hrun|exact Hle].
Defined.

Lemma group_stats_split_the_users_witness :
  exists user_stats group_stats,
    read_result (run_read (get_activity_stats no_collation 1)
                          (replay polling_history empty_db)) =
      Ok (mk_read_response 200
            (b_stats 2 2 (Some 1) user_stats group_stats)) /\
    total (map gs_member_count group_stats) = 2.
Proof.
  destruct (group_stats_split_the_users
              no_collation polling_history 1
              (mk_activity 1 "demo" (Some "preparing") (Some 1) None None
                           (Some "none") None None (Some 10))
              eq_refl eq_refl)
    as (uc & ac & us & gs & Hrun & _ & _ & Hsum & _).
  assert (E : uc = 2 /\ ac = 2).
  { vm_compute in Hrun. injection Hrun as -> -> _ _. now split. }
  destruct E as [-> ->].
  exists us, gs. split; [now rewrite Hrun|exact Hsum].
Defined.

End ReadsFacts.

(* ================================================================== *)
(** * What is written can be read back *)
(* ================================================================== *)

Module RoundTripFacts.
Import App AppFacts Integrity IntegrityFacts Reads ReadsFacts.

Lemma replay_app (h1 h2 : list (Z * request)) (d : db) :
  replay (h1 ++ h2) d = replay h2 (replay h1 d).
Proof.
  revert d. induction h1 as [|[now r] h1 IH]; cbn; intros d; [reflexivity|].
  apply IH.
Qed.

(** The database after one more request is reachable as well. *)
Lemma served_keys (history : list (Z * request)) (now : Z) (r : request) :
  primary_keys (out_db (serve now r (replay history empty_db))).
Proof.
  destruct (reachable_keys (history ++ [(now, r)])) as [_ H].
  now rewrite replay_app in H.
Qed.

Lemma find_known {A} (key : A -> Z) (l : list A) (k : Z) :
  existsb (fun x => key x =? k) l = true ->
  exists x, find (fun x => key x =? k) l = Some x /\ key x = k /\ In x l.
Proof.
  induction l as [|y l IH]; cbn; [discriminate|].
  destruct (Z.eqb_spec (key y) k) as [E|E]; cbn.
  - intros _. exists y. auto.
  - intros H. destruct (IH H) as (x & Hf & Hk & Hin). exists x. auto.
Qed.

Lemma only_row_with_key {A} (key : A -> Z) (l : list A) (x y : A) :
  NoDup (map key l) -> In x l -> In y l -> key x = key y -> x = y.
Proof.
  induction l as [|z l IH]; cbn; [intros _ []|].
  intros Hnd Hx Hy E. inversion Hnd as [|? ? Hz Hl]; subst.
  destruct Hx as [<-|Hx], Hy as [<-|Hy]; auto.
  - exfalso. apply Hz. rewrite E. now apply in_map.
  - exfalso. apply Hz. rewrite <- E. now apply in_map.
Qed.

(** ** Questions *)

(** X12. A question that [create_question] answered 201 for can be read
    back: the table then holds exactly one row with the returned id, it
    carries the submitted type (one that fits its column of 20
    characters), content, options ([[]] when the body has none) and time
    limit, its answer limit is the submitted one turned into an integer
    (null for a missing, null, zero or empty one), and [get_questions]
    lists it. *)
Theorem created_question_is_listed (history : list (Z * request)) (now : Z)
        (data : question_body) (id : Z) :
  let d := replay history empty_db in
  let o := serve now (POST_questions data) d in
  (forall type, qb_type data = Val type -> utf8_length type <= 20) ->
  out_result o = Ok (mk_response 201 (b_id id)) ->
  exists type content answer_limit rows,
    let row := mk_question id type content (dumped_options (qb_options data))
                           (get (qb_time_limit data)) answer_limit
                           (Some now) in
    qb_type data = Val type /\ qb_content data = Val content /\
    (truthy_num (get (qb_answer_limit data)) = false ->
     answer_limit = None) /\
    (forall x, get (qb_answer_limit data) = Some x ->
               truthy_num (Some x) = true -> int x = answer_limit) /\
    read_result (run_read get_questions (out_db o)) =
      Ok (mk_read_response 200 (b_questions rows)) /\
    In row rows /\
    (forall q, In q rows -> q_id q = id -> q = row).
Proof.
  intros d o Hfits Hres.
  destruct (create_question_done now data d id Hres)
    as (type & content & answer_limit & Ht & Hc & Hq & _ & _ & Hn & Hs).
  fold o in Hq. rewrite (varchar_fits 20 type (Hfits type Ht)) in Hq.
  pose proof (get_questions_run (out_db o)) as Hrun.
  pose proof (sort_by_perm (newest_first q_created_at)
                           (questions (out_db o))) as Hperm.
  eexists type, content, answer_limit, _. cbn zeta.
  rewrite Hrun. cbn [read_result].
  repeat split; try assumption; try reflexivity.
  - apply (Permutation_in _ (Permutation_sym Hperm)).
    rewrite Hq. apply in_or_app. right. now left.
  - intros q Hin Hid.
    apply (only_row_with_key q_id (questions (out_db o))).
    + destruct (served_keys history now (POST_questions data))
        as ([Hnd _] & _). exact Hnd.
    + now apply (Permutation_in _ Hperm).
    + rewrite Hq. apply in_or_app. right. now left.
    + exact Hid.
Qed.

Lemma created_question_is_listed_witness :
  exists rows,
    read_result
      (run_read get_questions
         (out_db (serve 20 (POST_questions sample_question) empty_db))) =
      Ok (mk_read_response 200 (b_questions rows)) /\
    In (mk_question 1 "text" "Why?" (Some (JArr [])) None (Some 2) (Some 20))
       rows.
Proof.
  destruct (created_question_is_listed [] 20 sample_question 1)
    as (type & content & answer_limit & rows & Ht & Hc & _ & Hl & Hrun &
        Hin & _).
  { intros type [= <-]. vm_compute. discriminate. }
  { reflexivity. }
  injection Ht as <-. injection Hc as <-.
  specialize (Hl (IsInt 2) eq_refl eq_refl). cbn in Hl. subst answer_limit.
  exists rows. split; [exact Hrun|exact Hin].
Defined.

(** ** Participants *)

(** What a successful [join_activity] has done. *)
Lemma join_activity_done (now : Z) (data : join_body) (d : db) (id : Z) :
  out_result (serve now (POST_users data) d) =
    Ok (mk_response 201 (b_id id)) ->
  exists name,
    jb_name data = Val name /\
    refers_to (has_activity d) (get (jb_activity_id data)) /\
    id = users_id_seq d /\
    users (out_db (serve now (POST_users data) d)) =
      users d ++ [mk_user id (get (jb_activity_id data)) (varchar 100 name)
                          (option_map (varchar 100)
                                      (get (jb_group_name data)))
                          (Some now)] /\
    activities (out_db (serve now (POST_users data) d)) = activities d /\
    answers (out_db (serve now (POST_users data) d)) = answers d.
Proof.
  run_handler; cbn [out_result]; intros H; try discriminate H;
    injection H as <-;
    match goal with
    | Hs : insert_user _ _ _ _ _ = Ok _ |- _ => stmt_inv Hs
    end;
    repeat match goal with
           | Hv : check_varchar _ _ _ = Ok _ |- _ =>
               apply check_varchar_stored in Hv; cbn [option_map] in Hv;
               subst
           end;
    try match goal with
        | Hn : check_not_null _ None = Ok _ |- _ => discriminate Hn
        end;
    repeat match goal with
           | Hn : check_not_null _ (Some _) = Ok _ |- _ =>
               injection Hn as <-
           end;
    cbn [users activities answers get refers_to];
    eexists; repeat split; try exact I;
    match goal with
    | Hr : check_references _ _ (Some _) = Ok _ |- _ =>
        unfold check_references in Hr;
        destruct (has_activity _ _); [reflexivity|discriminate Hr]
    end.
Qed.

(** X13. A participant [join_activity] answered 201 for, with a name and a
    group that fit their columns of 100 characters, is listed by
    [get_activity] for the activity joined: its [users] are those listed
    before and the new user with the returned id, the submitted name and
    group (null when the body has none) and the activity's id. *)
Theorem joined_user_is_listed (history : list (Z * request)) (now : Z)
        (activity_id : Z) (name : string) (group_name : field string)
        (id : Z) :
  let d := replay history empty_db in
  let o := serve now (POST_users
                        (mk_join_body (Val activity_id) (Val name)
                                      group_name)) d in
  utf8_length name <= 100 ->
  (forall g, group_name = Val g -> utf8_length g <= 100) ->
  out_result o = Ok (mk_response 201 (b_id id)) ->
  exists row us ans,
    a_id row = activity_id /\
    out_result (run (get_activity activity_id) (out_db o)) =
      Ok (mk_response 200 (b_activity row us ans)) /\
    Permutation us
      (mk_user id (Some activity_id) name (get group_name) (Some now) ::
       users_of activity_id d).
Proof.
  intros d o Hname Hgroup Hres.
  destruct (join_activity_done now _ d id Hres)
    as (name' & Hn & Href & _ & Hu & Ha & _).
  cbn [jb_name jb_activity_id jb_group_name get refers_to] in *.
  injection Hn as <-. fold o in Hu, Ha.
  rewrite (varchar_fits 100 name Hname) in Hu.
  assert (Hg : option_map (varchar 100) (get group_name) = get group_name).
  { destruct group_name as [| |g]; try reflexivity.
    cbn [get option_map]. now rewrite (varchar_fits 100 g (Hgroup g eq_refl)). }
  rewrite Hg in Hu.
  destruct (find_known a_id (activities d) activity_id Href)
    as (row & Hfind & Hid & _).
  exists row. do 2 eexists. split; [exact Hid|].
  split.
  - unfold run, get_activity. step_run. rewrite Ha, Hfind. step_run.
    reflexivity.
  - rewrite Hu. fold (users_of activity_id d). rewrite filter_app.
    cbn [filter u_activity_id id_is]. rewrite Z.eqb_refl.
    symmetry. apply Permutation_cons_append.
Qed.

Lemma joined_user_is_listed_witness :
  exists row us ans,
    out_result
      (run (get_activity 1)
           (out_db (serve 30 (POST_users
                                (mk_join_body (Val 1) (Val "ann") Null))
                          (replay started_history empty_db)))) =
    Ok (mk_response 200 (b_activity row us ans)) /\
    Permutation us [mk_user 1 (Some 1) "ann" None (Some 30)].
Proof.
  destruct (joined_user_is_listed started_history 30 1 "ann" Null 1)
    as (row & us & ans & _ & H & Hus).
  - vm_compute. discriminate.
  - discriminate.
  - reflexivity.
  - exists row, us, ans. split; [exact H|exact Hus].
Defined.

(** ** Answers *)

(** What a successful [submit_answer] has done. *)
Lemma submit_answer_done (now : Z) (data : answer_body) (d : db) (id : Z) :
  out_result (serve now (POST_answers data) d) =
    Ok (mk_response 201 (b_id id)) ->
  refers_to (has_activity d) (get (ab_activity_id data)) /\
  refers_to (has_user d) (get (ab_user_id data)) /\
  id = answers_id_seq d /\
  answers (out_db (serve now (POST_answers data) d)) =
    answers d ++ [mk_answer id (get (ab_activity_id data))
                            (get (ab_question_id data))
                            (get (ab_user_id data))
                            (get (ab_answer_text data)) (Some now)] /\
  activities (out_db (serve now (POST_answers data) d)) = activities d /\
  users (out_db (serve now (POST_answers data) d)) = users d.
Proof.
  run_handler; cbn; intros H; try discriminate H;
    injection H as <-;
    match goal with
    | Hs : insert_answer _ _ _ _ _ _ = Ok _ |- _ => stmt_inv Hs
    end;
    cbn [users activities answers];
    repeat split; try exact I;
    match goal with
    | |- ?has ?d ?x = true =>
        match goal with
        | Hr : check_references _ (has d) (Some x) = Ok _ |- _ =>
            unfold check_references in Hr;
            destruct (has d x); [reflexivity|discriminate Hr]
        end
    end.
Qed.

(** X14. An answer [submit_answer] answered 201 for is stored once: it
    counts as one more answer of its user to its question, and
    [get_activity] lists it for its activity together with the name and
    group of the user who gave it. *)
Theorem submitted_answer_is_listed (history : list (Z * request)) (now : Z)
        (activity_id question_id user_id : Z) (text : string) (id : Z) :
  let d := replay history empty_db in
  let data := mk_answer_body (Val activity_id) (Val question_id)
                             (Val user_id) (Val text) in
  let o := serve now (POST_answers data) d in
  out_result o = Ok (mk_response 201 (b_id id)) ->
  count_answers (Some question_id) (Some user_id) (out_db o) =
    count_answers (Some question_id) (Some user_id) d + 1 /\
  exists u row us ans,
    In u (users d) /\ u_id u = user_id /\
    out_result (run (get_activity activity_id) (out_db o)) =
      Ok (mk_response 200 (b_activity row us ans)) /\
    In (mk_answer_with_user
          (mk_answer id (Some activity_id) (Some question_id) (Some user_id)
                     (Some text) (Some now))
          (u_name u) (u_group_name u))
       ans.
Proof.
  intros d data o Hres.
  destruct (submit_answer_done now data d id Hres)
    as (Hact & Husr & _ & Hans & Ha & Hu).
  subst data. cbn [ab_activity_id ab_question_id ab_user_id ab_answer_text
                   get refers_to] in *.
  fold o in Hans, Ha, Hu.
  split.
  - unfold count_answers. rewrite Hans, filter_app, length_app.
    cbn [filter ans_question_id ans_user_id col_is].
    rewrite !Z.eqb_refl. cbn [andb List.length]. lia.
  - destruct (find_known a_id (activities d) activity_id Hact)
      as (row & Hfind & _ & _).
    destruct (find_known u_id (users d) user_id Husr)
      as (u & _ & Huid & Hin).
    exists u, row. do 2 eexists.
    split; [exact Hin|]. split; [exact Huid|].
    split.
    + unfold run, get_activity. step_run. rewrite Ha, Hfind. step_run.
      reflexivity.
    + apply (Permutation_in _ (Permutation_sym (order_by_perm _))).
      apply in_join_answers_users.
      eexists _, u. rewrite Hans, Hu.
      split; [apply in_or_app; right; left; reflexivity|].
      split; [exact Hin|]. rewrite Huid. now repeat split.
Qed.

Lemma submitted_answer_is_listed_witness :
  let d := replay zero_limit_history empty_db in
  let o := serve 40 (POST_answers first_answer) d in
  count_answers (Some 1) (Some 1) (out_db o) = 1.
Proof.
  intros d o.
  destruct (submitted_answer_is_listed zero_limit_history 40 1 1 1
                                       "because" 1 eq_refl) as [H _].
  exact H.
Defined.

(** ** Deleting a question *)

(** X15. [delete_question] fails with a foreign-key violation, storing and
    announcing nothing, exactly when an answer to the question is stored.
    Otherwise it answers 200 and announces [question_deleted], also for an
    id that names no question; afterwards no question has the id, and the
    other questions, the users and the answers are as before. *)
Theorem delete_question_spec (history : list (Z * request)) (now : Z)
        (question_id : Z) :
  let d := replay history empty_db in
  let o := serve now (DELETE_questions question_id) d in
  ((exists a, In a (answers d) /\ ans_question_id a = Some question_id) ->
   out_result o = Raise (ForeignKeyViolation "question_id") /\
   out_db o = d /\ out_trace o = []) /\
  ((forall a, In a (answers d) -> ans_question_id a <> Some question_id) ->
   out_result o = Ok (mk_response 200 b_success) /\
   out_trace o = [Commit; Emit (question_deleted question_id)] /\
   questions (out_db o) =
     filter (fun q => negb (q_id q =? question_id)) (questions d) /\
   has_question (out_db o) question_id = false /\
   activities (out_db o) = activities d /\
   users (out_db o) = users d /\
   answers (out_db o) = answers d).
Proof.
  intros d o. subst o.
  unfold serve, run, handler, delete_question. step_run.
  unfold delete_question_stmt.
  split.
  - intros (a & Hin & Hq).
    assert (Hfk : foreign_keys d).
    { apply (replay_invariant foreign_keys);
        [exact writes_references|split; constructor]. }
    destruct Hfk as [_ Hfk]. rewrite Forall_forall in Hfk.
    destruct (Hfk a Hin) as (_ & Href & _).
    rewrite Hq in Href. cbn in Href. rewrite Href.
    assert (Hex : existsb (fun a => id_is (ans_question_id a) question_id)
                          (answers d) = true).
    { apply existsb_exists. exists a. split; [exact Hin|].
      rewrite Hq. cbn. apply Z.eqb_refl. }
    rewrite Hex. cbn [andb]. step_run. now repeat split.
  - intros Hnone.
    assert (Hex : existsb (fun a => id_is (ans_question_id a) question_id)
                          (answers d) = false).
    { destruct (existsb _ _) eqn:E; [|reflexivity].
      apply existsb_exists in E as (a & Hin & Hid).
      exfalso. apply (Hnone a Hin).
      unfold id_is in Hid. destruct (ans_question_id a); [|discriminate].
      apply Z.eqb_eq in Hid. now subst. }
    rewrite Hex, andb_false_r. step_run. cbn.
    repeat split.
    unfold has_question. cbn [questions].
    apply not_true_is_false. intros E.
    apply existsb_exists in E as (q & Hin & Hid).
    apply filter_In in Hin as [_ Hne]. now rewrite Hid in Hne.
Qed.

Lemma delete_question_spec_witness :
  out_result (serve 50 (DELETE_questions 1)
                    (replay one_answer_history empty_db)) =
    Raise (ForeignKeyViolation "question_id") /\
  out_result (serve 50 (DELETE_questions 7)
                    (replay one_answer_history empty_db)) =
    Ok (mk_response 200 b_success).
Proof.
  split.
  - destruct (delete_question_spec one_answer_history 50 1) as [H _].
    destruct H as (Hres & _); [|exact Hres].
    eexists. split; [vm_compute; left; reflexivity|reflexivity].
  - destruct (delete_question_spec one_answer_history 50 7) as [_ H].
    destruct H as (Hres & _); [|exact Hres].
    intros a Ha. vm_compute in Ha. destruct Ha as [<-|[]]. discriminate.
Defined.

(** ** Groups *)

Lemma find_appended {A} (key : A -> Z) (rows : list A) (next : Z) (x : A) :
  keys_in_sequence key rows next -> key x = next ->
  find (fun y => key y =? next) (rows ++ [x]) = Some x.
Proof.
  intros [_ Hall] Hx.
  induction rows as [|y rows IH]; cbn.
  - now rewrite Hx, Z.eqb_refl.
  - inversion Hall as [|? ? Hy Hrest]; subst.
    destruct (Z.eqb_spec (key y) (key x)) as [E|_]; [lia|].
    now apply IH.
Qed.

Section GroupsRoundTrip.

Variable json_loads : string -> option json.

(** X16. The groups an activity is created with are the groups
    [get_activity_groups] answers with.  Created with a non-empty list of
    names and no [groups_count], it has these names and their number as
    count; created with a [groups_count] that reads as the integer [n] and
    no names, it has the count [n] and the generated names
    [第1組] ... [第n組] (none for [n <= 0]). *)
Theorem created_groups_are_listed (history : list (Z * request)) (now : Z)
        (name : string) (id : Z) :
  let d := replay history empty_db in
  (forall g gs,
      let o := serve now (POST_activities
                            (mk_create_activity_body
                               (Val name) Absent (Val (g :: gs)))) d in
      out_result o = Ok (mk_response 201 (b_id id)) ->
      out_result (run (get_activity_groups json_loads id) (out_db o)) =
        Ok (mk_response 200
              (b_groups (g :: gs)
                        (Some (Z.of_nat (List.length (g :: gs))))))) /\
  (forall x n,
      let o := serve now (POST_activities
                            (mk_create_activity_body
                               (Val name) (Val x) Absent)) d in
      truthy_num (Some x) = true -> int x = Some n ->
      out_result o = Ok (mk_response 201 (b_id id)) ->
      out_result (run (get_activity_groups json_loads id) (out_db o)) =
        Ok (mk_response 200
              (b_groups (map default_group_name (py_range 1 (n + 1)))
                        (Some n)))).
Proof.
  intros d.
  destruct (reachable_keys history) as [_ (_ & Hkeys & _)]. fold d in Hkeys.
  split.
  - intros g gs o Hres. subst o. revert Hres.
    unfold serve, run, handler, create_activity. step_run.
    cbn [truthy_num get]. step_run.
    destruct (insert_activity _ _ _ _ _ d) as [[d' id']|e] eqn:Hins;
      [|destruct (refused_by_constraint e)];
      step_run; cbn [out_result]; intros Hres; try discriminate Hres.
    injection Hres as <-.
    stmt_inv Hins.
    match goal with
    | H : integer_param _ _ = Ok _ |- _ =>
        cbn [integer_param] in H; injection H as <-
    end.
    match goal with
    | H : check_varchar _ _ _ = Ok _ |- _ =>
        apply check_varchar_stored in H; cbn [option_map] in H; subst
    end.
    match goal with
    | H : check_not_null _ _ = Ok _ |- _ => injection H as <-
    end.
    unfold get_activity_groups. step_run. cbn [activities].
    rewrite (find_appended a_id (activities d) (activities_id_seq d) _ Hkeys)
      by reflexivity.
    step_run. reflexivity.
  - intros x n o Hx Hn Hres. subst o. revert Hres.
    unfold serve, run, handler, create_activity. step_run.
    cbn [get]. rewrite Hx. cbn [option_map]. rewrite Hn. step_run.
    destruct (insert_activity _ _ _ _ _ d) as [[d' id']|e] eqn:Hins;
      [|destruct (refused_by_constraint e)];
      step_run; cbn [out_result]; intros Hres; try discriminate Hres.
    injection Hres as <-.
    stmt_inv Hins.
    match goal with
    | H : integer_param _ _ = Ok _ |- _ =>
        cbn [integer_param] in H; injection H as <-
    end.
    match goal with
    | H : check_varchar _ _ _ = Ok _ |- _ =>
        apply check_varchar_stored in H; cbn [option_map] in H; subst
    end.
    match goal with
    | H : check_not_null _ _ = Ok _ |- _ => injection H as <-
    end.
    unfold get_activity_groups. step_run. cbn [activities].
    rewrite (find_appended a_id (activities d) (activities_id_seq d) _ Hkeys)
      by reflexivity.
    step_run.
    cbn [a_groups a_groups_count decoded_groups group_list truthy_int].
    destruct (Z.eqb_spec n 0) as [->|_]; reflexivity.
Qed.

End GroupsRoundTrip.

Lemma created_groups_are_listed_witness :
  out_result
    (run (get_activity_groups (fun _ => None) 1)
         (out_db (serve 10 (POST_activities
                              (mk_create_activity_body
                                 (Val "named") Absent
                                 (Val [JStr "A"; JStr "B"])))
                        empty_db))) =
  Ok (mk_response 200 (b_groups [JStr "A"; JStr "B"] (Some 2))).
Proof.
  destruct (created_groups_are_listed (fun _ => None) [] 10 "named" 1)
    as [H _].
  exact (H (JStr "A") [JStr "B"] eq_refl).
Defined.

End RoundTripFacts.

Module LoadRunFacts.
Import App AppFacts LoadTest LoadTestFacts Integrity Numerals LoadRun.

(** ** Random names *)

Lemma choice_in {A} (k : nat) (seq : list A) :
  seq <> [] -> exists x, choice k seq = Ok x /\ In x seq.
Proof.
  intros Hne. unfold choice.
  destruct seq as [|y l]; [congruence|].
  destruct (nth_error (y :: l) (k mod List.length (y :: l))) as [x|] eqn:E.
  - exists x. split; [reflexivity|]. now apply nth_error_In in E.
  - exfalso. apply nth_error_None in E.
    pose proof (Nat.mod_upper_bound k (List.length (y :: l))) as Hlt.
    cbn [List.length] in *. lia.
Qed.

Lemma collect_choices {A} (draws : nat -> nat) (seq : list A) (l : list nat) :
  seq <> [] ->
  exists xs,
    collect (map (fun i => choice (draws i) seq) l) = Ok xs /\
    List.length xs = List.length l /\
    Forall (fun x => In x seq) xs.
Proof.
  intros Hne. induction l as [|i l (xs & Hxs & Hlen & Hall)].
  - exists []. repeat split. constructor.
  - destruct (choice_in (draws i) seq Hne) as (x & Hx & Hin).
    exists (x :: xs). cbn [map collect]. rewrite Hx, Hxs. cbn.
    repeat split; [now rewrite Hlen|now constructor].
Qed.

Lemma utf8_length_ascii (chars : list ascii) :
  Forall (fun c => (nat_of_ascii c < 128)%nat) chars ->
  utf8_length (string_of_list_ascii chars) = Z.of_nat (List.length chars).
Proof.
  induction 1 as [|c chars Hc _ IH]; [reflexivity|].
  cbn [string_of_list_ascii utf8_length List.length]. rewrite IH.
  destruct (Z.leb_spec 128 (Z.of_nat (nat_of_ascii c))); [lia|].
  cbn [andb]. lia.
Qed.

Lemma letters_are_alphanumeric : forallb is_alphanumeric letters = true.
Proof. reflexivity. Qed.

Lemma alphanumeric_is_ascii (c : ascii) :
  is_alphanumeric c = true -> (nat_of_ascii c < 128)%nat.
Proof.
  unfold is_alphanumeric.
  rewrite !orb_true_iff, !andb_true_iff, !Nat.leb_le. lia.
Qed.

Lemma generate_random_name_returns (draws : nat -> nat) (length : Z) :
  exists name, generate_random_name draws length = Ok name.
Proof.
  unfold generate_random_name.
  destruct (collect_choices draws letters (seq 0 (Z.to_nat length)))
    as (chars & Hchars & _); [discriminate|].
  rewrite Hchars. now eexists.
Qed.

Lemma generate_random_group_name_returns (k : nat)
      (groups : option (list string)) :
  exists name, generate_random_group_name k groups = Ok name.
Proof.
  unfold generate_random_group_name.
  destruct groups as [[|g gs]|];
    [destruct (choice_in k default_groups) as (x & Hx & _)
    |destruct (choice_in k (g :: gs)) as (x & Hx & _)
    |destruct (choice_in k default_groups) as (x & Hx & _)];
    try discriminate; now exists x.
Qed.

(** A generator expression returns when each of its items does, and
    raises what its first failing item raises. *)
Lemma collect_returns {A B} (f : A -> result B) (l : list A) :
  (forall x, In x l -> exists v, f x = Ok v) ->
  exists vs, collect (map f l) = Ok vs.
Proof.
  induction l as [|x l IH]; intros H; [now exists []|].
  destruct (H x (or_introl eq_refl)) as (v & Hv).
  destruct IH as (vs & Hvs); [intros y Hy; apply H; now right|].
  exists (v :: vs). cbn [map collect]. now rewrite Hv, Hvs.
Qed.

Lemma collect_raises {A B} (f : A -> result B) (before after : list A)
      (x : A) (e : exn) :
  (forall y, In y before -> exists v, f y = Ok v) ->
  f x = Raise e ->
  collect (map f (before ++ x :: after)) = Raise e.
Proof.
  intros Hb Hx. induction before as [|y before IH]; cbn [app map collect].
  - now rewrite Hx.
  - destruct (Hb y (or_introl eq_refl)) as (v & ->).
    rewrite IH; [reflexivity|]. intros z Hz. apply Hb. now right.
Qed.

Lemma in_py_range (lo hi i : Z) : In i (py_range lo hi) <-> lo <= i < hi.
Proof.
  unfold py_range. rewrite in_map_iff. split.
  - intros (k & <- & Hk). apply in_seq in Hk. lia.
  - intros H. exists (Z.to_nat (i - lo)). split; [lia|].
    apply in_seq. lia.
Qed.

Lemma py_range_cons (lo hi : Z) :
  lo < hi -> py_range lo hi = lo :: py_range (lo + 1) hi.
Proof.
  intros H. unfold py_range.
  replace (Z.to_nat (hi - lo)) with (S (Z.to_nat (hi - (lo + 1)))) by lia.
  cbn [seq map]. f_equal; [lia|].
  rewrite <- seq_shift, map_map. apply map_ext. intros k. lia.
Qed.

Lemma py_range_split (lo hi i : Z) :
  lo <= i < hi ->
  py_range lo hi = py_range lo i ++ i :: py_range (i + 1) hi.
Proof.
  intros H.
  remember (Z.to_nat (i - lo)) as n eqn:Hn.
  revert lo H Hn. induction n as [|n IH]; intros lo H Hn.
  - assert (i = lo) as -> by lia.
    rewrite (py_range_cons lo hi) by lia.
    replace (py_range lo lo) with (@nil Z); [reflexivity|].
    unfold py_range. now rewrite Z.sub_diag.
  - rewrite (py_range_cons lo hi), (py_range_cons lo i) by lia.
    cbn [app]. f_equal. apply IH; lia.
Qed.

(** X17. [generate_random_name(length)] never raises, whatever the
    generator draws: it returns a name of exactly [length] characters
    (none for a negative [length]), each of them an ASCII letter or
    digit. *)
Theorem generate_random_name_spec (draws : nat -> nat) (length : Z) :
  exists name,
    generate_random_name draws length = Ok name /\
    utf8_length name = Z.max 0 length /\
    String.length name = Z.to_nat length /\
    forallb is_alphanumeric (list_ascii_of_string name) = true.
Proof.
  unfold generate_random_name.
  destruct (collect_choices draws letters (seq 0 (Z.to_nat length)))
    as (chars & Hchars & Hlen & Hall); [discriminate|].
  rewrite length_seq in Hlen.
  assert (Halnum : forallb is_alphanumeric chars = true).
  { apply forallb_forall. intros c Hc.
    rewrite Forall_forall in Hall.
    exact (proj1 (forallb_forall _ _) letters_are_alphanumeric c (Hall c Hc)). }
  exists (string_of_list_ascii chars).
  rewrite Hchars. cbn [and_then].
  split; [reflexivity|]. split; [|split].
  - rewrite utf8_length_ascii.
    + rewrite Hlen. lia.
    + apply Forall_forall. intros c Hc. apply alphanumeric_is_ascii.
      exact (proj1 (forallb_forall _ _) Halnum c Hc).
  - rewrite <- Hlen. clear.
    induction chars as [|c chars IH]; [reflexivity|]. cbn. now rewrite IH.
  - now rewrite list_ascii_of_string_of_list_ascii.
Qed.

(** X18. [generate_random_group_name] never raises: from a non-empty list
    it returns one of its names, and without a list or from an empty one it
    returns one of the six default names. *)
Theorem generate_random_group_name_spec (k : nat)
        (groups : option (list string)) :
  exists name,
    generate_random_group_name k groups = Ok name /\
    (forall g gs, groups = Some (g :: gs) -> In name (g :: gs)) /\
    (groups = None \/ groups = Some [] -> In name default_groups).
Proof.
  unfold generate_random_group_name.
  destruct groups as [[|g gs]|].
  - destruct (choice_in k default_groups) as (x & Hx & Hin); [discriminate|].
    exists x. repeat split; [exact Hx|discriminate|auto].
  - destruct (choice_in k (g :: gs)) as (x & Hx & Hin); [discriminate|].
    exists x. split; [exact Hx|]. split.
    + now intros g' gs' [= <- <-].
    + intros [H|H]; discriminate H.
  - destruct (choice_in k default_groups) as (x & Hx & Hin); [discriminate|].
    exists x. repeat split; [exact Hx|discriminate|auto].
Qed.

(** ** Collecting the results *)

Lemma record_request_counts (self : LoadTestResult) (x : exchange) :
  let '(started, finished, posted) := x in
  let r := record_request self started finished posted in
  total_requests r = total_requests self + 1 /\
  successful_requests r =
    successful_requests self + (if registered x then 1 else 0) /\
  failed_requests r =
    failed_requests self + (if registered x then 0 else 1) /\
  response_times r = response_times self ++ [fsub finished started] /\
  start_time r = start_time self /\ end_time r = end_time self.
Proof.
  destruct x as [[started finished] posted].
  unfold record_request, send_register_request, add_result, registered.
  destruct posted as [status_code text| | |msg];
    [destruct (status_code =? 201)| | |]; cbn; repeat split; lia.
Qed.

Lemma collected_counts (exchanges : Z -> exchange) (order : list Z)
      (self : LoadTestResult) :
  let r := collected exchanges order self in
  total_requests r = total_requests self + Z.of_nat (List.length order) /\
  successful_requests r =
    successful_requests self +
    Z.of_nat (List.length (filter (fun i => registered (exchanges i))
                                  order)) /\
  failed_requests r =
    failed_requests self +
    Z.of_nat (List.length (filter (fun i => negb (registered (exchanges i)))
                                  order)) /\
  response_times r =
    response_times self ++
    map (fun i => fsub (snd (fst (exchanges i))) (fst (fst (exchanges i))))
        order /\
  start_time r = start_time self /\ end_time r = end_time self.
Proof.
  revert self. induction order as [|i order IH]; intros self; cbn zeta.
  - cbn. rewrite app_nil_r. repeat split; lia.
  - unfold collected in *. cbn [fold_left].
    pose proof (record_request_counts self (exchanges i)) as H.
    destruct (exchanges i) as [[started finished] posted] eqn:E.
    cbn zeta in H. destruct H as (H1 & H2 & H3 & H4 & H5 & H6).
    destruct (IH (record_request self started finished posted))
      as (I1 & I2 & I3 & I4 & I5 & I6).
    cbn zeta in *.
    rewrite I1, I2, I3, I4, I5, I6, H1, H2, H3, H4, H5, H6.
    cbn [filter map List.length]. rewrite E. cbn [fst snd].
    destruct (registered (started, finished, posted));
      cbn [negb List.length]; rewrite <- app_assoc;
      repeat split; lia.
Qed.

Section CollectingFacts.

Variable exception_text : exn -> string.
Variable time_sleep : float -> result unit.

(** Within the loop neither division has a zero divisor. *)
Lemma progress_runs (num_requests completed : Z) (self : LoadTestResult) :
  1 <= completed <= num_requests ->
  exists line,
    progress num_requests completed self = Ok line /\
    (forall l, line = Some l ->
               pl_completed l = completed /\
               pl_num_requests l = num_requests) /\
    (completed = num_requests ->
     line = Some (mk_progress_line
                    num_requests num_requests
                    (fmul (fdiv (exact num_requests) (exact num_requests))
                          (float_of_int 100))
                    (successful_requests self) (failed_requests self))).
Proof.
  intros Hc. unfold progress, py_mod, int_truediv.
  assert (Hstep : (Z.max 1 (num_requests / 10) =? 0) = false)
    by (apply Z.eqb_neq; lia).
  assert (Hnum : (num_requests =? 0) = false) by (apply Z.eqb_neq; lia).
  rewrite Hstep, Hnum. cbn [and_then].
  destruct (Z.eqb_spec completed num_requests) as [->|Hne].
  - rewrite orb_true_r. eexists. split; [reflexivity|]. split.
    + intros l [= <-]. split; reflexivity.
    + reflexivity.
  - rewrite orb_false_r.
    destruct (completed mod _ =? 0); eexists; (split; [reflexivity|]);
      split;
      try (intros l [= <-]; split; reflexivity);
      try discriminate; intros; lia.
Qed.

Lemma collect_results_runs (num_requests : Z) (exchanges : Z -> exchange)
      (order : list Z) (completed : Z) (self : LoadTestResult)
      (printed : list progress_line) :
  0 <= completed ->
  completed + Z.of_nat (List.length order) = num_requests ->
  exists more,
    collect_results exception_text num_requests exchanges order completed
                    self printed =
      (collected exchanges order self, printed ++ more) /\
    Forall (fun l => completed < pl_completed l <= num_requests /\
                     pl_num_requests l = num_requests) more /\
    (order <> [] ->
     exists before,
       more = before ++
         [mk_progress_line
            num_requests num_requests
            (fmul (fdiv (exact num_requests) (exact num_requests))
                  (float_of_int 100))
            (successful_requests (collected exchanges order self))
            (failed_requests (collected exchanges order self))]).
Proof.
  revert completed self printed.
  induction order as [|i order IH]; intros completed self printed Hc Hn.
  - exists []. cbn. rewrite app_nil_r. repeat split; [constructor|congruence].
  - cbn [collect_results collected fold_left].
    destruct (exchanges i) as [[started finished] posted] eqn:E.
    set (self' := record_request self started finished posted).
    cbn [List.length] in Hn.
    destruct (progress_runs num_requests (completed + 1) self')
      as (line & Hline & Hshape & Hfinal); [lia|].
    rewrite Hline.
    destruct (IH (completed + 1) self'
                 (printed ++ match line with Some l => [l] | None => [] end))
      as (more' & Hrun & Hall & Hlast); [lia|lia|].
    rewrite Hrun.
    exists (match line with Some l => [l] | None => [] end ++ more').
    split; [now rewrite <- app_assoc|]. split.
    + apply Forall_app. split.
      * destruct line as [l|]; [|constructor].
        destruct (Hshape l eq_refl) as [H1 H2].
        repeat constructor; lia.
      * eapply Forall_impl; [|exact Hall]. cbn. intros l. lia.
    + intros _. destruct order as [|j order'].
      * exists []. cbn [collected fold_left] in *.
        assert (Hfull : completed + 1 = num_requests) by (cbn in Hn; lia).
        rewrite (Hfinal Hfull).
        cbn in Hrun. injection Hrun as Hmore.
        apply (f_equal (@List.length _)) in Hmore.
        rewrite !length_app in Hmore.
        destruct more'; [reflexivity|cbn [List.length] in Hmore; lia].
      * destruct Hlast as (before & ->); [discriminate|].
        eexists. now rewrite app_assoc.
Qed.

(** The loop that submits the requests returns when every pause it makes
    does. *)
Lemma submit_requests_return (num_requests : Z)
      (group_names : option (list string))
      (delay_range : option (float * float))
      (group_draws : Z -> nat) (name_draws : Z -> nat -> nat)
      (delays : Z -> float) :
  delay_range = None \/
  (forall i, 0 <= i < num_requests - 1 -> time_sleep (delays i) = Ok tt) ->
  exists names,
    submit_requests time_sleep num_requests group_names delay_range
                    group_draws name_draws delays = Ok names.
Proof.
  intros Hsleep. unfold submit_requests. apply collect_returns.
  intros i Hi. apply in_py_range in Hi. unfold submit_request.
  destruct (generate_random_group_name_returns (group_draws i) group_names)
    as (g & Hg).
  destruct (generate_random_name_returns (name_draws i) 6) as (suffix & Hs).
  rewrite Hs. cbn [and_then].
  assert (Hpause :
    match delay_range with
    | Some _ =>
        if i <? num_requests - 1 then time_sleep (delays i) else Ok tt
    | None => Ok tt
    end = Ok tt).
  { destruct Hsleep as [->|Hsleep]; [reflexivity|].
    destruct delay_range; [|reflexivity].
    destruct (Z.ltb_spec i (num_requests - 1)); [|reflexivity].
    apply Hsleep. lia. }
  rewrite Hpause.
  destruct group_names as [[|x l]|]; [| rewrite Hg |]; now eexists.
Qed.

(** It raises what the first pause that raises does. *)
Lemma submit_requests_raise (num_requests : Z)
      (group_names : option (list string)) (range : float * float)
      (group_draws : Z -> nat) (name_draws : Z -> nat -> nat)
      (delays : Z -> float) (i : Z) (e : exn) :
  0 <= i < num_requests - 1 ->
  (forall j, 0 <= j < i -> time_sleep (delays j) = Ok tt) ->
  time_sleep (delays i) = Raise e ->
  submit_requests time_sleep num_requests group_names (Some range)
                  group_draws name_draws delays = Raise e.
Proof.
  intros Hi Hbefore Hraise. unfold submit_requests.
  rewrite (py_range_split 0 num_requests i) by lia.
  assert (Hstep : forall j,
    submit_request time_sleep num_requests group_names (Some range)
                   group_draws name_draws delays j =
    and_then (if j <? num_requests - 1 then time_sleep (delays j) else Ok tt)
             (fun _ =>
                and_then
                  (match group_names with
                   | Some (_ :: _) =>
                       and_then (generate_random_group_name (group_draws j)
                                                            group_names)
                                (fun g => Ok (Some g))
                   | _ => Ok None
                   end)
                  (fun group_name =>
                     and_then (generate_random_name (name_draws j) 6)
                              (fun suffix =>
                                 Ok (request_name j suffix, group_name))))).
  { intros j. unfold submit_request.
    destruct (generate_random_group_name_returns (group_draws j) group_names)
      as (g & Hg).
    destruct (generate_random_name_returns (name_draws j) 6) as (sf & Hs).
    rewrite Hs. cbn [and_then].
    destruct (if j <? num_requests - 1 then time_sleep (delays j) else Ok tt)
      as [[]|e']; cbn [and_then];
      destruct group_names as [[|x l]|]; rewrite ?Hg; reflexivity. }
  apply collect_raises.
  - intros j Hj. apply in_py_range in Hj. rewrite Hstep.
    destruct (Z.ltb_spec j (num_requests - 1)); [|lia].
    rewrite Hbefore by lia. cbn [and_then].
    destruct (generate_random_group_name_returns (group_draws j) group_names)
      as (g & Hg).
    destruct (generate_random_name_returns (name_draws j) 6) as (sf & Hs).
    rewrite Hs. destruct group_names as [[|x l]|]; rewrite ?Hg; now eexists.
  - rewrite Hstep.
    destruct (Z.ltb_spec i (num_requests - 1)); [|lia].
    now rewrite Hraise.
Qed.

(** X19. [run_load_test] raises [ValueError] for a concurrency below 1.
    With a [delay_range] it pauses after each request but the last, and an
    exception of [time.sleep], which refuses a negative length, ends the
    run: the first pause that raises makes [run_load_test] raise the same
    exception.  Otherwise (no [delay_range], or pauses that all return) it
    returns, in whatever order the requests complete, and its loop never
    divides by zero, so that no request is counted twice: the result
    counts [num_requests] requests (none for a negative number), as
    successes those answered 201 and as failures all others, holds one
    response time per request and both clock readings; with at least one
    request the last progress line reports [num_requests] of
    [num_requests]. *)
Theorem run_load_test_spec (num_requests concurrency : Z)
        (group_names : option (list string))
        (delay_range : option (float * float))
        (started ended : float)
        (group_draws : Z -> nat) (name_draws : Z -> nat -> nat)
        (delays : Z -> float)
        (exchanges : Z -> exchange) (order : list Z) :
  let run :=
    run_load_test exception_text time_sleep num_requests concurrency
                  group_names delay_range started ended group_draws
                  name_draws delays exchanges order in
  (concurrency <= 0 -> run = Raise ValueError) /\
  (forall i e,
      1 <= concurrency -> delay_range <> None ->
      0 <= i < num_requests - 1 ->
      (forall j, 0 <= j < i -> time_sleep (delays j) = Ok tt) ->
      time_sleep (delays i) = Raise e ->
      run = Raise e) /\
  (1 <= concurrency ->
   delay_range = None \/
   (forall i, 0 <= i < num_requests - 1 -> time_sleep (delays i) = Ok tt) ->
   Permutation order (py_range 0 num_requests) ->
   exists result printed,
     run = Ok (result, printed) /\
     total_requests result = Z.max 0 num_requests /\
     successful_requests result =
       Z.of_nat (List.length (filter (fun i => registered (exchanges i))
                                     (py_range 0 num_requests))) /\
     failed_requests result =
       total_requests result - successful_requests result /\
     Z.of_nat (List.length (response_times result)) =
       total_requests result /\
     start_time result = Some started /\ end_time result = Some ended /\
     Forall (fun l => 1 <= pl_completed l <= num_requests) printed /\
     (1 <= num_requests ->
      exists before,
        printed = before ++
          [mk_progress_line
             num_requests num_requests
             (fmul (fdiv (exact num_requests) (exact num_requests))
                   (float_of_int 100))
             (successful_requests result) (failed_requests result)])).
Proof.
  intros run. subst run. unfold run_load_test. split; [|split].
  - intros Hc. apply Z.leb_le in Hc. now rewrite Hc.
  - intros i e Hc Hrange Hi Hbefore Hraise.
    assert (Hc' : (concurrency <=? 0) = false) by (apply Z.leb_gt; lia).
    rewrite Hc'.
    destruct delay_range as [range|]; [|congruence].
    now rewrite (submit_requests_raise num_requests group_names range
                   group_draws name_draws delays i e Hi Hbefore Hraise).
  - intros Hc Hsleep Hperm.
    assert (Hc' : (concurrency <=? 0) = false) by (apply Z.leb_gt; lia).
    rewrite Hc'.
    destruct (submit_requests_return num_requests group_names delay_range
                group_draws name_draws delays Hsleep) as (names & ->).
    cbn [and_then].
    assert (Hlen : Z.of_nat (List.length order) = Z.max 0 num_requests).
    { rewrite (Permutation_length Hperm), py_range_length. lia. }
    set (fresh := set_times init (Some started) None).
    destruct (Z.le_gt_cases num_requests 0) as [Hneg|Hpos].
    + (* no request *)
      assert (order = []) as ->.
      { destruct order; [reflexivity|]. cbn [List.length] in Hlen. lia. }
      cbn. do 2 eexists. split; [reflexivity|]. cbn.
      unfold py_range.
      replace (Z.to_nat (num_requests - 0)) with 0%nat by lia.
      cbn. repeat split; try lia; try constructor.
    + destruct (collect_results_runs num_requests exchanges order 0 fresh [])
        as (more & Hrun & Hall & Hlast); [lia|lia|].
      rewrite Hrun. cbn [app].
      pose proof (collected_counts exchanges order fresh) as Hcounts.
      cbn zeta in Hcounts.
      destruct Hcounts as (C1 & C2 & C3 & C4 & C5 & C6).
      cbn [total_requests successful_requests failed_requests
           response_times start_time end_time fresh set_times init]
        in C1, C2, C3, C4, C5.
      assert (Hboth :
        Z.of_nat (List.length (filter (fun i => registered (exchanges i))
                                      order)) +
        Z.of_nat (List.length
                    (filter (fun i => negb (registered (exchanges i)))
                            order)) =
        Z.of_nat (List.length order)).
      { clear. induction order as [|i order IH]; [reflexivity|].
        cbn [filter]. destruct (registered (exchanges i));
          cbn [negb List.length]; lia. }
      assert (Hsame :
        List.length (filter (fun i => registered (exchanges i)) order) =
        List.length (filter (fun i => registered (exchanges i))
                            (py_range 0 num_requests))).
      { apply Permutation_length. clear - Hperm.
        induction Hperm; cbn [filter].
        - reflexivity.
        - destruct (registered (exchanges x)); auto.
        - destruct (registered (exchanges x)), (registered (exchanges y));
            auto using perm_swap.
        - etransitivity; eassumption. }
      do 2 eexists. split; [reflexivity|].
      cbn [total_requests successful_requests failed_requests
           response_times start_time end_time set_times].
      rewrite C1, C2, C3, C4, C5.
      split; [lia|]. split; [now rewrite Hsame|]. split; [lia|].
      split; [cbn [app]; rewrite length_map; lia|].
      split; [reflexivity|]. split; [reflexivity|].
      split.
      * eapply Forall_impl; [|exact Hall]. cbn. intros l. lia.
      * intros _. destruct Hlast as (before & ->).
        { intros ->. cbn [List.length] in Hlen. lia. }
        exists before. now rewrite C2, C3.
Qed.

End CollectingFacts.

Lemma run_load_test_spec_witness :
  let exchanges := fun i : Z =>
    (float_of_int 1, float_of_int 3,
     if i =? 0 then Responded 201 "" else Timeout) in
  run_load_test (fun _ => "") sleep_refusing_negative 2 1 None
    (Some (float_of_int (-2), float_of_int (-1)))
    (float_of_int 0) (float_of_int 9) (fun _ => O) (fun _ _ => O)
    (fun _ => float_of_int (-1)) exchanges [1; 0] = Raise ValueError /\
  exists result printed,
    run_load_test (fun _ => "") sleep_refusing_negative 2 1 None
      (Some (float_of_int 0, float_of_int 1))
      (float_of_int 0) (float_of_int 9) (fun _ => O) (fun _ _ => O)
      (fun _ => float_of_int 1) exchanges [1; 0] = Ok (result, printed) /\
    total_requests result = 2 /\ successful_requests result = 1.
Proof.
  intros exchanges. split.
  - destruct (run_load_test_spec
                (fun _ => "") sleep_refusing_negative 2 1 None
                (Some (float_of_int (-2), float_of_int (-1)))
                (float_of_int 0) (float_of_int 9) (fun _ => O)
                (fun _ _ => O) (fun _ => float_of_int (-1)) exchanges
                [1; 0]) as (_ & H & _).
    apply (H 0 ValueError); try lia; try discriminate.
    reflexivity.
  - destruct (run_load_test_spec
                (fun _ => "") sleep_refusing_negative 2 1 None
                (Some (float_of_int 0, float_of_int 1))
                (float_of_int 0) (float_of_int 9) (fun _ => O)
                (fun _ _ => O) (fun _ => float_of_int 1) exchanges
                [1; 0]) as (_ & _ & H).
    destruct H as (result & printed & Hrun & Ht & Hs & _).
    + lia.
    + right. intros i _. reflexivity.
    + apply perm_swap.
    + exists result, printed.
      split; [exact Hrun|]. split; [exact Ht|exact Hs].
Defined.

(** ** Printing the statistics *)

Lemma filter_shown_errors (l : list (Z * string)) :
  filter is_shown_error (map (fun '(i, error) => shown_error i error) l) =
  map (fun '(i, error) => shown_error i error) l.
Proof.
  induction l as [|[i e] l IH]; [reflexivity|]. cbn. now rewrite IH.
Qed.

Lemma enumerate_length {A} (start : Z) (l : list A) :
  List.length (enumerate start l) = List.length l.
Proof.
  revert start. induction l as [|x l IH]; intros start; [reflexivity|].
  cbn. now rewrite IH.
Qed.

Section PrintingFacts.

Variable py_sum : list float -> float.

(** X20. [print_statistics] on a result without response times, which is
    what [run_load_test] returns for a [num_requests] of 0 or less, prints
    its three heading lines and raises [KeyError] for [total_requests].
    With response times it completes; it shows the recorded number of
    requests and, numbered from 1, the first five error messages and no
    others. *)
Theorem print_statistics_spec (result : LoadTestResult) :
  (response_times result = [] ->
   print_statistics py_sum result =
     ([shown_text (nl ++ rule); shown_text "測試結果統計"; shown_text rule],
      Raise (KeyError "total_requests"))) /\
  (forall exception_text time_sleep num_requests concurrency group_names
          delay_range started ended group_draws name_draws delays exchanges
          result' printed,
      num_requests <= 0 ->
      run_load_test exception_text time_sleep num_requests concurrency
                    group_names delay_range started ended group_draws
                    name_draws delays exchanges [] = Ok (result', printed) ->
      snd (print_statistics py_sum result') =
        Raise (KeyError "total_requests")) /\
  (1 <= Z.of_nat (List.length (response_times result)) <= max_size ->
   exists printed,
     print_statistics py_sum result = (printed, Ok tt) /\
     In (shown_count "總請求數" (total_requests result)) printed /\
     filter is_shown_error printed =
       map (fun '(i, error) => shown_error i error)
           (enumerate 1 (firstn 5 (error_messages result))) /\
     (List.length (filter is_shown_error printed) <= 5)%nat).
Proof.
  split; [|split].
  - intros Hnone. unfold print_statistics, get_statistics.
    now rewrite Hnone.
  - intros text sleep n c groups range s e gd nd dl ex r printed Hn Hrun.
    unfold run_load_test in Hrun.
    destruct (c <=? 0); [discriminate Hrun|].
    destruct (submit_requests _ _ _ _ _ _ _) as [names|e'];
      [|discriminate Hrun].
    cbn in Hrun. injection Hrun as <- _.
    reflexivity.
  - intros Hn.
    destruct (get_statistics_run py_sum result Hn)
      as (log & rate & rps & lo & hi & x50 & x95 & x99 & i95 & i99 &
          Hrun & _).
    unfold returns in Hrun. unfold print_statistics. rewrite Hrun.
    eexists. split; [reflexivity|].
    cbn [st_total_requests app].
    split; [right; right; right; left; reflexivity|].
    assert (Herrors :
      filter is_shown_error
        (match error_messages result with
         | [] => []
         | _ :: _ =>
             shown_text (nl ++ "錯誤訊息範例 (顯示前 5 個):") ::
             map (fun '(i, error) => shown_error i error)
                 (enumerate 1 (firstn 5 (error_messages result)))
         end ++ [shown_text rule]) =
      map (fun '(i, error) => shown_error i error)
          (enumerate 1 (firstn 5 (error_messages result)))).
    { rewrite filter_app. cbn [filter is_shown_error]. rewrite app_nil_r.
      destruct (error_messages result) as [|m l]; [reflexivity|].
      cbn [filter is_shown_error]. apply filter_shown_errors. }
    cbn [filter is_shown_error]. rewrite Herrors.
    split; [reflexivity|].
    rewrite length_map, enumerate_length, length_firstn. lia.
Qed.

End PrintingFacts.

Lemma print_statistics_spec_witness :
  exists printed,
    print_statistics sum_left (add_results init three_calls) =
      (printed, Ok tt) /\
    filter is_shown_error printed = [shown_error 1 "HTTP 500: "].
Proof.
  destruct (print_statistics_spec sum_left (add_results init three_calls))
    as (_ & _ & H).
  destruct H as (printed & Hrun & _ & Herr & _);
    [split; discriminate|].
  exists printed. split; [exact Hrun|exact Herr].
Defined.

(** ** Registering against the application *)

(** What the [users] table accepts of a name or group: a text without
    NUL that fits the column. *)
Lemma check_varchar_fits column n s :
  utf8_length s <= n -> check_varchar column n (Some s) = Ok (Some s).
Proof.
  intros H. unfold check_varchar. rewrite (varchar_fits n s H).
  apply Z.leb_le in H. now rewrite H.
Qed.

Lemma insert_user_checked (now activity_id : Z) (name : string)
      (group_name : option string) (d : db) :
  fits_integer activity_id = true ->
  utf8_length name <= 100 -> has_nul name = false ->
  (forall g, group_name = Some g ->
             utf8_length g <= 100 /\ has_nul g = false) ->
  insert_user now (Some activity_id) (Some name) group_name d =
  if has_activity d activity_id
  then Ok (mk_db (questions d) (activities d)
                 (users d ++ [mk_user (users_id_seq d) (Some activity_id)
                                      name group_name (Some now)])
                 (answers d)
                 (questions_id_seq d) (activities_id_seq d)
                 (users_id_seq d + 1) (answers_id_seq d),
           users_id_seq d)
  else Raise (ForeignKeyViolation "activity_id").
Proof.
  intros Hfit Hname Hnul Hgroup.
  unfold insert_user, check_text, check_integer, check_not_null,
    check_references.
  rewrite Hnul, Hfit, (check_varchar_fits "name" 100 name Hname).
  destruct group_name as [g|].
  - destruct (Hgroup g eq_refl) as [Hg Hgn].
    rewrite Hgn, (check_varchar_fits "group_name" 100 g Hg).
    cbn [and_then]. now destruct (has_activity d activity_id).
  - cbn [and_then check_varchar]. now destruct (has_activity d activity_id).
Qed.

Lemma insert_user_refers (now : Z) (activity_id : Z)
      (name group_name : option string) (d d' : db) (id : Z) :
  insert_user now (Some activity_id) name group_name d = Ok (d', id) ->
  has_activity d activity_id = true.
Proof.
  intros H. stmt_inv H.
  match goal with
  | Hr : check_references _ _ _ = Ok _ |- _ =>
      unfold check_references in Hr;
      destruct (has_activity d activity_id); [reflexivity|discriminate Hr]
  end.
Qed.

Section ServerFacts.

Variable response_text : outcome -> string.

(** X21. One registration of the load test against the application.  For
    an existing activity with an id within the range of INTEGER, and a
    name and group of at most 100 characters without NUL, it is a success
    without message, and the user is stored under the next user id, with a
    null group when the group name is missing or empty.  For an id that
    names no activity it is a failure whose message starts with
    [HTTP 500: ]; no row is stored, and when the name and group are as
    above the refused [INSERT] has drawn one id from the sequence of the
    users.  The response time is the difference of the two clock
    readings. *)
Theorem register_spec (now : Z) (started finished : float) (activity_id : Z)
        (name : string) (group_name : option string) (d : db) :
  let '(outcome, d') :=
    register response_text now started finished activity_id name
             group_name d in
  let '(success, response_time, error_msg) := outcome in
  let accepted :=
    fits_integer activity_id = true /\
    utf8_length name <= 100 /\ has_nul name = false /\
    (forall g, group_name = Some g ->
               utf8_length g <= 100 /\ has_nul g = false) in
  response_time = fsub finished started /\
  (has_activity d activity_id = true -> accepted ->
   success = true /\ error_msg = None /\
   users d' =
     users d ++
     [mk_user (users_id_seq d) (Some activity_id) name
              (if truthy_str group_name then group_name else None)
              (Some now)]) /\
  (has_activity d activity_id = false ->
   success = false /\
   (exists text, error_msg = Some ("HTTP 500: " ++ text)%string) /\
   same_rows d d' /\
   (d' = d \/ d' = nextval Users d) /\
   (accepted -> d' = nextval Users d)).
Proof.
  unfold register, post_users, register_payload.
  rewrite join_activity_outcome by reflexivity.
  cbn [jb_activity_id jb_name jb_group_name get].
  set (group := match group_name with
                | Some g => if (g =? "")%string then Absent else Val g
                | None => Absent
                end).
  assert (Hgroup : get group =
                   if truthy_str group_name then group_name else None).
  { subst group. destruct group_name as [g|]; [|reflexivity].
    cbn. now destruct (g =? "")%string. }
  assert (Hchecked :
    fits_integer activity_id = true /\
    utf8_length name <= 100 /\ has_nul name = false /\
    (forall g, group_name = Some g ->
               utf8_length g <= 100 /\ has_nul g = false) ->
    insert_user now (Some activity_id) (Some name) (get group) d =
    if has_activity d activity_id
    then Ok (mk_db (questions d) (activities d)
                   (users d ++ [mk_user (users_id_seq d) (Some activity_id)
                                        name (get group) (Some now)])
                   (answers d)
                   (questions_id_seq d) (activities_id_seq d)
                   (users_id_seq d + 1) (answers_id_seq d),
             users_id_seq d)
    else Raise (ForeignKeyViolation "activity_id")).
  { intros (Hfit & Hname & Hnul & Hg).
    apply insert_user_checked; try assumption.
    intros g. rewrite Hgroup.
    destruct group_name as [g'|]; cbn [truthy_str]; [|discriminate].
    destruct (negb _); [|discriminate]. intros [= ->]. now apply Hg. }
  destruct (insert_user now (Some activity_id) (Some name) (get group) d)
    as [[d' id]|e] eqn:Hins;
    cbn [out_result out_db status_code send_register_request Z.eqb
         Pos.eqb].
  - split; [reflexivity|]. split.
    + intros Hact Hacc. split; [reflexivity|]. split; [reflexivity|].
      specialize (Hchecked Hacc). rewrite Hact in Hchecked.
      injection Hchecked as -> _.
      cbn [users]. now rewrite Hgroup.
    + intros Hno. exfalso.
      apply insert_user_refers in Hins. congruence.
  - split; [reflexivity|]. split.
    + intros Hact Hacc. exfalso.
      specialize (Hchecked Hacc). rewrite Hact in Hchecked.
      discriminate Hchecked.
    + intros Hno. split; [reflexivity|].
      split; [eexists; reflexivity|].
      split; [now destruct (refused_by_constraint e)|].
      split; [destruct (refused_by_constraint e); auto|].
      intros Hacc. specialize (Hchecked Hacc). rewrite Hno in Hchecked.
      now injection Hchecked as ->.
Qed.

End ServerFacts.

Lemma register_spec_witness :
  let d := replay started_history empty_db in
  fst (register (fun _ => "") 30 (float_of_int 1) (float_of_int 3)
                1 "ann" (Some "") d) =
    (true, float_of_int 2, None) /\
  fst (fst (fst (register (fun _ => "") 30 (float_of_int 1) (float_of_int 3)
                          7 "ann" None d))) = false /\
  users_id_seq
    (snd (register (fun _ => "") 30 (float_of_int 1) (float_of_int 3)
                   7 "ann" None d)) = users_id_seq d + 1.
Proof.
  intros d.
  pose proof (register_spec (fun _ => "") 30 (float_of_int 1)
                            (float_of_int 3) 1 "ann" (Some "") d) as H1.
  pose proof (register_spec (fun _ => "") 30 (float_of_int 1)
                            (float_of_int 3) 7 "ann" None d) as H7.
  destruct (register _ 30 _ _ 1 _ _ d) as [[[s1 t1] m1] d1].
  destruct (register _ 30 _ _ 7 _ _ d) as [[[s7 t7] m7] d7].
  cbv zeta in H1, H7.
  destruct H1 as (Ht & Hok & _). destruct H7 as (_ & _ & Hbad).
  destruct Hok as (-> & -> & _);
    [reflexivity
    |split; [reflexivity|];
     split; [vm_compute; discriminate|];
     split; [reflexivity|];
     intros g [= <-]; split; [vm_compute; discriminate|reflexivity]
    |].
  destruct Hbad as (-> & _ & _ & _ & Hdrawn); [reflexivity|].
  subst t1. split; [reflexivity|]. split; [reflexivity|].
  cbn [snd]. rewrite Hdrawn; [reflexivity|].
  split; [reflexivity|].
  split; [vm_compute; discriminate|].
  split; [reflexivity|].
  intros g [=].
Defined.

End LoadRunFacts.

Module SocketTestFacts.
Import LoadTest LoadTestFacts SocketTest.

(** ** Counters *)

Lemma apply_calls_last (self : SocketTestResult) (calls : list call)
      (c : call) :
  apply_calls self (calls ++ [c]) = apply_call (apply_calls self calls) c.
Proof. unfold apply_calls. now rewrite fold_left_app. Qed.

Lemma count_last (p : call -> bool) (calls : list call) (c : call) :
  count p (calls ++ [c]) = count p calls + (if p c then 1 else 0).
Proof.
  unfold count. rewrite filter_app, length_app. cbn [filter].
  destruct (p c); cbn [List.length]; lia.
Qed.

(** X22. After any sequence of calls of its methods a [SocketTestResult]
    has [total_clients = connected_clients + failed_connections], one
    connection time per [add_connection] call, and counters that are the
    numbers of the calls they count: [connected_clients] the successful
    [add_connection] calls (a client id counted again each time),
    [disconnected_clients] the [add_disconnection] calls, whether or not
    the client was ever connected. *)
Theorem connection_counters (calls : list call) :
  let r := apply_calls init calls in
  total_clients r = connected_clients r + failed_connections r /\
  total_clients r = count is_connection calls /\
  connected_clients r = count is_connected calls /\
  disconnected_clients r = count is_disconnection calls /\
  Z.of_nat (List.length (connection_times r)) = total_clients r.
Proof.
  induction calls as [|c calls IH] using rev_ind; [now cbn|].
  cbn zeta in *. rewrite apply_calls_last, !count_last.
  destruct IH as (H1 & H2 & H3 & H4 & H5).
  destruct c as [id [|] t msg|id|id e ok|id e t];
    cbn [apply_call add_connection add_disconnection add_event_sent
         add_event_received total_clients connected_clients
         failed_connections disconnected_clients connection_times
         is_connection is_connected is_disconnection];
    rewrite ?length_app; cbn [List.length]; repeat split; lia.
Qed.

(** ** Event counters *)

Lemma sum_values_from (d : dict Z) (a : Z) :
  fold_left Z.add (map snd d) a = a + sum_values d.
Proof.
  unfold sum_values. revert a.
  induction d as [|[k v] d IH]; intros a; cbn; [lia|].
  rewrite IH, (IH v). lia.
Qed.

Lemma sum_values_cons (k : string) (v : Z) (d : dict Z) :
  sum_values ((k, v) :: d) = v + sum_values d.
Proof. unfold sum_values. cbn. now rewrite sum_values_from. Qed.

Lemma sum_values_update (k : string) (d : dict Z) :
  contains d k = true ->
  sum_values (update k (fun n => n + 1) d) = sum_values d + 1.
Proof.
  unfold contains.
  induction d as [|[k' v] d IH]; cbn [existsb update fst]; [discriminate|].
  destruct (k' =? k)%string; cbn [orb].
  - intros _. rewrite !sum_values_cons. lia.
  - intros H. rewrite !sum_values_cons, IH by exact H. lia.
Qed.

Lemma sum_values_increment (k : string) (d : dict Z) :
  sum_values (update_default 0 k (fun n => n + 1) d) = sum_values d + 1.
Proof.
  unfold update_default. destruct (contains d k) eqn:E.
  - now apply sum_values_update.
  - unfold sum_values. rewrite map_app, fold_left_app. cbn. lia.
Qed.

Lemma count_of_update (k e : string) (d : dict Z) :
  contains d k = true ->
  count_of (update k (fun n => n + 1) d) e =
  count_of d e + (if (k =? e)%string then 1 else 0).
Proof.
  unfold count_of, contains.
  induction d as [|[k' v] d IH]; cbn [existsb update find fst];
    [discriminate|].
  destruct (String.eqb_spec k' k) as [->|Hne]; cbn [orb find fst].
  - intros _. destruct (k =? e)%string; lia.
  - intros H. destruct (String.eqb_spec k' e) as [->|Hne'].
    + destruct (String.eqb_spec k e); [congruence|lia].
    + now apply IH.
Qed.

Lemma count_of_absent (k : string) (d : dict Z) :
  contains d k = false -> count_of d k = 0.
Proof.
  unfold count_of, contains.
  induction d as [|[k' v] d IH]; cbn; [reflexivity|].
  destruct (k' =? k)%string; cbn; [discriminate|exact IH].
Qed.

Lemma count_of_app (d : dict Z) (k e : string) (v : Z) :
  count_of (d ++ [(k, v)]) e =
  if contains d e then count_of d e
  else if (k =? e)%string then v else 0.
Proof.
  unfold count_of, contains.
  induction d as [|[k' v'] d IH]; cbn.
  - now destruct (k =? e)%string.
  - destruct (k' =? e)%string; cbn; [reflexivity|exact IH].
Qed.

Lemma count_of_increment (k e : string) (d : dict Z) :
  count_of (update_default 0 k (fun n => n + 1) d) e =
  count_of d e + (if (k =? e)%string then 1 else 0).
Proof.
  unfold update_default. destruct (contains d k) eqn:E.
  - now apply count_of_update.
  - rewrite count_of_app.
    destruct (String.eqb_spec k e) as [->|Hne].
    + rewrite E. rewrite (count_of_absent e d E). reflexivity.
    + destruct (contains d e) eqn:E'; [lia|].
      rewrite (count_of_absent e d E'). reflexivity.
Qed.

(** X23. After any sequence of calls the entry of an event in
    [events_sent], [events_failed] and [events_received] is the number of
    [add_event_sent] calls, of those with [success=False], and of
    [add_event_received] calls for that event; so no event has more
    failures than sends, and the sums of the values, which
    [get_statistics] reports as totals, are the numbers of all such
    calls. *)
Theorem event_counters (calls : list call) :
  let r := apply_calls init calls in
  (forall e, count_of (events_sent r) e = count (is_sent e) calls /\
             count_of (events_failed r) e = count (is_failed e) calls /\
             count_of (events_received r) e = count (is_received e) calls /\
             count_of (events_failed r) e <= count_of (events_sent r) e) /\
  sum_values (events_sent r) = count is_any_sent calls /\
  sum_values (events_received r) = count is_any_received calls.
Proof.
  cbn zeta.
  cut ((forall e,
          count_of (events_sent (apply_calls init calls)) e =
            count (is_sent e) calls /\
          count_of (events_failed (apply_calls init calls)) e =
            count (is_failed e) calls /\
          count_of (events_received (apply_calls init calls)) e =
            count (is_received e) calls /\
          count (is_failed e) calls <= count (is_sent e) calls) /\
       sum_values (events_sent (apply_calls init calls)) =
         count is_any_sent calls /\
       sum_values (events_received (apply_calls init calls)) =
         count is_any_received calls).
  { intros (H & Hs & Hr). split; [|now split].
    intros e. destruct (H e) as (H1 & H2 & H3 & H4).
    repeat split; try assumption. lia. }
  induction calls as [|c calls (IHe & IHs & IHr)] using rev_ind.
  - split; [|now split]. intros e. now cbn.
  - rewrite apply_calls_last, !count_last.
    split; [|split].
    + intros e. rewrite !count_last.
      destruct (IHe e) as (H1 & H2 & H3 & H4).
      destruct c as [id [|] t msg|id|id e' [|]|id e' t];
        cbn [apply_call add_connection add_disconnection add_event_sent
             add_event_received events_sent events_failed events_received
             is_sent is_failed is_received];
        rewrite ?count_of_increment;
        try destruct (e' =? e)%string;
        repeat split; lia.
    + destruct c as [id [|] t msg|id|id e' ok|id e' t];
        cbn [apply_call add_connection add_disconnection add_event_sent
             add_event_received events_sent is_any_sent];
        rewrite ?sum_values_increment; lia.
    + destruct c as [id [|] t msg|id|id e' ok|id e' t];
        cbn [apply_call add_connection add_disconnection add_event_sent
             add_event_received events_received is_any_received];
        rewrite ?sum_values_increment; lia.
Qed.

(** ** Client states *)

Lemma lookup_update {V} (k k' : string) (f : V -> V) (d : dict V) :
  lookup (update k f d) k' =
  if (k =? k')%string then option_map f (lookup d k') else lookup d k'.
Proof.
  unfold lookup.
  induction d as [|[k0 v] d IH]; cbn [update find fst option_map].
  - now destruct (k =? k')%string.
  - destruct (String.eqb_spec k0 k) as [->|Hne]; cbn [find fst].
    + destruct (k =? k')%string; reflexivity.
    + destruct (String.eqb_spec k0 k') as [->|Hne'].
      * cbn [option_map snd].
        destruct (String.eqb_spec k k'); [congruence|reflexivity].
      * exact IH.
Qed.

Lemma lookup_app {V} (d : dict V) (k k' : string) (v : V) :
  lookup (d ++ [(k, v)]) k' =
  match lookup d k' with
  | Some x => Some x
  | None => if (k =? k')%string then Some v else None
  end.
Proof.
  unfold lookup.
  induction d as [|[k0 v0] d IH]; cbn [app find fst option_map snd].
  - now destruct (k =? k')%string.
  - destruct (k0 =? k')%string; [reflexivity|exact IH].
Qed.

Lemma contains_lookup {V} (d : dict V) (k : string) :
  contains d k = match lookup d k with Some _ => true | None => false end.
Proof.
  unfold contains, lookup.
  induction d as [|[k0 v] d IH]; cbn [existsb find fst]; [reflexivity|].
  destruct (k0 =? k)%string; [reflexivity|exact IH].
Qed.

Lemma since_connected_last (client_id : string) (calls : list call)
      (c : call) :
  since_connected client_id (calls ++ [c]) =
  match since_connected client_id calls with
  | Some l => Some (l ++ [c])
  | None =>
      match c with
      | Connection id true _ _ =>
          if (id =? client_id)%string then Some [] else None
      | _ => None
      end
  end.
Proof.
  induction calls as [|x calls IH]; cbn [app since_connected].
  - destruct c as [id [|] t msg| | |]; reflexivity.
  - destruct x as [id [|] t msg| | |]; try exact IH.
    destruct (id =? client_id)%string; [reflexivity|exact IH].
Qed.

(** X24. After any sequence of calls, a client has an entry in
    [client_states] exactly when it had a successful [add_connection]
    call.  The entry counts the events the client sent and received after
    the first such call, and is marked connected until the client's first
    [add_disconnection] after it; events of a client that precede its
    connection, as the [connect] event of a client does, are counted in
    the totals only. *)
Theorem client_states_spec (calls : list call) (client_id : string) :
  lookup (client_states (apply_calls init calls)) client_id =
  option_map
    (fun later =>
       mk_client_state
         (negb (existsb (is_disconnection_of client_id) later))
         (count (is_sent_by client_id) later)
         (count (is_received_by client_id) later))
    (since_connected client_id calls).
Proof.
  induction calls as [|c calls IH] using rev_ind; [reflexivity|].
  rewrite apply_calls_last, since_connected_last.
  set (r := apply_calls init calls) in *.
  assert (Hlater : forall later,
    mk_client_state
      (negb (existsb (is_disconnection_of client_id) (later ++ [c])))
      (count (is_sent_by client_id) (later ++ [c]))
      (count (is_received_by client_id) (later ++ [c])) =
    mk_client_state
      (negb (existsb (is_disconnection_of client_id) later) &&
       negb (is_disconnection_of client_id c))
      (count (is_sent_by client_id) later +
       (if is_sent_by client_id c then 1 else 0))
      (count (is_received_by client_id) later +
       (if is_received_by client_id c then 1 else 0))).
  { intros later. rewrite existsb_app, !count_last. cbn [existsb].
    now rewrite orb_false_r, negb_orb. }
  destruct (since_connected client_id calls) as [later|] eqn:Hs;
    cbn [option_map] in IH |- *; rewrite ?Hlater; clear Hlater;
    destruct c as [id [|] t msg|id|id e ok|id e t];
    cbn [apply_call add_connection add_disconnection add_event_sent
         add_event_received client_states is_disconnection_of is_sent_by
         is_received_by negb];
    rewrite ?contains_lookup, ?lookup_update, ?andb_true_r, ?Z.add_0_r;
    try (rewrite IH; reflexivity).
  - (* connected before, one more successful connection *)
    destruct (lookup (client_states r) id) eqn:Hid; [exact IH|].
    now rewrite lookup_app, IH.
  - (* connected before, a disconnection *)
    rewrite IH. destruct (id =? client_id)%string; cbn [option_map negb];
      now rewrite ?andb_false_r, ?andb_true_r.
  - (* connected before, an event sent *)
    rewrite IH. destruct (id =? client_id)%string; cbn [option_map];
      now rewrite ?Z.add_0_r.
  - (* connected before, an event received *)
    rewrite IH. destruct (id =? client_id)%string; cbn [option_map];
      now rewrite ?Z.add_0_r.
  - (* the first successful connection of some client *)
    destruct (String.eqb_spec id client_id) as [->|Hne].
    + rewrite IH, lookup_app, IH. now rewrite String.eqb_refl.
    + destruct (lookup (client_states r) id); [exact IH|].
      rewrite lookup_app, IH.
      destruct (String.eqb_spec id client_id); [congruence|reflexivity].
  - rewrite IH. now destruct (id =? client_id)%string.
  - rewrite IH. now destruct (id =? client_id)%string.
  - rewrite IH. now destruct (id =? client_id)%string.
Qed.

(** ** [get_statistics] *)

Section StatisticsFacts.

Variable py_sum : list float -> float.

Lemma statistics_of_run (times : list float) :
  1 <= Z.of_nat (List.length times) <= max_size ->
  exists log st,
    returns (statistics_of py_sum times) log st /\
    Forall in_bounds log /\
    py_min times = Ok (min st) /\ py_max times = Ok (max st).
Proof.
  intros Hn. unfold statistics_of.
  set (n := Z.of_nat (List.length times)) in *.
  rewrite sorted_length. fold n.
  replace (0 <? n) with true by (symmetry; apply Z.ltb_lt; lia).
  destruct (percentile_indices n Hn)
    as (i95 & i99 & H95 & B95 & H99 & B99 & _).
  rewrite H95, H99.
  destruct (returns_item (sorted times) (n / 2)) as (x50 & I50 & _).
  { rewrite sorted_length. fold n. split; [apply Z.div_pos; lia|].
    apply Z.div_lt_upper_bound; lia. }
  destruct (returns_item (sorted times) i95) as (x95 & I95 & _).
  { rewrite sorted_length. exact B95. }
  destruct (returns_item (sorted times) i99) as (x99 & I99 & _).
  { rewrite sorted_length. exact B99. }
  rewrite sorted_length in I50, I95, I99.
  destruct (float_of_int_value n) as (m & e & Hfn & _);
    [unfold max_size in Hn; lia|].
  assert (Havg : returns (truediv (Float (py_sum times)) (Int n))
                         [division (Float (py_sum times)) (Int n)]
                         (fdiv (py_sum times) (float_of_int n))).
  { unfold returns, truediv. cbn [to_float]. now rewrite Hfn. }
  assert (Hlo : exists lo, py_min times = Ok lo).
  { destruct times; [cbn in Hn; lia|cbn; eauto]. }
  assert (Hhi : exists hi, py_max times = Ok hi).
  { destruct times; [cbn in Hn; lia|cbn; eauto]. }
  destruct Hlo as (lo & Hlo). destruct Hhi as (hi & Hhi).
  assert (H50 : 0 <= n / 2 < n)
    by (split; [apply Z.div_pos; lia|apply Z.div_lt_upper_bound; lia]).
  eexists _, (mk_time_statistics _ lo hi x50 (Float x95) (Float x99)).
  split; [|split; [|split; [exact Hlo|exact Hhi]]].
  - eapply returns_then; [exact Havg|].
    eapply returns_then; [apply returns_lift, Hlo|].
    eapply returns_then; [apply returns_lift, Hhi|].
    eapply returns_then; [exact I50|].
    eapply returns_then.
    { eapply returns_then; [now apply returns_lift|].
      eapply returns_then; [exact I95|apply returns_pure]. }
    eapply returns_then.
    { eapply returns_then; [now apply returns_lift|].
      eapply returns_then; [exact I99|apply returns_pure]. }
    apply returns_pure.
  - cbn [app].
    repeat apply Forall_cons; try apply Forall_nil;
      unfold in_bounds; fold n; try exact I; lia.
Qed.

Lemma event_statistics_run (items : dict (list float)) :
  Forall (fun kv => Z.of_nat (List.length (snd kv)) <= max_size) items ->
  exists log sts,
    returns (event_statistics py_sum items) log sts /\
    Forall in_bounds log /\
    map fst sts = map fst (filter has_times items).
Proof.
  induction items as [|[event_name times] items IH]; intros Hall.
  - exists [], []. repeat split. constructor.
  - inversion Hall as [|? ? Hlen Hrest]; subst. cbn [snd] in Hlen.
    destruct (IH Hrest) as (log & sts & Hrun & Hlog & Hkeys).
    cbn [event_statistics filter has_times snd].
    destruct times as [|t times]; [now exists log, sts|].
    destruct (statistics_of_run (t :: times)) as (log1 & st & Hst & Hb & _).
    { cbn [List.length] in *. lia. }
    exists (log1 ++ log ++ []), ((event_name, st) :: sts).
    split; [|split].
    + eapply returns_then; [exact Hst|].
      eapply returns_then; [exact Hrun|apply returns_pure].
    + rewrite app_nil_r. apply Forall_app. now split.
    + cbn [map fst]. now rewrite Hkeys.
Qed.

Lemma overflow_bound_large : 1 < overflow_bound.
Proof. reflexivity. Qed.

(** [get_statistics] on any state that counts no more clients as connected
    than in total and whose lists are of a length a list can have: it
    returns, no division has a zero divisor and every subscript is within
    its list. *)
Lemma get_statistics_returns (self : SocketTestResult) :
  0 <= connected_clients self <= total_clients self ->
  Z.of_nat (List.length (connection_times self)) <= max_size ->
  Forall (fun kv => Z.of_nat (List.length (snd kv)) <= max_size)
         (event_response_times self) ->
  exists log st,
    get_statistics py_sum self = (log, Ok st) /\
    Forall in_bounds log /\
    (connection_time st = None <-> connection_times self = []) /\
    map fst (st_event_response_times st) =
      map fst (filter has_times (event_response_times self)) /\
    total_events_sent st = sum_values (events_sent self) /\
    total_events_received st = sum_values (events_received self).
Proof.
  intros Hclients Hconn Hevents. unfold get_statistics.
  assert (Hrate : exists log rate,
    returns (if 0 <? total_clients self
             then q <~ truediv_ints (connected_clients self)
                                    (total_clients self) ;;
                  pure (Float (fmul q (float_of_int 100)))
             else pure (Int 0)) log rate /\
    Forall in_bounds log).
  { destruct (0 <? total_clients self) eqn:Htot.
    - apply Z.ltb_lt in Htot. do 2 eexists. split.
      + eapply returns_then; [|apply returns_pure].
        unfold returns, truediv_ints, truediv.
        replace (total_clients self =? 0) with false
          by (symmetry; apply Z.eqb_neq; lia).
        replace (overflow_bound * Z.abs (total_clients self) <=?
                 Z.abs (connected_clients self)) with false;
          [reflexivity|].
        symmetry. apply Z.leb_gt.
        pose proof overflow_bound_large as Hlarge.
        rewrite !Z.abs_eq by lia. nia.
      + repeat constructor.
    - do 2 eexists. split; [apply returns_pure|constructor]. }
  destruct Hrate as (log1 & rate & Hrate & Hb1).
  assert (Htimes : exists log ct,
    returns (match connection_times self with
             | [] => pure None
             | _ :: _ => st <~ statistics_of py_sum (connection_times self) ;;
                         pure (Some st)
             end) log ct /\
    Forall in_bounds log /\
    (ct = None <-> connection_times self = [])).
  { destruct (connection_times self) as [|t times] eqn:E.
    - exists [], None. split; [apply returns_pure|]. split; [constructor|].
      tauto.
    - destruct (statistics_of_run (t :: times)) as (log & st & Hst & Hb & _).
      { cbn [List.length] in *. lia. }
      exists (log ++ []), (Some st). split; [|split].
      + eapply returns_then; [exact Hst|apply returns_pure].
      + now rewrite app_nil_r.
      + split; discriminate. }
  destruct Htimes as (log2 & ct & Hct & Hb2 & Hnone).
  destruct (event_statistics_run (event_response_times self) Hevents)
    as (log3 & sts & Hsts & Hb3 & Hkeys).
  eexists (log1 ++ log2 ++ log3 ++ []), _.
  split; [|split; [|split; [|repeat split]]].
  - eapply returns_then; [exact Hrate|].
    eapply returns_then; [exact Hct|].
    eapply returns_then; [exact Hsts|apply returns_pure].
  - rewrite app_nil_r. apply Forall_app. split; [exact Hb1|].
    apply Forall_app. now split.
  - cbn [connection_time]. exact Hnone.
  - cbn [st_event_response_times]. exact Hkeys.
  - reflexivity.
  - reflexivity.
Qed.

End StatisticsFacts.

(** Counters no sequence of calls produces can make the success rate
    overflow. *)
Lemma huge_ratio_overflows :
  snd (truediv_ints (10 ^ 400) 1) = Raise OverflowError.
Proof. vm_compute. reflexivity. Qed.

(** ** States built by the methods *)

Lemma update_lengths (k : string) (t : float) (d : dict (list float))
      (n : nat) :
  Forall (fun kv => (List.length (snd kv) <= n)%nat) d ->
  Forall (fun kv => (List.length (snd kv) <= S n)%nat)
         (update k (fun l => l ++ [t]) d).
Proof.
  induction 1 as [|[k' l] d Hl Hd IH]; [constructor|].
  cbn [update snd] in *.
  destruct (k' =? k)%string; constructor; cbn [snd].
  - rewrite length_app. cbn [List.length]. lia.
  - eapply Forall_impl; [|exact Hd]. cbn. intros; lia.
  - lia.
  - exact IH.
Qed.

Lemma update_default_lengths (k : string) (t : float) (d : dict (list float))
      (n : nat) :
  Forall (fun kv => (List.length (snd kv) <= n)%nat) d ->
  Forall (fun kv => (List.length (snd kv) <= S n)%nat)
         (update_default [] k (fun l => l ++ [t]) d).
Proof.
  intros H. unfold update_default. destruct (contains d k).
  - now apply update_lengths.
  - apply Forall_app. split.
    + eapply Forall_impl; [|exact H]. cbn. intros; lia.
    + constructor; [|constructor]. cbn. lia.
Qed.

(** No list of a result holds more times than calls were made, and no
    more clients are counted as connected than in total. *)
Lemma lists_within_calls (calls : list call) :
  let r := apply_calls init calls in
  (List.length (connection_times r) <= List.length calls)%nat /\
  Forall (fun kv => (List.length (snd kv) <= List.length calls)%nat)
         (event_response_times r) /\
  0 <= connected_clients r <= total_clients r /\
  total_clients r <= Z.of_nat (List.length calls).
Proof.
  induction calls as [|c calls IH] using rev_ind.
  - cbn. repeat split; try lia. constructor.
  - cbn zeta in *. rewrite apply_calls_last, length_app.
    cbn [List.length]. rewrite Nat.add_1_r.
    destruct IH as (H1 & H2 & H3 & H4).
    assert (H2' : Forall (fun kv => (List.length (snd kv) <=
                                     S (List.length calls))%nat)
                         (event_response_times (apply_calls init calls))).
    { eapply Forall_impl; [|exact H2]. cbn. intros; lia. }
    destruct c as [id [|] t msg|id|id e ok|id e [t|]];
      cbn [apply_call add_connection add_disconnection add_event_sent
           add_event_received total_clients connected_clients
           connection_times event_response_times];
      rewrite ?length_app; cbn [List.length];
      repeat split; try lia; try exact H2'.
    now apply update_default_lengths.
Qed.

Section ReachableStatistics.

Variable py_sum : list float -> float.

(** X25. On a result object built by its methods, with any clock readings
    as [start_time] and [end_time], [get_statistics] never raises:
    [connected_clients] is between 0 and [total_clients], so that the
    success rate neither divides by zero nor overflows, every other
    division has a divisor other than zero, and every subscript is within
    its sorted list.  The result has the key
    [connection_time] exactly when a connection time was recorded, and an
    entry in [event_response_times] for exactly the events with at least
    one recorded time. *)
Theorem socket_statistics_safe (calls : list call)
        (started ended : option float) :
  Z.of_nat (List.length calls) <= max_size ->
  let self := set_times (apply_calls init calls) started ended in
  0 <= connected_clients self <= total_clients self /\
  total_clients self <= max_size /\
  exists log st,
    get_statistics py_sum self = (log, Ok st) /\
    Forall in_bounds log /\
    (connection_time st = None <-> connection_times self = []) /\
    map fst (st_event_response_times st) =
      map fst (filter has_times (event_response_times self)) /\
    total_events_sent st = sum_values (events_sent self) /\
    total_events_received st = sum_values (events_received self).
Proof.
  intros Hcalls self.
  destruct (lists_within_calls calls) as (H1 & H2 & H3 & H4).
  cbv zeta in H1, H2, H3, H4. subst self.
  split; [exact H3|].
  split; [cbn [set_times total_clients]; lia|].
  apply get_statistics_returns.
  - exact H3.
  - cbn [set_times connection_times]. lia.
  - cbn [set_times event_response_times].
    eapply Forall_impl; [|exact H2]. cbv beta. intros kv Hkv. lia.
Qed.

End ReachableStatistics.

Lemma socket_statistics_safe_witness :
  exists log st,
    get_statistics sum_left
      (set_times (apply_calls init one_client)
                 (Some (float_of_int 1)) (Some (float_of_int 3))) =
      (log, Ok st) /\
    Forall in_bounds log /\
    total_events_sent st = 1.
Proof.
  destruct (socket_statistics_safe sum_left one_client
              (Some (float_of_int 1)) (Some (float_of_int 3)))
    as (_ & _ & log & st & Hrun & Hb & _ & _ & Hs & _).
  - vm_compute. discriminate.
  - exists log, st. split; [exact Hrun|]. split; [exact Hb|].
    rewrite Hs. vm_compute. reflexivity.
Defined.

End SocketTestFacts.

Module NumeralsFacts.
Import App AppFacts Integrity IntegrityFacts Numerals.

(** ** Reading back what [str] wrote *)

Ltac read_digit :=
  match goal with
  | |- context [digit_of ?c] =>
      let v := eval vm_compute in (digit_of c) in
      change (digit_of c) with v
  end.

Lemma more_digits_of_uint (d : Decimal.uint) (acc : Z) :
  more_digits acc (NilEmpty.string_of_uint d) = Some (digits_value acc d, "").
Proof.
  revert acc.
  induction d; intros acc;
    cbn [NilEmpty.string_of_uint more_digits digits_value];
    [reflexivity|..]; read_digit; cbv beta iota; apply IHd.
Qed.

Lemma digits_value_acc (d : Decimal.uint) (acc : positive) :
  digits_value (Z.pos acc) d = Z.pos (Pos.of_uint_acc d acc).
Proof.
  revert acc. induction d; intros acc; cbn [digits_value Pos.of_uint_acc];
    [reflexivity|..];
    match goal with
    | |- digits_value ?a _ = Z.pos (Pos.of_uint_acc _ ?p) =>
        replace a with (Z.pos p) by lia
    end; apply IHd.
Qed.

Lemma digits_value_of_uint (d : Decimal.uint) :
  digits_value 0 d = Z.of_N (Pos.of_uint d).
Proof.
  induction d; cbn [digits_value Pos.of_uint]; [reflexivity|exact IHd|..];
    match goal with
    | |- digits_value ?a _ = Z.of_N (N.pos (Pos.of_uint_acc _ ?p)) =>
        change a with (Z.pos p)
    end; apply digits_value_acc.
Qed.

Lemma digits_value_to_uint (p : positive) :
  digits_value 0 (Pos.to_uint p) = Z.pos p.
Proof. now rewrite digits_value_of_uint, DecimalPos.Unsigned.of_to. Qed.

(** The digits of a positive number start with a digit other than 0. *)
Lemma to_uint_head (p : positive) :
  match Pos.to_uint p with
  | Decimal.Nil | Decimal.D0 _ => False
  | _ => True
  end.
Proof.
  pose proof (DecimalPos.Unsigned.to_of (Pos.to_uint p)) as H.
  rewrite DecimalPos.Unsigned.of_to in H. cbn [N.to_uint] in H.
  pose proof (DecimalPos.Unsigned.to_uint_nonzero p) as Hnz.
  pose proof (DecimalPos.Unsigned.to_uint_nonnil p) as Hnn.
  destruct (Pos.to_uint p) as [|l| | | | | | | | |] eqn:E; try exact I.
  - congruence.
  - unfold Decimal.unorm in H.
    destruct (Decimal.nzhead (Decimal.D0 l)) eqn:Ehead;
      try (rewrite <- H in Ehead;
           exact (DecimalFacts.nzhead_nonzero _ _ Ehead)).
    apply Hnz. now rewrite H.
Qed.

Lemma unsigned_of_digits (p : positive) :
  unsigned_of_string (NilZero.string_of_uint (Pos.to_uint p)) =
  Some (Z.pos p).
Proof.
  pose proof (to_uint_head p) as Hhead.
  pose proof (digits_value_to_uint p) as Hvalue.
  destruct (Pos.to_uint p) as [|l|l|l|l|l|l|l|l|l|l]; try contradiction;
    cbn [NilZero.string_of_uint NilEmpty.string_of_uint unsigned_of_string];
    read_digit; cbv beta iota; cbn [digits_value] in Hvalue;
    rewrite more_digits_of_uint; cbn [all_space];
    now rewrite <- Hvalue.
Qed.

Lemma is_space_digit (c : ascii) (v : Z) :
  digit_of c = Some v ->
  is_space c = false /\ (c =? "-")%char = false /\ (c =? "+")%char = false.
Proof.
  unfold digit_of, is_space.
  destruct (Nat.leb_spec 48 (nat_of_ascii c)); cbn [andb]; [|discriminate].
  destruct (Nat.leb_spec (nat_of_ascii c) 57); [|discriminate].
  intros _. repeat split.
  - destruct (Nat.leb_spec 9 (nat_of_ascii c)),
             (Nat.leb_spec (nat_of_ascii c) 13),
             (Nat.leb_spec 28 (nat_of_ascii c)),
             (Nat.leb_spec (nat_of_ascii c) 32); cbn; try reflexivity; lia.
  - destruct (Ascii.eqb_spec c "-"); [subst; cbn in *; lia|reflexivity].
  - destruct (Ascii.eqb_spec c "+"); [subst; cbn in *; lia|reflexivity].
Qed.

Lemma int_of_digits (c : ascii) (s : string) (v : Z) :
  digit_of c = Some v ->
  int_of_string (String c s) = unsigned_of_string (String c s).
Proof.
  intros H. destruct (is_space_digit c v H) as (Hs & Hm & Hp).
  unfold int_of_string. cbn [lstrip]. rewrite Hs.
  destruct c as [[] [] [] [] [] [] [] []]; try reflexivity;
    cbn in Hm, Hp; discriminate.
Qed.

Lemma int_of_str (n : Z) : int_of_string (str_int n) = Some n.
Proof.
  unfold str_int. destruct n as [|p|p]; [reflexivity| |].
  - cbn [Z.to_int NilZero.string_of_int].
    rewrite <- (unsigned_of_digits p).
    pose proof (to_uint_head p) as Hhead.
    destruct (Pos.to_uint p) as [|l|l|l|l|l|l|l|l|l|l]; try contradiction;
      cbn [NilZero.string_of_uint NilEmpty.string_of_uint];
      eapply int_of_digits; vm_compute; reflexivity.
  - cbn [Z.to_int NilZero.string_of_int].
    unfold int_of_string. cbn [lstrip].
    change (is_space "-") with false. cbv iota.
    now rewrite unsigned_of_digits.
Qed.

Lemma str_int_inj (n m : Z) : str_int n = str_int m -> n = m.
Proof.
  intros H. pose proof (int_of_str n) as Hn. rewrite H, int_of_str in Hn.
  now injection Hn.
Qed.

(** ** Numbers inside a longer text *)

(** A run of digits followed by a character that is no digit ends at that
    character. *)
Lemma digits_end (c : ascii) (d d' : Decimal.uint) (x y : string) :
  digit_of c = None ->
  (NilEmpty.string_of_uint d ++ String c x)%string =
  (NilEmpty.string_of_uint d' ++ String c y)%string ->
  NilEmpty.string_of_uint d = NilEmpty.string_of_uint d'.
Proof.
  intros Hc. revert d'.
  induction d as [|d IH|d IH|d IH|d IH|d IH|d IH|d IH|d IH|d IH|d IH];
    intros [|l|l|l|l|l|l|l|l|l|l];
    cbn [NilEmpty.string_of_uint append]; intros H;
    try reflexivity; try discriminate H;
    try (injection H as H; f_equal; exact (IH _ H));
    exfalso; injection H as H; intros; subst c; discriminate Hc.
Qed.

Lemma str_int_digits (n : Z) :
  exists d,
    d <> Decimal.Nil /\
    (str_int n = NilEmpty.string_of_uint d \/
     str_int n = String "-" (NilEmpty.string_of_uint d)).
Proof.
  unfold str_int. destruct n as [|p|p].
  - exists (Decimal.D0 Decimal.Nil). split; [discriminate|now left].
  - exists (Pos.to_uint p).
    pose proof (DecimalPos.Unsigned.to_uint_nonnil p) as Hnn.
    split; [exact Hnn|left].
    cbn [Z.to_int NilZero.string_of_int NilZero.string_of_uint].
    now destruct (Pos.to_uint p).
  - exists (Pos.to_uint p).
    pose proof (DecimalPos.Unsigned.to_uint_nonnil p) as Hnn.
    split; [exact Hnn|right].
    cbn [Z.to_int NilZero.string_of_int NilZero.string_of_uint].
    now destruct (Pos.to_uint p).
Qed.

(** [str(n)] followed by a character that is neither a digit nor a minus
    sign: the number can be read off the text. *)
Lemma str_int_end (c : ascii) (n m : Z) (x y : string) :
  digit_of c = None -> c <> "-"%char ->
  (str_int n ++ String c x)%string = (str_int m ++ String c y)%string ->
  n = m.
Proof.
  intros Hc Hminus H. apply str_int_inj.
  destruct (str_int_digits n) as (dn & Hdn & [En|En]),
           (str_int_digits m) as (dm & Hdm & [Em|Em]);
    rewrite En, Em in *.
  - exact (digits_end c dn dm x y Hc H).
  - exfalso. cbn [append] in H.
    destruct dn; try contradiction;
      cbn [NilEmpty.string_of_uint append] in H; discriminate H.
  - exfalso. cbn [append] in H.
    destruct dm; try contradiction;
      cbn [NilEmpty.string_of_uint append] in H; discriminate H.
  - cbn [append] in H. injection H as H. f_equal.
    exact (digits_end c dn dm x y Hc H).
Qed.

Lemma str_int_not_empty (n : Z) : (str_int n =? "")%string = false.
Proof.
  apply String.eqb_neq. intros E.
  pose proof (int_of_str n) as H. rewrite E in H. discriminate H.
Qed.

Lemma py_range_NoDup (lo hi : Z) : NoDup (py_range lo hi).
Proof.
  unfold py_range. apply Finite.Injective_map_NoDup.
  - intros a b. lia.
  - apply seq_NoDup.
Qed.

Lemma default_group_name_inj (i j : Z) :
  default_group_name i = default_group_name j -> i = j.
Proof.
  unfold default_group_name. intros H. injection H as H.
  refine (str_int_end _ i j _ _ _ _ H); [reflexivity|discriminate].
Qed.

Lemma request_name_inj (i j : Z) (s s' : string) :
  request_name i s = request_name j s' -> i = j.
Proof.
  unfold request_name. intros H. cbn [append] in H. injection H as H.
  refine (str_int_end _ i j _ _ _ _ H); [reflexivity|discriminate].
Qed.

(** X26. A question posted with its answer limit typed as the decimal
    text of a number [n] is stored with the limit [n].  This holds for
    the text of 0 as well, which is stored as a limit of 0 and not as no
    limit. *)
Theorem answer_limit_text_is_stored (now : Z) (data : question_body)
        (d : db) (id n : Z) :
  qb_answer_limit data = Val (IsStr (str_int n)) ->
  out_result (serve now (POST_questions data) d) =
    Ok (mk_response 201 (b_id id)) ->
  exists type content,
    questions (out_db (serve now (POST_questions data) d)) =
    questions d ++
    [mk_question id type content (dumped_options (qb_options data))
                 (get (qb_time_limit data)) (Some n) (Some now)].
Proof.
  intros Hlimit Hserved.
  destruct (create_question_done now data d id Hserved)
    as (type & content & answer_limit & _ & _ & Hq & _ & _ & _ & Hint).
  exists (varchar 20 type), content. rewrite Hq. do 7 f_equal.
  rewrite Hlimit in Hint. cbn [get] in Hint.
  specialize (Hint _ eq_refl). cbn [truthy_num int] in Hint.
  rewrite str_int_not_empty, int_of_str in Hint.
  symmetry. exact (Hint eq_refl).
Qed.

Lemma answer_limit_text_is_stored_witness :
  qb_answer_limit (text_question "0") = Val (IsStr (str_int 0)) /\
  out_result (serve 20 (POST_questions (text_question "0")) empty_db) =
    Ok (mk_response 201 (b_id 1)) /\
  exists type content,
    questions
      (out_db (serve 20 (POST_questions (text_question "0")) empty_db)) =
    questions empty_db ++
    [mk_question 1 type content
                 (dumped_options (qb_options (text_question "0")))
                 (get (qb_time_limit (text_question "0"))) (Some 0)
                 (Some 20)].
Proof.
  split; [reflexivity|]. split; [reflexivity|].
  exact (answer_limit_text_is_stored 20 (text_question "0") empty_db 1 0
           eq_refl eq_refl).
Defined.

(** X27. Where an activity has no custom list of group names, the names
    [get_activity_groups] generates are pairwise distinct, whatever the
    stored count is. *)
Theorem generated_groups_are_distinct (groups : option json)
        (groups_count : option Z) :
  (forall g gs, groups <> Some (JArr (g :: gs))) ->
  NoDup (group_list groups groups_count).
Proof.
  intros Hno.
  assert (Hgen : NoDup (if truthy_int groups_count
                        then match groups_count with
                             | Some k =>
                                 map default_group_name (py_range 1 (k + 1))
                             | None => []
                             end
                        else [])).
  { destruct (truthy_int groups_count); [|constructor].
    destruct groups_count as [k|]; [|constructor].
    apply Finite.Injective_map_NoDup; [|apply py_range_NoDup].
    intros i j. apply default_group_name_inj. }
  unfold group_list.
  destruct groups as [[| | | |[|g gs]|]|]; try exact Hgen.
  now elim (Hno g gs).
Qed.

Lemma generated_groups_are_distinct_witness :
  (forall g gs, Some (JStr "x") <> Some (JArr (g :: gs))) /\
  NoDup (group_list (Some (JStr "x")) (Some 3)).
Proof.
  split; [discriminate|].
  apply (generated_groups_are_distinct (Some (JStr "x")) (Some 3)).
  discriminate.
Defined.

(** X28. The requests of one run of [run_load_test] carry pairwise
    distinct names, whatever the random suffixes are: the number of the
    request can be read off its name. *)
Theorem request_names_are_distinct (num_requests : Z)
        (suffix : Z -> string) :
  NoDup (request_names num_requests suffix) /\
  List.length (request_names num_requests suffix) =
    Z.to_nat num_requests.
Proof.
  unfold request_names. split.
  - apply Finite.Injective_map_NoDup; [|apply py_range_NoDup].
    intros i j. apply request_name_inj.
  - rewrite length_map, py_range_length. f_equal. lia.
Qed.

Lemma append_inj_l (a x y : string) :
  (a ++ x)%string = (a ++ y)%string -> x = y.
Proof.
  induction a as [|c a IH]; cbn [append]; intros H; [exact H|].
  injection H as H. exact (IH H).
Qed.

(** X29. The clients of one run of [run_socket_load_test] have pairwise
    distinct ids, whatever the client type is called, so that no two of
    them share an entry of [client_states]. *)
Theorem client_ids_are_distinct (client_type : string) (num_clients : Z) :
  NoDup (client_ids client_type num_clients) /\
  List.length (client_ids client_type num_clients) = Z.to_nat num_clients.
Proof.
  unfold client_ids. split.
  - apply Finite.Injective_map_NoDup; [|apply py_range_NoDup].
    intros i j H. apply append_inj_l in H. cbn [append] in H.
    injection H as H. exact (str_int_inj i j H).
  - rewrite length_map, py_range_length. f_equal. lia.
Qed.

End NumeralsFacts.
